(** * pytorch-3dunet: the configuration loader and the [UNet3DTrainer] harness

    A shallow embedding of [pytorch3dunet/unet3d/config.py] and
    [pytorch3dunet/unet3d/trainer.py].

    The harness only sequences calls into the deep-learning framework, so the
    framework itself is kept abstract: tensors, modules and optimizers are
    section variables, and every call into the framework is recorded as an
    event of a trace.  What is modelled concretely is what the two files
    decide themselves: dictionary accesses and updates on the configuration
    (a store of mutable Python objects, so that aliasing is visible), the
    control flow of the three training loops, the clock readings they take,
    the counters they keep, and the exceptions they let through or catch. *)

From stdpp Require Import gmap strings list.
From Stdlib Require Import QArith Qfield Lia.

Local Open Scope string_scope.
Local Open Scope Z_scope.

(** ** Python exceptions and the state-and-exception monad *)

Inductive exn_class :=
  | KeyError | IndexError | TypeError | AttributeError | NameError
  | ValueError | ZeroDivisionError | AssertionError
  | RuntimeError | NotImplementedError | OtherException.

Record exn := Exn { exn_cls : exn_class; exn_msg : string }.

(** [except RuntimeError] also catches the subclasses of [RuntimeError]. *)
Definition is_RuntimeError (e : exn) : bool :=
  match exn_cls e with
  | RuntimeError | NotImplementedError => true
  | _ => false
  end.

(** Python's [LookupError] is the base class of [KeyError] and [IndexError]. *)
Definition is_LookupError (e : exn) : bool :=
  match exn_cls e with
  | KeyError | IndexError => true
  | _ => false
  end.

Inductive result (A : Type) :=
  | Ok (a : A)
  | Raise (e : exn).
Arguments Ok {A} a.
Arguments Raise {A} e.

(** A computation reads and writes a state [S]; an exception leaves the state
    as it was when the exception was raised, as in Python. *)
Definition M (S A : Type) : Type := S → S * result A.

Definition ret {S A} (a : A) : M S A := λ s, (s, Ok a).

Definition bind {S A B} (c : M S A) (k : A → M S B) : M S B :=
  λ s, match c s with
       | (s', Ok a) => k a s'
       | (s', Raise e) => (s', Raise e)
       end.

Definition raise {S A} (e : exn) : M S A := λ s, (s, Raise e).
Definition get {S} : M S S := λ s, (s, Ok s).
Definition put {S} (s : S) : M S unit := λ _, (s, Ok tt).
Definition modify {S} (f : S → S) : M S unit := λ s, (f s, Ok tt).
Definition lift {S A} (r : result A) : M S A := λ s, (s, r).

(** [try: c  except RuntimeError as e: h e] *)
Definition try_except_RuntimeError {S A} (c : M S A) (h : exn → M S A) : M S A :=
  λ s, match c s with
       | (s', Ok a) => (s', Ok a)
       | (s', Raise e) => if is_RuntimeError e then h e s' else (s', Raise e)
       end.

Declare Scope py_scope.
Delimit Scope py_scope with py.
Notation "x <- c ;; k" := (bind c (λ x, k))
  (at level 100, c at next level, right associativity) : py_scope.
Notation "c ;;; k" := (bind c (λ _, k))
  (at level 100, right associativity) : py_scope.
Local Open Scope py_scope.

(** ** Python values and the object store *)

Definition loc := positive.

(** A [torch.device]: its [type] attribute and its [str()]. *)
Record device := Device { dev_type : string; dev_repr : string }.

(** Values that a configuration can hold.  Dictionaries and lists are
    mutable objects, held in the store and referred to by [VRef]; two keys
    bound to the same [VRef] share one object (YAML anchors and aliases load
    that way).  Mapping keys are strings, as every key the two files use. *)
Inductive value :=
  | VNone
  | VBool (b : bool)
  | VInt (z : Z)
  | VFloat (q : Q)
  | VStr (s : string)
  | VDevice (d : device)
  | VRef (l : loc).

Inductive object :=
  | ODict (m : gmap string value)
  | OList (l : list value).

Abbreviation heap := (gmap loc object).

(** Python truth value of a configuration entry. *)
Definition truthy (h : heap) (v : value) : bool :=
  match v with
  | VNone => false
  | VBool b => b
  | VInt z => negb (z =? 0)
  | VFloat q => negb (Qeq_bool q 0)
  | VStr s => negb (String.eqb s "")
  | VDevice _ => true
  | VRef l =>
      match h !! l with
      | Some (ODict m) => negb (bool_decide (m = ∅))
      | Some (OList l) => negb (bool_decide (length l = 0%nat))
      | None => true
      end
  end.

(** What the logger and [print] receive: a format and its arguments. *)
Inductive log_entry :=
  | LogInfo (fmt : string) (args : list value)
  | LogWarning (fmt : string) (args : list value)
  | Print (fmt : string) (args : list value).

(** The state of the configuration code: the object store and the log. *)
Record cstate := CState { st_heap : heap; st_log : list log_entry }.

Definition emit (e : log_entry) : M cstate unit :=
  modify (λ s, CState (st_heap s) (st_log s ++ [e])).

(** [d.get(k, default)] *)
Definition dict_get (d : value) (k : string) (default : value) : M cstate value :=
  s <- get ;;
  match d with
  | VRef l =>
      match st_heap s !! l with
      | Some (ODict m) => ret (match m !! k with Some v => v | None => default end)
      | _ => raise (Exn AttributeError "get")
      end
  | _ => raise (Exn AttributeError "get")
  end.

(** [d[k]] *)
Definition getitem (d : value) (k : string) : M cstate value :=
  s <- get ;;
  match d with
  | VRef l =>
      match st_heap s !! l with
      | Some (ODict m) =>
          match m !! k with
          | Some v => ret v
          | None => raise (Exn KeyError k)
          end
      | _ => raise (Exn TypeError "indices must be integers")
      end
  | VStr _ => raise (Exn TypeError "indices must be integers")
  | _ => raise (Exn TypeError "object is not subscriptable")
  end.

(** [d[k] = v] *)
Definition setitem (d : value) (k : string) (v : value) : M cstate unit :=
  s <- get ;;
  match d with
  | VRef l =>
      match st_heap s !! l with
      | Some (ODict m) =>
          put (CState (<[l := ODict (<[k := v]> m)]> (st_heap s)) (st_log s))
      | _ => raise (Exn TypeError "indices must be integers")
      end
  | _ => raise (Exn TypeError "object does not support item assignment")
  end.

(** [d.pop(k, default)] *)
Definition dict_pop (d : value) (k : string) (default : value) : M cstate value :=
  s <- get ;;
  match d with
  | VRef l =>
      match st_heap s !! l with
      | Some (ODict m) =>
          put (CState (<[l := ODict (delete k m)]> (st_heap s)) (st_log s)) ;;;
          ret (match m !! k with Some v => v | None => default end)
      | Some (OList _) => raise (Exn TypeError "pop")
      | None => raise (Exn AttributeError "pop")
      end
  | _ => raise (Exn AttributeError "pop")
  end.

(** ** [config.py] *)

(** The flags as given on the command line: a value flag is [None] when it
    is not given, a [store_true] flag is [true] when it is given. *)
Record cmdline := CmdLine {
  c_config : string;
  c_batch_size : option Z;
  c_precision : option string;
  c_channels_last : option Z;
  c_jit : bool;
  c_profile : bool;
  c_num_iter : option Z;
  c_num_warmup : option Z;
  c_device : option string;
  c_nv_fuser : bool;
  c_ipex : bool
}.

(** The [argparse] namespace. *)
Record namespace := Namespace {
  a_config : string;
  a_batch_size : Z;
  a_precision : string;
  a_channels_last : Z;
  a_jit : bool;
  a_profile : bool;
  a_num_iter : Z;
  a_num_warmup : Z;
  a_device : string;
  a_nv_fuser : bool;
  a_ipex : bool
}.

(** [parser.parse_args()] with the defaults of the [add_argument] calls. *)
Definition parse_args (c : cmdline) : namespace :=
  {| a_config := c_config c;
     a_batch_size := default 1 (c_batch_size c);
     a_precision := default "float32" (c_precision c);
     a_channels_last := default 1 (c_channels_last c);
     a_jit := c_jit c;
     a_profile := c_profile c;
     a_num_iter := default 200 (c_num_iter c);
     a_num_warmup := default 20 (c_num_warmup c);
     a_device := default "cpu" (c_device c);
     a_nv_fuser := c_nv_fuser c;
     a_ipex := c_ipex c |}.

Definition no_flags (path : string) : cmdline :=
  CmdLine path None None None false false None None None false false.

Section Config.

(** [torch.device(s)]: [None] stands for the [RuntimeError] that the
    framework raises on a string it does not accept. *)
Variable torch_device : string → option device.

(** [torch.cuda.is_available()] *)
Variable cuda_is_available : bool.

(** [device_str.startswith('cuda')] *)
Definition startswith_cuda (v : value) : M cstate bool :=
  match v with
  | VStr s => ret (String.prefix "cuda" s)
  | _ => raise (Exn AttributeError "startswith")
  end.

(** The block "Get a device to train on", lines 29-36, on the value of
    [config.get('device', None)]. *)
Definition device_from_config (device_str : value) : M cstate value :=
  match device_str with
  | VNone =>
      let device_str := VStr (if cuda_is_available then "cuda:0" else "cpu") in
      emit (LogInfo "Using '{}' device" [device_str]) ;;;
      ret device_str
  | _ =>
      emit (LogInfo "Device specified in config: '{}'" [device_str]) ;;;
      is_cuda <- startswith_cuda device_str ;;
      if is_cuda && negb cuda_is_available then
        emit (LogWarning "CUDA not available, using CPU" []) ;;;
        ret (VStr "cpu")
      else ret device_str
  end.

(** [load_config], from the point where the YAML file has been loaded:
    [config] is the value that [yaml.safe_load] returned, and the objects
    it refers to are in the store. *)
Definition load_config (cmd : cmdline) (config : value) : M cstate value :=
  let args := parse_args cmd in
  device_str <- dict_get config "device" VNone ;;
  device_str <- device_from_config device_str ;;
  let device_str := a_device args in
  device <-
    match torch_device device_str with
    | Some d => ret d
    | None => raise (Exn RuntimeError device_str)
    end ;;
  setitem config "device" (VDevice device) ;;;
  setitem config "device_str" (VStr device_str) ;;;
  loaders <- getitem config "loaders" ;;
  setitem loaders "batch_size" (VInt (a_batch_size args)) ;;;
  setitem config "precision" (VStr (a_precision args)) ;;;
  setitem config "channels_last" (VInt (a_channels_last args)) ;;;
  setitem config "jit" (VBool (a_jit args)) ;;;
  setitem config "profile" (VBool (a_profile args)) ;;;
  setitem config "num_iter" (VInt (a_num_iter args)) ;;;
  setitem config "num_warmup" (VInt (a_num_warmup args)) ;;;
  setitem config "nv_fuser" (VBool (a_nv_fuser args)) ;;;
  setitem config "ipex" (VBool (a_ipex args)) ;;;
  ret config.

End Config.

(** ** The framework interface *)

Inductive dtype := Float16 | BFloat16 | Float32.

(** Python floats as far as the harness inspects them: the order of two
    floats is exact, so a finite float is kept as the rational it denotes;
    sums and quotients of clock readings are taken in exact arithmetic
    (rounding is not modelled). *)
Inductive pyfloat := NaN | NegInf | Finite (q : Q) | PosInf.

(** [a < b] on floats; every comparison with [nan] is false. *)
Definition float_lt (a b : pyfloat) : bool :=
  match a, b with
  | NaN, _ | _, NaN => false
  | NegInf, NegInf => false
  | NegInf, _ => true
  | Finite _, NegInf => false
  | Finite x, Finite y => negb (Qle_bool y x)
  | Finite _, PosInf => true
  | PosInf, _ => false
  end.

Definition float_gt (a b : pyfloat) : bool := float_lt b a.

(** What [utils.load_checkpoint] returns of a checkpoint file, as far as the
    constructor reads it. *)
Record loaded_state := LoadedState {
  ls_best_eval_score : pyfloat;
  ls_num_iterations : Z;
  ls_num_epochs : Z
}.

(** The primitives of the deep-learning framework, of the modules of this
    package that the two files import ([model], [losses], [metrics],
    [datasets.utils], [utils]) and of the operating system that the harness
    calls.  A call that the harness guards with [try] or that can fail on a
    configuration returns a [result]. *)
Class Framework := {
  tensor : Type;
  module : Type;
  optimizer : Type;
  criterion : Type;
  scheduler : Type;
  formatter : Type;
  loaders : Type;
  (* torch.nn *)
  DataParallel : module → module;
  isinstance_DataParallel : module → bool;
  inner_module : module → module;
  state_dict : module → list (string * tensor);
  optimizer_state_dict : optimizer → list (string * tensor);
  module_to_device : module → value → result module;
  module_to_channels_last_3d : module → result module;
  (* torch.cuda, torch.xpu *)
  cuda_device_count : Z;
  xpu_optimize : module → optimizer → dtype → result (module * optimizer);
  (* pytorch3dunet *)
  get_model : heap → value → result module;
  get_number_of_learnable_parameters : module → Z;
  get_loss_criterion : heap → value → result criterion;
  get_evaluation_metric : heap → value → result criterion;
  get_train_loaders : heap → value → result loaders;
  create_optimizer : heap → value → module → result optimizer;
  create_lr_scheduler : heap → value → optimizer → result scheduler;
  get_tensorboard_formatter : heap → value → result formatter;
  load_checkpoint : string → module → option optimizer →
                    result (loaded_state * module * option optimizer);
  (* os.path.split(p)[0] *)
  os_path_split_head : string → string;
  (* tensors *)
  tensor_to_device : tensor → device → tensor;
  tensor_to_channels_last_3d : tensor → result tensor;
  model_call : module → string → dtype → tensor → tensor;
  loss_call : criterion → string → dtype → tensor → tensor → option tensor → tensor;
  optimizer_step : module → optimizer → tensor → module * optimizer;
  (* time.time(): the k-th reading of the wall clock *)
  clock : nat → Q
}.

(** ** [trainer.py]: [create_trainer] *)

Section CreateTrainer.

Context `{Framework}.

(** A call of a function of the package on (part of) the configuration. *)
Definition call {A} (f : heap → result A) : M cstate A :=
  s <- get ;; lift (f (st_heap s)).

(** [device.type] *)
Definition device_type (v : value) : M cstate string :=
  match v with
  | VDevice d => ret (dev_type d)
  | _ => raise (Exn AttributeError "type")
  end.

(** [v == s] and [v != s] for a string literal [s]: only a string is equal
    to a string; a [torch.device] never is. *)
Definition eq_str (v : value) (s : string) : bool :=
  match v with
  | VStr s' => String.eqb s' s
  | _ => false
  end.

Definition ne_str (v : value) (s : string) : bool := negb (eq_str v s).

(** [v.__str__() == s] for the string literal ["xpu"]. *)
Definition str_is (v : value) (s : string) : bool :=
  match v with
  | VStr s' => String.eqb s' s
  | VDevice d => String.eqb (dev_repr d) s
  | _ => false
  end.

(** [torch.float16 if p == "float16" else torch.bfloat16 if p == "bfloat16"
    else torch.float] *)
Definition datatype_of (p : value) : dtype :=
  if eq_str p "float16" then Float16
  else if eq_str p "bfloat16" then BFloat16
  else Float32.

(** The keyword arguments of the call [UNet3DTrainer(...)] that ends
    [create_trainer]; [ta_kwargs] is [**trainer_config]. *)
Record trainer_args := TrainerArgs {
  ta_model : module;
  ta_optimizer : optimizer;
  ta_lr_scheduler : scheduler;
  ta_loss_criterion : criterion;
  ta_eval_criterion : criterion;
  ta_tensorboard_formatter : formatter;
  ta_device : value;
  ta_loaders : loaders;
  ta_resume : value;
  ta_pre_trained : value;
  ta_config : value;
  ta_kwargs : value
}.

(** The conversion of the model to the channels-last layout, lines 33-39. *)
Definition model_channels_last (model : module) : M cstate module :=
  try_except_RuntimeError
    (model <- lift (module_to_channels_last_3d model) ;;
     emit (Print "--- use NDHWC format" []) ;;;
     ret model)
    (λ e,
     emit (Print "---- use normal format" []) ;;;
     emit (Print "failed to enable NHWC: " [VStr (exn_msg e)]) ;;;
     ret model).

(** Lines 21-31: the model, wrapped in [DataParallel] when several GPUs
    are there, on its device. *)
Definition create_model (config : value) : M cstate (module * value) :=
  model_config <- getitem config "model" ;;
  model <- call (λ h, get_model h model_config) ;;
  device <- getitem config "device" ;;
  model <-
    (if 1 <? cuda_device_count then
       ty <- device_type device ;;
       if negb (String.eqb ty "cpu") then
         emit (LogInfo "Using {} GPUs for training" [VInt cuda_device_count]) ;;;
         ret (DataParallel model)
       else ret model
     else ret model) ;;
  d <- getitem config "device" ;;
  emit (LogInfo "Sending the model to '{}'" [d]) ;;;
  model <- lift (module_to_device model device) ;;
  ret (model, device).

(** Lines 41-80: everything after the layout of the model is settled. *)
Definition create_trainer_tail (config : value) (model : module) : M cstate trainer_args :=
  emit (LogInfo "Number of learnable params {}"
          [VInt (get_number_of_learnable_parameters model)]) ;;;
  loss_criterion <- call (λ h, get_loss_criterion h config) ;;
  eval_criterion <- call (λ h, get_evaluation_metric h config) ;;
  loaders <- call (λ h, get_train_loaders h config) ;;
  optimizer_config <- getitem config "optimizer" ;;
  optimizer <- call (λ h, create_optimizer h optimizer_config model) ;;
  d <- getitem config "device" ;;
  mo <-
    (if str_is d "xpu" then
       precision <- getitem config "precision" ;;
       mo <- lift (xpu_optimize model optimizer (datatype_of precision)) ;;
       emit (Print "---- enable xpu optimize" []) ;;;
       ret mo
     else ret (model, optimizer)) ;;
  let model := fst mo in
  let optimizer := snd mo in
  lr_config <- dict_get config "lr_scheduler" VNone ;;
  lr_scheduler <- call (λ h, create_lr_scheduler h lr_config optimizer) ;;
  trainer_config <- getitem config "trainer" ;;
  formatter_config <- dict_pop trainer_config "tensorboard_formatter" VNone ;;
  tensorboard_formatter <- call (λ h, get_tensorboard_formatter h formatter_config) ;;
  resume <- dict_pop trainer_config "resume" VNone ;;
  pre_trained <- dict_pop trainer_config "pre_trained" VNone ;;
  d <- getitem config "device" ;;
  ret {| ta_model := model;
         ta_optimizer := optimizer;
         ta_lr_scheduler := lr_scheduler;
         ta_loss_criterion := loss_criterion;
         ta_eval_criterion := eval_criterion;
         ta_tensorboard_formatter := tensorboard_formatter;
         ta_device := d;
         ta_loaders := loaders;
         ta_resume := resume;
         ta_pre_trained := pre_trained;
         ta_config := config;
         ta_kwargs := trainer_config |}.

(** [create_trainer], up to the call of the constructor: [Ok args] says
    that line 69 is reached with the arguments [args], not that the call
    returns. *)
Definition create_trainer (config : value) : M cstate trainer_args :=
  md <- create_model config ;;
  let model := fst md in
  let device := snd md in
  channels_last <- getitem config "channels_last" ;;
  s <- get ;;
  model <-
    (if truthy (st_heap s) channels_last && ne_str device "xpu"
     then model_channels_last model
     else ret model) ;;
  create_trainer_tail config model.

End CreateTrainer.

(** ** [trainer.py]: the [UNet3DTrainer] object *)

(** The entries of [self.config] that [train] reads; [load_config] writes
    each of them from the command line. *)
Record train_config := TrainConfig {
  cfg_profile : bool;
  cfg_device_str : string;
  cfg_channels_last : Z;
  cfg_num_iter : Z;
  cfg_num_warmup : Z;
  cfg_precision : string;
  cfg_batch_size : Z
}.


Definition set_channels_last (z : Z) (c : train_config) : train_config :=
  TrainConfig (cfg_profile c) (cfg_device_str c) z (cfg_num_iter c)
    (cfg_num_warmup c) (cfg_precision c) (cfg_batch_size c).

(** [os.path.join(a, b)] on a POSIX system. *)
Definition os_path_join (a b : string) : string :=
  if String.prefix "/" b then b
  else if String.eqb a "" then b
  else if String.eqb (String.substring (String.length a - 1) 1 a) "/" then a ++ b
  else a ++ "/" ++ b.

(** The names bound at module level in [trainer.py]. *)
Definition trainer_globals : list string :=
  [ "os"; "time"; "torch"; "nn"; "ReduceLROnPlateau"; "SummaryWriter";
    "get_train_loaders"; "get_loss_criterion"; "get_evaluation_metric";
    "get_model"; "get_logger"; "get_tensorboard_formatter"; "create_optimizer";
    "create_lr_scheduler"; "get_number_of_learnable_parameters"; "utils";
    "logger"; "create_trainer"; "UNet3DTrainer" ].

Section Trainer.

Context `{Framework}.

(** The fields of [self]. *)
Record trainer := Trainer {
  self_model : module;
  self_optimizer : optimizer;
  self_scheduler : scheduler;
  self_loss_criterion : criterion;
  self_eval_criterion : criterion;
  self_device : device;
  self_train_loader : list (list tensor);
  self_checkpoint_dir : string;
  self_max_num_epochs : Z;
  self_max_num_iterations : Z;
  self_eval_score_higher_is_better : bool;
  self_config : train_config;
  self_best_eval_score : pyfloat;
  self_tensorboard_formatter : formatter;
  self_num_iterations : Z;
  self_num_epochs : Z
}.

Definition set_model_optimizer (mo : module * optimizer) (s : trainer) : trainer :=
  Trainer (fst mo) (snd mo) (self_scheduler s) (self_loss_criterion s)
    (self_eval_criterion s) (self_device s) (self_train_loader s)
    (self_checkpoint_dir s) (self_max_num_epochs s) (self_max_num_iterations s)
    (self_eval_score_higher_is_better s) (self_config s) (self_best_eval_score s)
    (self_tensorboard_formatter s) (self_num_iterations s) (self_num_epochs s).

Definition set_best_eval_score (x : pyfloat) (s : trainer) : trainer :=
  Trainer (self_model s) (self_optimizer s) (self_scheduler s) (self_loss_criterion s)
    (self_eval_criterion s) (self_device s) (self_train_loader s)
    (self_checkpoint_dir s) (self_max_num_epochs s) (self_max_num_iterations s)
    (self_eval_score_higher_is_better s) (self_config s) x
    (self_tensorboard_formatter s) (self_num_iterations s) (self_num_epochs s).

Definition set_num_iterations (i : Z) (s : trainer) : trainer :=
  Trainer (self_model s) (self_optimizer s) (self_scheduler s) (self_loss_criterion s)
    (self_eval_criterion s) (self_device s) (self_train_loader s)
    (self_checkpoint_dir s) (self_max_num_epochs s) (self_max_num_iterations s)
    (self_eval_score_higher_is_better s) (self_config s) (self_best_eval_score s)
    (self_tensorboard_formatter s) i (self_num_epochs s).

Definition set_num_epochs (n : Z) (s : trainer) : trainer :=
  Trainer (self_model s) (self_optimizer s) (self_scheduler s) (self_loss_criterion s)
    (self_eval_criterion s) (self_device s) (self_train_loader s)
    (self_checkpoint_dir s) (self_max_num_epochs s) (self_max_num_iterations s)
    (self_eval_score_higher_is_better s) (self_config s) (self_best_eval_score s)
    (self_tensorboard_formatter s) (self_num_iterations s) n.

Definition set_checkpoint_dir (d : string) (s : trainer) : trainer :=
  Trainer (self_model s) (self_optimizer s) (self_scheduler s) (self_loss_criterion s)
    (self_eval_criterion s) (self_device s) (self_train_loader s)
    d (self_max_num_epochs s) (self_max_num_iterations s)
    (self_eval_score_higher_is_better s) (self_config s) (self_best_eval_score s)
    (self_tensorboard_formatter s) (self_num_iterations s) (self_num_epochs s).

(** The record that [_save_checkpoint] builds: a dictionary literal. *)
Inductive checkpoint_value :=
  | CInt (z : Z)
  | CFloat (x : pyfloat)
  | CStateDict (sd : list (string * tensor)).

Definition checkpoint := list (string * checkpoint_value).

(** Which instant of an iteration a reading of the clock gives. *)
Inductive clock_use := StartTime | ClStartTime | ClEndTime | EndTime.

(** What the trainer does to the world outside its own fields, in order. *)
Inductive event :=
  | ELogIteration (num_iterations max_num_iterations num_epochs last_epoch : Z)
  | ELogInfo (msg : string)
  | EPrint (msg : string)
  | EModelTrain
  | ETime (u : clock_use) (t : Q)
  | EToDevice (t : list tensor) (d : device)
  | EToChannelsLast (x : tensor)
  | EProfilerLegacyEnter
  | EProfilerLegacyExit
  | EProfilerEnter (activities : list string) (wait : Z)
  | EProfilerExit
  | EProfilerStep
  | EProfilerDump
  | EAutocastEnter (dev : string) (dt : dtype)
  | EAutocastExit
  | EForward (input : tensor)
  | ELoss (output target : tensor) (weight : option tensor)
  | ELossUpdate (loss input : tensor)
  | EZeroGrad
  | EBackward (loss : tensor)
  | EOptimizerStep
  | EToCpu (t : tensor)
  | ESynchronize (dev : string)
  | EPrintIteration (i : Z) (duration : Q)
  | EPrintCounted (i : Z)
  | EPrintTotals (total_time : Q) (total_count : Z)
  | EPrintLatency (latency : Q)
  | EPrintThroughput (perf : Q).

(** The world of a trainer: its fields, how many times the clock has been
    read, the trace of events, and the files written. *)
Record world := World {
  w_self : trainer;
  w_ticks : nat;
  w_trace : list event;
  w_files : gmap string checkpoint
}.

Definition self : M world trainer := w <- get ;; ret (w_self w).

Definition set_self (f : trainer → trainer) : M world unit :=
  modify (λ w, World (f (w_self w)) (w_ticks w) (w_trace w) (w_files w)).

Definition trace (e : event) : M world unit :=
  modify (λ w, World (w_self w) (w_ticks w) (w_trace w ++ [e]) (w_files w)).

(** [time.time()] *)
Definition time_time (u : clock_use) : M world Q :=
  w <- get ;;
  let t := clock (w_ticks w) in
  put (World (w_self w) (S (w_ticks w)) (w_trace w ++ [ETime u t]) (w_files w)) ;;;
  ret t.

(** [with ctx: body]: the context is left on every way out of the body. *)
Definition with_context {A} (enter leave : event) (body : M world A) : M world A :=
  λ w, let '(w', r) := (trace enter ;;; body) w in (fst (trace leave w'), r).

(** A global name of the module, looked up when the code runs. *)
Definition load_global (name : string) : M world value :=
  if bool_decide (name ∈ trainer_globals) then ret VNone
  else raise (Exn NameError name).

(** [v.a] on a value of the configuration: none of them has attribute [a]. *)
Definition getattr (v : value) (a : string) : M world value :=
  raise (Exn AttributeError a).

(** [a / b] on numbers. *)
Definition truediv (a b : Q) : M world Q :=
  if Qeq_bool b 0 then raise (Exn ZeroDivisionError "division by zero")
  else ret (a / b)%Q.

(** [_split_training_batch] *)
Definition _split_training_batch (t : list tensor) : M world (tensor * tensor * option tensor) :=
  s <- self ;;
  trace (EToDevice t (self_device s)) ;;;
  match map (λ x, tensor_to_device x (self_device s)) t with
  | [input; target] => ret (input, target, None)
  | [input; target; weight] => ret (input, target, Some weight)
  | _ => raise (Exn ValueError "unpack")
  end.

(** [_forward_pass], called inside [autocast(enabled=True, dtype=datatype)]
    of the device kind [dev]. *)
Definition _forward_pass (dev : string) (datatype : dtype)
    (input target : tensor) (weight : option tensor) : M world (tensor * tensor) :=
  s <- self ;;
  trace (EForward input) ;;;
  let output := model_call (self_model s) dev datatype input in
  trace (ELoss output target weight) ;;;
  let loss := loss_call (self_loss_criterion s) dev datatype output target weight in
  ret (output, loss).

Definition autocast_forward_pass (dev : string) (datatype : dtype)
    (input target : tensor) (weight : option tensor) : M world (tensor * tensor) :=
  with_context (EAutocastEnter dev datatype) EAutocastExit
    (_forward_pass dev datatype input target weight).

(** [self.optimizer.zero_grad(); loss.backward(); self.optimizer.step()] *)
Definition update_parameters (loss : tensor) : M world unit :=
  trace EZeroGrad ;;;
  trace (EBackward loss) ;;;
  trace EOptimizerStep ;;;
  set_self (λ s, set_model_optimizer
                   (optimizer_step (self_model s) (self_optimizer s) loss) s).

(** The conversion of the input to channels-last, as both the
    generic-profiled and the unprofiled loop have it. *)
Definition input_channels_last (input : tensor) : M world tensor :=
  s <- self ;;
  let cfg := self_config s in
  if negb (cfg_channels_last cfg =? 0) && negb (String.eqb (cfg_device_str cfg) "xpu")
  then
    try_except_RuntimeError
      (trace (EToChannelsLast input) ;;;
       input <- lift (tensor_to_channels_last_3d input) ;;
       trace (EPrint "---input use NDHWC format") ;;;
       ret input)
      (λ e,
       trace (EPrint "----input use normal format") ;;;
       trace (EPrint ("failed to enable NHWC: " ++ exn_msg e)) ;;;
       ret input)
  else ret input.

(** [if self.num_iterations >= num_warmup and self.num_iterations < last_iter] *)
Definition count_perf (last_iter : Z) (duration : Q) (totals : Q * Z) : M world (Q * Z) :=
  s <- self ;;
  let i := self_num_iterations s in
  if (cfg_num_warmup (self_config s) <=? i) && (i <? last_iter) then
    trace (EPrintCounted i) ;;;
    ret ((fst totals + duration)%Q, snd totals + 1)
  else ret totals.

(** The end of each loop body: [break] when [num_iter] is reached (the
    result [true]), otherwise count the iteration. *)
Definition break_or_count : M world bool :=
  s <- self ;;
  if cfg_num_iter (self_config s) <=? self_num_iterations s then ret true
  else set_self (set_num_iterations (self_num_iterations s + 1)) ;;; ret false.

Definition log_iteration : M world unit :=
  s <- self ;;
  trace (ELogIteration (self_num_iterations s) (self_max_num_iterations s)
           (self_num_epochs s) (self_max_num_epochs s - 1)).

(** The body of the loop of the accelerator-profiled path, lines 206-250.
    [totals] is [(total_time, total_count)]; the result says whether the
    loop is left by [break]. *)
Definition iteration_xpu_profile (profile_len last_iter : Z) (datatype : dtype)
    (t : list tensor) (totals : Q * Z) : M world (Q * Z * bool) :=
  log_iteration ;;;
  start_time <- time_time StartTime ;;
  itw <- _split_training_batch t ;;
  let '(input, target, weight) := itw in
  ol <- with_context EProfilerLegacyEnter EProfilerLegacyExit
          (autocast_forward_pass "xpu" datatype input target weight) ;;
  let '(output, loss) := ol in
  trace (ELossUpdate loss input) ;;;
  update_parameters loss ;;;
  trace (EToCpu output) ;;;
  trace (EToCpu loss) ;;;
  trace (ESynchronize "xpu") ;;;
  end_time <- time_time EndTime ;;
  let duration := (end_time - start_time)%Q in
  s <- self ;;
  trace (EPrintIteration (self_num_iterations s) duration) ;;;
  totals <- count_perf last_iter duration totals ;;
  args <- load_global "args" ;;
  profile <- getattr args "profile" ;;
  s <- self ;;
  (if truthy ∅ profile && (self_num_iterations s =? profile_len)
   then trace EProfilerDump else ret tt) ;;;
  brk <- break_or_count ;;
  ret (totals, brk).

(** The body of the loop of the generic-profiled path, lines 268-313. *)
Definition iteration_profile (last_iter : Z) (datatype : dtype)
    (t : list tensor) (totals : Q * Z) : M world (Q * Z * bool) :=
  log_iteration ;;;
  start_time <- time_time StartTime ;;
  itw <- _split_training_batch t ;;
  let '(input, target, weight) := itw in
  cl_start_time <- time_time ClStartTime ;;
  input <- input_channels_last input ;;
  cl_end_time <- time_time ClEndTime ;;
  let cl_duration := (cl_end_time - cl_start_time)%Q in
  s <- self ;;
  let device_str := cfg_device_str (self_config s) in
  ol <- (if String.eqb device_str "cuda"
         then autocast_forward_pass "cuda" datatype input target weight
         else autocast_forward_pass "cpu" datatype input target weight) ;;
  let '(output, loss) := ol in
  trace (ELossUpdate loss input) ;;;
  update_parameters loss ;;;
  trace (EToCpu output) ;;;
  trace (EToCpu loss) ;;;
  (if String.eqb device_str "cuda" then trace (ESynchronize "cuda") else ret tt) ;;;
  end_time <- time_time EndTime ;;
  let duration := (end_time - start_time - cl_duration)%Q in
  trace EProfilerStep ;;;
  s <- self ;;
  trace (EPrintIteration (self_num_iterations s) duration) ;;;
  totals <- count_perf last_iter duration totals ;;
  brk <- break_or_count ;;
  ret (totals, brk).

(** The body of the loop of the unprofiled path, lines 317-366. *)
Definition iteration_else (last_iter : Z) (datatype : dtype)
    (t : list tensor) (totals : Q * Z) : M world (Q * Z * bool) :=
  log_iteration ;;;
  start_time <- time_time StartTime ;;
  itw <- _split_training_batch t ;;
  let '(input, target, weight) := itw in
  cl_start_time <- time_time ClStartTime ;;
  input <- input_channels_last input ;;
  cl_end_time <- time_time ClEndTime ;;
  let cl_duration := (cl_end_time - cl_start_time)%Q in
  s <- self ;;
  let device_str := cfg_device_str (self_config s) in
  ol <- (if String.eqb device_str "cuda"
         then autocast_forward_pass "cuda" datatype input target weight
         else if String.eqb device_str "xpu"
         then autocast_forward_pass "xpu" datatype input target weight
         else autocast_forward_pass "cpu" datatype input target weight) ;;
  let '(output, loss) := ol in
  trace (ELossUpdate loss input) ;;;
  update_parameters loss ;;;
  trace (EToCpu output) ;;;
  trace (EToCpu loss) ;;;
  (if String.eqb device_str "cuda" then trace (ESynchronize "cuda")
   else if String.eqb device_str "xpu" then trace (ESynchronize "xpu")
   else ret tt) ;;;
  end_time <- time_time EndTime ;;
  let duration := (end_time - start_time - cl_duration)%Q in
  s <- self ;;
  trace (EPrintIteration (self_num_iterations s) duration) ;;;
  totals <- count_perf last_iter duration totals ;;
  brk <- break_or_count ;;
  ret (totals, brk).

(** [for t in self.loaders['train']: body], left early by [break]. *)
Fixpoint for_each_batch (body : list tensor → Q * Z → M world (Q * Z * bool))
    (batches : list (list tensor)) (totals : Q * Z) : M world (Q * Z) :=
  match batches with
  | [] => ret totals
  | t :: rest =>
      r <- body t totals ;;
      if snd r then ret (fst r) else for_each_batch body rest (fst r)
  end.

(** [torch.profiler.schedule(wait=wait, warmup=2, active=1)], evaluated
    for the argument [schedule] of [torch.profiler.profile] at line 257: the
    framework asserts that [wait] is not negative. *)
Definition profiler_schedule (wait : Z) : M world unit :=
  if wait <? 0 then raise (Exn AssertionError "Invalid profiler schedule arguments")
  else ret tt.

(** [train] *)
Definition train : M world bool :=
  trace EModelTrain ;;;
  s <- self ;;
  let cfg := self_config s in
  let batches := self_train_loader s in
  let total_time := 0%Q in
  let total_count := 0 in
  let profile_len := Z.min (Z.of_nat (length batches)) (cfg_num_iter cfg) / 2 in
  let last_iter := Z.min (Z.of_nat (length batches)) (cfg_num_iter cfg) - 1 in
  let datatype := datatype_of (VStr (cfg_precision cfg)) in
  totals <-
    (if cfg_profile cfg && String.eqb (cfg_device_str cfg) "xpu" then
       for_each_batch (iteration_xpu_profile profile_len last_iter datatype)
         batches (total_time, total_count)
     else if cfg_profile cfg && negb (String.eqb (cfg_device_str cfg) "xpu") then
       let profile_act :=
         if String.eqb (cfg_device_str cfg) "cuda" then ["CPU"; "CUDA"] else ["CPU"] in
       profiler_schedule profile_len ;;;
       with_context (EProfilerEnter profile_act profile_len) EProfilerExit
         (for_each_batch (iteration_profile last_iter datatype)
            batches (total_time, total_count))
     else
       for_each_batch (iteration_else last_iter datatype)
         batches (total_time, total_count)) ;;
  let '(total_time, total_count) := totals in
  let batch_size := cfg_batch_size cfg in
  avg_time <- truediv total_time (inject_Z total_count) ;;
  q <- truediv avg_time (inject_Z batch_size) ;;
  let latency := (q * 1000)%Q in
  perf <- truediv (inject_Z batch_size) avg_time ;;
  trace (EPrintTotals total_time total_count) ;;;
  trace (EPrintLatency latency) ;;;
  trace (EPrintThroughput perf) ;;;
  ret true.

(** The loop of [fit] over the [n] values left in
    [range(self.num_epochs, self.max_num_epochs)]; the result is [true]
    when [fit] returns from inside the loop. *)
Fixpoint fit_epochs (n : nat) : M world bool :=
  match n with
  | O => ret false
  | S n' =>
      should_terminate <- train ;;
      if should_terminate then
        trace (ELogInfo "Stopping criterion is satisfied. Finishing training") ;;;
        ret true
      else
        s <- self ;;
        set_self (set_num_epochs (self_num_epochs s + 1)) ;;;
        fit_epochs n'
  end.

(** [fit] *)
Definition fit : M world unit :=
  s <- self ;;
  returned <- fit_epochs (Z.to_nat (self_max_num_epochs s - self_num_epochs s)) ;;
  if returned then ret tt
  else
    trace (ELogInfo "Reached maximum number of epochs. Finishing training...").

(** [_is_best_eval_score] *)
Definition _is_best_eval_score (eval_score : pyfloat) : M world bool :=
  s <- self ;;
  let is_best :=
    if self_eval_score_higher_is_better s
    then float_gt eval_score (self_best_eval_score s)
    else float_lt eval_score (self_best_eval_score s) in
  (if is_best then
     trace (ELogInfo "Saving new best evaluation metric") ;;;
     set_self (set_best_eval_score eval_score)
   else ret tt) ;;;
  ret is_best.

(** Modelled from the spec: [utils.save_checkpoint] is not among the source
    files.  The spec names the checkpoint files: [last_checkpoint.pytorch]
    and a best-score variant; the record is written to the first, and to the
    second (whose name the spec leaves open) when [is_best] holds. *)
Definition save_checkpoint (best_name : string) (state : checkpoint) (is_best : bool)
    (checkpoint_dir : string) : M world unit :=
  let last_file_path := os_path_join checkpoint_dir "last_checkpoint.pytorch" in
  modify (λ w, World (w_self w) (w_ticks w) (w_trace w)
                 (<[last_file_path := state]> (w_files w))) ;;;
  if is_best then
    modify (λ w, World (w_self w) (w_ticks w) (w_trace w)
                   (<[os_path_join checkpoint_dir best_name := state]> (w_files w)))
  else ret tt.

(** [_save_checkpoint] *)
Definition _save_checkpoint (best_name : string) (is_best : bool) : M world unit :=
  s <- self ;;
  let state_dict :=
    if isinstance_DataParallel (self_model s)
    then state_dict (inner_module (self_model s))
    else state_dict (self_model s) in
  let last_file_path := os_path_join (self_checkpoint_dir s) "last_checkpoint.pytorch" in
  trace (ELogInfo ("Saving checkpoint to '" ++ last_file_path ++ "'")) ;;;
  save_checkpoint best_name
    [ ("num_epochs", CInt (self_num_epochs s + 1));
      ("num_iterations", CInt (self_num_iterations s));
      ("model_state_dict", CStateDict state_dict);
      ("best_eval_score", CFloat (self_best_eval_score s));
      ("optimizer_state_dict", CStateDict (optimizer_state_dict (self_optimizer s))) ]
    is_best (self_checkpoint_dir s).

(** The arguments of [__init__] that it reads, with the defaults of its
    signature for those that [create_trainer] need not pass. *)
Record init_args := InitArgs {
  i_model : module;
  i_optimizer : optimizer;
  i_lr_scheduler : scheduler;
  i_loss_criterion : criterion;
  i_eval_criterion : criterion;
  i_device : device;
  i_train_loader : list (list tensor);
  i_checkpoint_dir : string;
  i_max_num_epochs : Z;
  i_max_num_iterations : Z;
  i_eval_score_higher_is_better : bool;
  i_tensorboard_formatter : option formatter;
  i_resume : option string;
  i_pre_trained : option string;
  i_config : train_config
}.

(** [UNet3DTrainer.__init__]; the trace holds what it logs. *)
Definition UNet3DTrainer_init (a : init_args) : M (list event) trainer :=
  modify (λ tr, (tr ++ [ELogInfo "model"; ELogInfo "eval_score_higher_is_better"])%list) ;;;
  let best_eval_score :=
    if i_eval_score_higher_is_better a then NegInf else PosInf in
  tensorboard_formatter <-
    match i_tensorboard_formatter a with
    | Some f => ret f
    | None => raise (Exn AssertionError "TensorboardFormatter must be provided")
    end ;;
  let s :=
    {| self_model := i_model a;
       self_optimizer := i_optimizer a;
       self_scheduler := i_lr_scheduler a;
       self_loss_criterion := i_loss_criterion a;
       self_eval_criterion := i_eval_criterion a;
       self_device := i_device a;
       self_train_loader := i_train_loader a;
       self_checkpoint_dir := i_checkpoint_dir a;
       self_max_num_epochs := i_max_num_epochs a;
       self_max_num_iterations := i_max_num_iterations a;
       self_eval_score_higher_is_better := i_eval_score_higher_is_better a;
       self_config := i_config a;
       self_best_eval_score := best_eval_score;
       self_tensorboard_formatter := tensorboard_formatter;
       self_num_iterations := 0;
       self_num_epochs := 0 |} in
  match i_resume a, i_pre_trained a with
  | Some resume, _ =>
      modify (λ tr, (tr ++ [ELogInfo ("Loading checkpoint '" ++ resume ++ "'...")])%list) ;;;
      r <- lift (load_checkpoint resume (self_model s) (Some (self_optimizer s))) ;;
      let '(state, model, opt) := r in
      modify (λ tr, (tr ++ [ELogInfo ("Checkpoint loaded from '" ++ resume ++ "'")])%list) ;;;
      ret (set_checkpoint_dir (os_path_split_head resume)
             (set_num_epochs (ls_num_epochs state)
                (set_num_iterations (ls_num_iterations state)
                   (set_best_eval_score (ls_best_eval_score state)
                      (set_model_optimizer
                         (model, default (self_optimizer s) opt) s)))))
  | None, Some pre_trained =>
      modify (λ tr, (tr ++ [ELogInfo ("Logging pre-trained model from '" ++ pre_trained ++ "'...")])%list) ;;;
      r <- lift (load_checkpoint pre_trained (self_model s) None) ;;
      let '(_, model, _) := r in
      ret (set_checkpoint_dir (os_path_split_head pre_trained)
             (set_model_optimizer (model, self_optimizer s) s))
  | None, None => ret s
  end.

End Trainer.

Local Open Scope list_scope.

(** * Specification-side definitions *)

(** ** The configuration *)

(** The entry of the parsed YAML under ['device'] lets line 31 pass: it is
    absent, null or a string. *)
Definition device_entry_ok (o : option value) : Prop :=
  match o with
  | None | Some VNone | Some (VStr _) => True
  | _ => False
  end.

(** The top-level keys that [load_config] assigns. *)
Definition written_keys : list string :=
  [ "device"; "device_str"; "precision"; "channels_last"; "jit"; "profile";
    "num_iter"; "num_warmup"; "nv_fuser"; "ipex" ].

(** A computation whose outcome and final store do not depend on the log. *)
Definition heap_only {A} (c : M cstate A) : Prop :=
  ∀ h l1 l2,
    st_heap (c (CState h l1)).1 = st_heap (c (CState h l2)).1
    ∧ (c (CState h l1)).2 = (c (CState h l2)).2.

(** A computation that leaves the store as it is. *)
Definition heap_const {A} (c : M cstate A) : Prop :=
  ∀ s, st_heap (c s).1 = st_heap s.

(** A [torch.device] for every string, for the examples. *)
Definition any_device (s : string) : option device := Some (Device s s).

(** [loaders: 5] *)
Definition yaml_loaders_scalar : heap :=
  {[ 1%positive := ODict {[ "loaders" := VInt 5 ]} ]}.

(** [device: 5], and no [loaders] *)
Definition yaml_device_int : heap :=
  {[ 1%positive := ODict {[ "device" := VInt 5 ]} ]}.

(** [device: cpu], and no [loaders] *)
Definition yaml_no_loaders : heap :=
  {[ 1%positive := ODict {[ "device" := VStr "cpu" ]} ]}.

(** [loaders: &a {num_workers: 2}], [val_loaders: *a]: one object under
    two keys. *)
Definition yaml_aliased : heap :=
  {[ 1%positive := ODict {[ "loaders" := VRef 2%positive; "val_loaders" := VRef 2%positive ]};
     2%positive := ODict {[ "num_workers" := VInt 2 ]} ]}.

(** [device: cuda:0], [loaders: {}], [model: {}] *)
Definition yaml_small (dev : option value) : heap :=
  {[ 1%positive :=
       ODict (match dev with
              | Some v => {[ "device" := v; "loaders" := VRef 2%positive ]}
              | None => {[ "loaders" := VRef 2%positive ]}
              end);
     2%positive := ODict ∅ ]}.

(** Lines 38-51 of [load_config]: what follows the block that looks at the
    ['device'] entry of the file. *)
Definition write_flags (torch_device : string → option device) (cmd : cmdline)
    (config : value) : M cstate value :=
  let args := parse_args cmd in
  let device_str := a_device args in
  device <-
    match torch_device device_str with
    | Some d => ret d
    | None => raise (Exn RuntimeError device_str)
    end ;;
  setitem config "device" (VDevice device) ;;;
  setitem config "device_str" (VStr device_str) ;;;
  loaders <- getitem config "loaders" ;;
  setitem loaders "batch_size" (VInt (a_batch_size args)) ;;;
  setitem config "precision" (VStr (a_precision args)) ;;;
  setitem config "channels_last" (VInt (a_channels_last args)) ;;;
  setitem config "jit" (VBool (a_jit args)) ;;;
  setitem config "profile" (VBool (a_profile args)) ;;;
  setitem config "num_iter" (VInt (a_num_iter args)) ;;;
  setitem config "num_warmup" (VInt (a_num_warmup args)) ;;;
  setitem config "nv_fuser" (VBool (a_nv_fuser args)) ;;;
  setitem config "ipex" (VBool (a_ipex args)) ;;;
  ret config.

(** ** [create_trainer] *)

Section CreateTrainerSpec.

Context `{Framework}.

(** The calls into the framework and the package that [create_trainer]
    makes before line 62 all return; the conversion of the model may also
    raise a [RuntimeError], which line 37 catches. *)
Definition framework_returns : Prop :=
  (∀ h v, ∃ x, get_model h v = Ok x) ∧
  (∀ m d, ∃ x, module_to_device m d = Ok x) ∧
  (∀ m, (∃ x, module_to_channels_last_3d m = Ok x)
        ∨ (∃ e, module_to_channels_last_3d m = Raise e ∧ is_RuntimeError e = true)) ∧
  (∀ h v, ∃ x, get_loss_criterion h v = Ok x) ∧
  (∀ h v, ∃ x, get_evaluation_metric h v = Ok x) ∧
  (∀ h v, ∃ x, get_train_loaders h v = Ok x) ∧
  (∀ h v m, ∃ x, create_optimizer h v m = Ok x) ∧
  (∀ m o dt, ∃ x, xpu_optimize m o dt = Ok x) ∧
  (∀ h v o, ∃ x, create_lr_scheduler h v o = Ok x).

(** The keys that [create_trainer] looks up before ['trainer'] are there,
    and ['device'] holds a [torch.device], as [load_config] leaves it. *)
Definition keys_before_trainer (m : gmap string value) : Prop :=
  is_Some (m !! "model") ∧
  (∃ d, m !! "device" = Some (VDevice d)) ∧
  is_Some (m !! "channels_last") ∧
  is_Some (m !! "optimizer") ∧
  is_Some (m !! "precision").

End CreateTrainerSpec.

(** ** A small framework for the examples

    Tensors, modules and optimizers are integers; the clock advances by one
    second at each reading; [conv_fails] makes both conversions to
    channels-last raise a [RuntimeError]. *)
Definition toy_framework (conv_fails : bool) : Framework :=
  {| tensor := Z;
     module := Z;
     optimizer := Z;
     criterion := unit;
     scheduler := unit;
     formatter := unit;
     loaders := list (list Z);
     DataParallel := λ m, m;
     isinstance_DataParallel := λ _, false;
     inner_module := λ m, m;
     state_dict := λ m, [("weight", m)];
     optimizer_state_dict := λ o, [("step", o)];
     module_to_device := λ m _, Ok m;
     module_to_channels_last_3d :=
       λ m, if conv_fails then Raise (Exn RuntimeError "unsupported") else Ok m;
     cuda_device_count := 0;
     xpu_optimize := λ m o _, Ok (m, o);
     get_model := λ _ _, Ok 0;
     get_number_of_learnable_parameters := λ _, 1;
     get_loss_criterion := λ _ _, Ok tt;
     get_evaluation_metric := λ _ _, Ok tt;
     get_train_loaders := λ _ _, Ok [];
     create_optimizer := λ _ _ _, Ok 0;
     create_lr_scheduler := λ _ _ _, Ok tt;
     get_tensorboard_formatter := λ _ _, Ok tt;
     load_checkpoint := λ _ m o, Ok (LoadedState (Finite 0) 0 0, m, o);
     os_path_split_head := λ p, p;
     tensor_to_device := λ x _, x;
     tensor_to_channels_last_3d :=
       λ x, if conv_fails then Raise (Exn RuntimeError "unsupported") else Ok x;
     model_call := λ m _ _ x, m * x;
     loss_call := λ _ _ _ out y _, out - y;
     optimizer_step := λ m o _, (m + 1, o + 1);
     clock := λ k, inject_Z (Z.of_nat k) |}.

(** A configuration as [load_config] leaves it, with sections ['model'] and
    ['optimizer'] and without ['trainer'] and ['loaders']. *)
Definition config_no_trainer : heap :=
  {[ 1%positive :=
       ODict {[ "model" := VRef 2%positive;
                "optimizer" := VRef 3%positive;
                "device" := VDevice (Device "cpu" "cpu");
                "device_str" := VStr "cpu";
                "channels_last" := VInt 1;
                "precision" := VStr "float32" ]};
     2%positive := ODict ∅;
     3%positive := ODict ∅ ]}.

(** The same with a ['trainer'] section. *)
Definition config_full : heap :=
  <[ 4%positive := ODict {[ "checkpoint_dir" := VStr "checkpoints";
                             "max_num_epochs" := VInt 10;
                             "max_num_iterations" := VInt 1000 ]} ]>
    (<[ 1%positive :=
          ODict {[ "model" := VRef 2%positive;
                   "optimizer" := VRef 3%positive;
                   "trainer" := VRef 4%positive;
                   "device" := VDevice (Device "cpu" "cpu");
                   "device_str" := VStr "cpu";
                   "channels_last" := VInt 1;
                   "precision" := VStr "float32" ]} ]> config_no_trainer).

(** ** The training loops in closed form *)

(** The three code paths of [train]. *)
Inductive path := XpuProfile | Profile | Else.

(** The branch that [train] takes, lines 204, 252 and 315. *)
Definition path_of (cfg : train_config) : path :=
  if cfg_profile cfg && String.eqb (cfg_device_str cfg) "xpu" then XpuProfile
  else if cfg_profile cfg && negb (String.eqb (cfg_device_str cfg) "xpu") then Profile
  else Else.

Definition autocast_else (ds : string) : string :=
  if String.eqb ds "cuda" then "cuda" else if String.eqb ds "xpu" then "xpu" else "cpu".

Definition autocast_profile (ds : string) : string :=
  if String.eqb ds "cuda" then "cuda" else "cpu".

(** The device kind whose autocast a path enters. *)
Definition autocast_of (p : path) (ds : string) : string :=
  match p with
  | XpuProfile => "xpu"
  | Profile => autocast_profile ds
  | Else => autocast_else ds
  end.

Section TrainerSpec.

Context `{Framework}.

Definition add_events (evs : list event) (w : world) : world :=
  World (w_self w) (w_ticks w) (w_trace w ++ evs) (w_files w).

(** The loop body of a path. *)
Definition body (p : path) (profile_len last_iter : Z) (datatype : dtype)
    : list tensor → Q * Z → M world (Q * Z * bool) :=
  match p with
  | XpuProfile => iteration_xpu_profile profile_len last_iter datatype
  | Profile => iteration_profile last_iter datatype
  | Else => iteration_else last_iter datatype
  end.

(** The outcome of [_split_training_batch]. *)
Definition split_outcome (d : device) (t : list tensor)
    : result (tensor * tensor * option tensor) :=
  match map (λ x, tensor_to_device x d) t with
  | [input; target] => Ok (input, target, None)
  | [input; target; weight] => Ok (input, target, Some weight)
  | _ => Raise (Exn ValueError "unpack")
  end.

(** The events and the outcome of the conversion site of the loops. *)
Definition conv_outcome (cfg : train_config) (x : tensor) : list event * result tensor :=
  if negb (cfg_channels_last cfg =? 0) && negb (String.eqb (cfg_device_str cfg) "xpu")
  then
    match tensor_to_channels_last_3d x with
    | Ok x' => ([EToChannelsLast x; EPrint "---input use NDHWC format"], Ok x')
    | Raise e =>
        if is_RuntimeError e
        then ([EToChannelsLast x; EPrint "----input use normal format";
               EPrint ("failed to enable NHWC: " ++ exn_msg e)], Ok x)
        else ([EToChannelsLast x], Raise e)
    end
  else ([], Ok x).

Definition sync_else (ds : string) : list event :=
  if String.eqb ds "cuda" then [ESynchronize "cuda"]
  else if String.eqb ds "xpu" then [ESynchronize "xpu"] else [].

Definition sync_profile (ds : string) : list event :=
  if String.eqb ds "cuda" then [ESynchronize "cuda"] else [].

(** The synchronisation that a path issues before it reads the clock. *)
Definition sync_of (p : path) (ds : string) : list event :=
  match p with
  | XpuProfile => [ESynchronize "xpu"]
  | Profile => sync_profile ds
  | Else => sync_else ds
  end.

Definition output_of (s : trainer) (ac : string) (dt : dtype) (x : tensor) : tensor :=
  model_call (self_model s) ac dt x.

Definition loss_of (s : trainer) (ac : string) (dt : dtype) (x y : tensor)
    (wt : option tensor) : tensor :=
  loss_call (self_loss_criterion s) ac dt (output_of s ac dt x) y wt.

(** Autocast, forward pass and loss. *)
Definition forward_events (s : trainer) (ac : string) (dt : dtype) (x y : tensor)
    (wt : option tensor) : list event :=
  [EAutocastEnter ac dt; EForward x; ELoss (output_of s ac dt x) y wt; EAutocastExit].

(** The running loss, the gradients, the optimizer step and the copies to
    the host. *)
Definition update_events (s : trainer) (ac : string) (dt : dtype) (x y : tensor)
    (wt : option tensor) : list event :=
  [ELossUpdate (loss_of s ac dt x y wt) x; EZeroGrad; EBackward (loss_of s ac dt x y wt);
   EOptimizerStep; EToCpu (output_of s ac dt x); EToCpu (loss_of s ac dt x y wt)].

(** [self] after the optimizer step. *)
Definition stepped (s : trainer) (ac : string) (dt : dtype) (x y : tensor)
    (wt : option tensor) : trainer :=
  set_model_optimizer
    (optimizer_step (self_model s) (self_optimizer s) (loss_of s ac dt x y wt)) s.

(** The test of lines 228, 306 and 359. *)
Definition is_counted (s : trainer) (last_iter : Z) : bool :=
  (cfg_num_warmup (self_config s) <=? self_num_iterations s)
  && (self_num_iterations s <? last_iter).

(** The test of lines 247, 310 and 363. *)
Definition is_last (s : trainer) : bool :=
  cfg_num_iter (self_config s) <=? self_num_iterations s.

Definition counted_events (s : trainer) (last_iter : Z) : list event :=
  if is_counted s last_iter then [EPrintCounted (self_num_iterations s)] else [].

Definition counted_totals (s : trainer) (last_iter : Z) (d : Q) (totals : Q * Z) : Q * Z :=
  if is_counted s last_iter then ((fst totals + d)%Q, snd totals + 1) else totals.

Definition advanced (s : trainer) : trainer :=
  if is_last s then s else set_num_iterations (self_num_iterations s + 1) s.

(** What an iteration does before it splits the batch. *)
Definition head_events (s : trainer) (k : nat) (t : list tensor) : list event :=
  [ELogIteration (self_num_iterations s) (self_max_num_iterations s)
     (self_num_epochs s) (self_max_num_epochs s - 1);
   ETime StartTime (clock k);
   EToDevice t (self_device s)].

(** One iteration of the accelerator-profiled path, on a batch that
    splits into [(x, y, wt)]: its events up to the failing lookup of
    [args]. *)
Definition xpu_profile_events (s : trainer) (k : nat) (last_iter : Z) (dt : dtype)
    (t : list tensor) (x y : tensor) (wt : option tensor) : list event :=
  head_events s k t
  ++ [EProfilerLegacyEnter] ++ forward_events s "xpu" dt x y wt ++ [EProfilerLegacyExit]
  ++ update_events s "xpu" dt x y wt
  ++ [ESynchronize "xpu"; ETime EndTime (clock (S k));
      EPrintIteration (self_num_iterations s) (clock (S k) - clock k)%Q]
  ++ counted_events s last_iter.

(** The duration that the generic-profiled and the unprofiled path compute
    in an iteration that starts at the [k]-th reading of the clock. *)
Definition duration_at (k : nat) : Q :=
  (clock (S (S (S k))) - clock k - (clock (S (S k)) - clock (S k)))%Q.

(** One complete iteration of the generic-profiled or the unprofiled path;
    [cev] are the events of the conversion site and [x'] the input that
    leaves it. *)
Definition loop_events (p : path) (s : trainer) (k : nat) (last_iter : Z) (dt : dtype)
    (t : list tensor) (cev : list event) (x' y : tensor) (wt : option tensor) : list event :=
  let ac := autocast_of p (cfg_device_str (self_config s)) in
  head_events s k t
  ++ [ETime ClStartTime (clock (S k))] ++ cev ++ [ETime ClEndTime (clock (S (S k)))]
  ++ forward_events s ac dt x' y wt
  ++ update_events s ac dt x' y wt
  ++ sync_of p (cfg_device_str (self_config s))
  ++ [ETime EndTime (clock (S (S (S k))))]
  ++ (match p with Profile => [EProfilerStep] | _ => [] end)
  ++ [EPrintIteration (self_num_iterations s) (duration_at k)]
  ++ counted_events s last_iter.

(** One pass through the loop body of a path, as a function of the world
    it starts in. *)
Definition iteration_spec (p : path) (last_iter : Z) (dt : dtype) (t : list tensor)
    (totals : Q * Z) (w : world) : world * result (Q * Z * bool) :=
  let s := w_self w in
  let k := w_ticks w in
  match split_outcome (self_device s) t with
  | Raise e =>
      (World s (S k) (w_trace w ++ head_events s k t) (w_files w), Raise e)
  | Ok (x, y, wt) =>
      match p with
      | XpuProfile =>
          (World (stepped s "xpu" dt x y wt) (S (S k))
             (w_trace w ++ xpu_profile_events s k last_iter dt t x y wt) (w_files w),
           Raise (Exn NameError "args"))
      | _ =>
          let co := conv_outcome (self_config s) x in
          match snd co with
          | Raise e =>
              (World s (S (S k))
                 (w_trace w ++ head_events s k t
                    ++ [ETime ClStartTime (clock (S k))] ++ fst co)
                 (w_files w),
               Raise e)
          | Ok x' =>
              let ac := autocast_of p (cfg_device_str (self_config s)) in
              (World (advanced (stepped s ac dt x' y wt)) (S (S (S (S k))))
                 (w_trace w ++ loop_events p s k last_iter dt t (fst co) x' y wt)
                 (w_files w),
               Ok (counted_totals s last_iter (duration_at k) totals, is_last s))
          end
      end
  end.

End TrainerSpec.

(** ** Properties of traces *)

Section TraceSpec.

Context `{Framework}.

(** The locals that [train] computes before its loop. *)
Definition profile_len_of (s : trainer) : Z :=
  Z.min (Z.of_nat (length (self_train_loader s))) (cfg_num_iter (self_config s)) / 2.

Definition last_iter_of (s : trainer) : Z :=
  Z.min (Z.of_nat (length (self_train_loader s))) (cfg_num_iter (self_config s)) - 1.

Definition datatype_of_config (s : trainer) : dtype :=
  datatype_of (VStr (cfg_precision (self_config s))).

(** Lines 368-375 of [train], on the totals that the loop leaves. *)
Definition report (cfg : train_config) (totals : Q * Z) : M world bool :=
  let '(total_time, total_count) := totals in
  let batch_size := cfg_batch_size cfg in
  avg_time <- truediv total_time (inject_Z total_count) ;;
  q <- truediv avg_time (inject_Z batch_size) ;;
  let latency := (q * 1000)%Q in
  perf <- truediv (inject_Z batch_size) avg_time ;;
  trace (EPrintTotals total_time total_count) ;;;
  trace (EPrintLatency latency) ;;;
  trace (EPrintThroughput perf) ;;;
  ret true.

(** The loop of a path, with the profiler around it on the generic-profiled
    path, where the profiler is only entered with a schedule that the
    framework accepts. *)
Definition run_loop (p : path) (s : trainer) : M world (Q * Z) :=
  let loop :=
    for_each_batch (iteration_spec p (last_iter_of s) (datatype_of_config s))
      (self_train_loader s) (0%Q, 0) in
  match p with
  | Profile =>
      profiler_schedule (profile_len_of s) ;;;
      with_context
        (EProfilerEnter
           (if String.eqb (cfg_device_str (self_config s)) "cuda"
            then ["CPU"; "CUDA"] else ["CPU"])
           (profile_len_of s))
        EProfilerExit loop
  | _ => loop
  end.

(** An event that is neither the optimizer step nor the reading of the
    clock that ends an iteration. *)
Definition plain (e : event) : bool :=
  match e with
  | EOptimizerStep | ETime EndTime _ => false
  | _ => true
  end.

(** A trace in which the optimizer step and the final reading of the clock
    only occur in blocks: the step, the two copies to the host, the
    synchronisation of the device [dev], the reading of the clock. *)
Inductive timed_blocks (dev : string) : list event → Prop :=
  | timed_nil : timed_blocks dev []
  | timed_plain e evs :
      plain e = true → timed_blocks dev evs → timed_blocks dev (e :: evs)
  | timed_block o l t evs :
      timed_blocks dev evs →
      timed_blocks dev
        (EOptimizerStep :: EToCpu o :: EToCpu l :: ESynchronize dev
           :: ETime EndTime t :: evs).

End TraceSpec.

(** ** A small trainer for the examples *)

(** [--num_iter 3 --num_warmup 0 --batch_size 2] *)
Definition toy_config (profile : bool) (device_str : string) (channels_last : Z)
    : train_config :=
  TrainConfig profile device_str channels_last 3 0 "float32" 2.

(** [--num_iter -3 --num_warmup 0 --batch_size 2] *)
Definition toy_config_negative (profile : bool) (device_str : string) : train_config :=
  TrainConfig profile device_str 0 (-3) 0 "float32" 2.

(** A trainer over the small framework, with a loader of four batches. *)
Definition toy_trainer (conv_fails : bool) (cfg : train_config)
    : @trainer (toy_framework conv_fails) :=
  @Trainer (toy_framework conv_fails)
    1 0 tt tt tt (Device "cpu" "cpu")
    [[1; 2]; [3; 4]; [5; 6]; [7; 8]]
    "checkpoints" 10 1000 true cfg NegInf tt 0 0.

Definition toy_world (conv_fails : bool) (cfg : train_config)
    : @world (toy_framework conv_fails) :=
  @World (toy_framework conv_fails) (toy_trainer conv_fails cfg) 0 [] ∅.

(** ** Scores and checkpoints *)

(** Python's [max(a, b)] and [min(a, b)] on two floats: the first argument
    unless the second is strictly greater (smaller). *)
Definition py_max (a b : pyfloat) : pyfloat := if float_gt b a then b else a.
Definition py_min (a b : pyfloat) : pyfloat := if float_lt b a then b else a.

(** [x] is strictly better than [y] in the configured direction. *)
Definition better (higher_is_better : bool) (x y : pyfloat) : bool :=
  if higher_is_better then float_gt x y else float_lt x y.

(** [a <= b] on floats. *)
Definition float_le (a b : pyfloat) : bool :=
  match a, b with
  | NaN, _ | _, NaN => false
  | NegInf, _ => true
  | _, PosInf => true
  | Finite x, Finite y => Qle_bool x y
  | _, _ => false
  end.

Definition is_nan (a : pyfloat) : bool :=
  match a with NaN => true | _ => false end.

(** [new] is the old best score or a strictly better one. *)
Definition no_worse (higher_is_better : bool) (new old : pyfloat) : Prop :=
  new = old ∨ better higher_is_better new old = true.

Section ScoreSpec.

Context `{Framework}.

(** A sequence of calls of [_is_best_eval_score]. *)
Fixpoint is_best_eval_scores (scores : list pyfloat) : M world (list bool) :=
  match scores with
  | [] => ret []
  | x :: rest =>
      b <- _is_best_eval_score x ;;
      bs <- is_best_eval_scores rest ;;
      ret (b :: bs)
  end.

(** The dictionary that [_save_checkpoint] passes to [utils.save_checkpoint]. *)
Definition checkpoint_of (s : trainer) : checkpoint :=
  [ ("num_epochs", CInt (self_num_epochs s + 1));
    ("num_iterations", CInt (self_num_iterations s));
    ("model_state_dict",
     CStateDict (if isinstance_DataParallel (self_model s)
                 then state_dict (inner_module (self_model s))
                 else state_dict (self_model s)));
    ("best_eval_score", CFloat (self_best_eval_score s));
    ("optimizer_state_dict", CStateDict (optimizer_state_dict (self_optimizer s))) ].

End ScoreSpec.

(** Constructor arguments for the examples. *)
Definition toy_init_args (higher_is_better : bool) : @init_args (toy_framework false) :=
  @InitArgs (toy_framework false) 1 0 tt tt tt (Device "cpu" "cpu")
    [[1; 2]; [3; 4]] "checkpoints" 10 1000 higher_is_better (Some tt) None None
    (toy_config false "cpu" 1).

(** ** Comparing runs *)

Section CompareSpec.

Context `{Framework}.

(** The same trainer with another configuration. *)
Definition with_config (f : train_config → train_config) (s : trainer) : trainer :=
  Trainer (self_model s) (self_optimizer s) (self_scheduler s) (self_loss_criterion s)
    (self_eval_criterion s) (self_device s) (self_train_loader s)
    (self_checkpoint_dir s) (self_max_num_epochs s) (self_max_num_iterations s)
    (self_eval_score_higher_is_better s) (f (self_config s)) (self_best_eval_score s)
    (self_tensorboard_formatter s) (self_num_iterations s) (self_num_epochs s).

Definition world_with_config (f : train_config → train_config) (w : world) : world :=
  World (with_config f (w_self w)) (w_ticks w) (w_trace w) (w_files w).







(** The lines that the conversion site of the loops prints when it has
    caught [e]. *)
Definition caught_events (x : tensor) (e : exn) : list event :=
  [EToChannelsLast x; EPrint "----input use normal format";
   EPrint ("failed to enable NHWC: " ++ exn_msg e)%string].

End CompareSpec.

(** ** What [train] prints about performance *)

Section ThroughputSpec.

Context `{Framework}.

(** The lines that report durations, counted iterations and totals. *)
Definition is_perf_line (e : event) : bool :=
  match e with
  | EPrintIteration _ _ | EPrintCounted _ | EPrintTotals _ _ | EPrintLatency _
  | EPrintThroughput _ => true
  | _ => false
  end.

Definition perf_lines (evs : list event) : list event :=
  List.filter is_perf_line evs.

(** A batch on which a pass through the body of the generic-profiled or
    the unprofiled loop completes: it unpacks into two or three tensors,
    and the conversion of the input raises nothing but a [RuntimeError]. *)
Definition batch_ok (d : device) (cfg : train_config) (t : list tensor) : bool :=
  match split_outcome d t with
  | Ok (x, _, _) =>
      match (conv_outcome cfg x).2 with
      | Ok _ => true
      | Raise _ => false
      end
  | Raise _ => false
  end.

(** The duration of iteration [i] in a run of the generic-profiled or the
    unprofiled path that starts at the [k]-th reading of the clock: each
    iteration reads the clock four times. *)
Definition duration_of (k : nat) (i : Z) : Q :=
  duration_at (k + 4 * Z.to_nat i).

(** The iterations whose duration counts, for [num_warmup = W] and
    [num_iter = N]. *)
Definition counts (W N i : Z) : bool := (W <=? i) && (i <? N - 1).

(** The lines of iteration [i]. *)
Definition iteration_lines (k : nat) (W N i : Z) : list event :=
  EPrintIteration i (duration_of k i)
    :: (if counts W N i then [EPrintCounted i] else []).

(** [total_time += duration; total_count += 1] on the iterations that
    count. *)
Definition count_step (k : nat) (W N : Z) (totals : Q * Z) (i : Z) : Q * Z :=
  if counts W N i then ((totals.1 + duration_of k i)%Q, totals.2 + 1) else totals.

(** The durations of the iterations [W], ..., [N - 2], added in this order
    to [0.0]. *)
Definition total_time_of (k : nat) (W N : Z) : Q :=
  fold_left (λ T i, (T + duration_of k i)%Q) (seqZ W (N - W - 1)) 0%Q.

End ThroughputSpec.

(** * Further behaviour of the two files *)

(** ** What [load_config] logs *)

(** The lines of the block "Get a device to train on" (lines 28-36), for
    the entry that the parsed file has under ['device']. *)
Definition device_log (cuda : bool) (o : option value) : list log_entry :=
  match o with
  | None | Some VNone =>
      [LogInfo "Using '{}' device" [VStr (if cuda then "cuda:0" else "cpu")]]
  | Some (VStr s) =>
      LogInfo "Device specified in config: '{}'" [VStr s]
        :: (if String.prefix "cuda" s && negb cuda
            then [LogWarning "CUDA not available, using CPU" []]
            else [])
  | Some v => [LogInfo "Device specified in config: '{}'" [v]]
  end.

(** [device: cuda:0], [loaders: {}] *)
Definition yaml_cuda : heap :=
  {[ 1%positive := ODict {[ "device" := VStr "cuda:0"; "loaders" := VRef 2%positive ]};
     2%positive := ODict ∅ ]}.

(** ** The keys that [create_trainer] takes out of the ['trainer'] section *)

Section CreateTrainerMore.

Context `{Framework}.

Definition formatter_returns : Prop :=
  ∀ h v, ∃ x, get_tensorboard_formatter h v = Ok x.

(** The ['trainer'] mapping after lines 64-67. *)
Definition without_popped (tm : gmap string value) : gmap string value :=
  delete "pre_trained" (delete "resume" (delete "tensorboard_formatter" tm)).

(** The parameters of [UNet3DTrainer.__init__] that the call of lines 69-79
    passes by keyword. *)
Definition call_keywords : list string :=
  ["model"; "optimizer"; "lr_scheduler"; "loss_criterion"; "eval_criterion";
   "tensorboard_formatter"; "device"; "loaders"; "resume"; "pre_trained"; "config"].

(** The parameters of [__init__] (line 115) that have no default and that
    the call leaves to [**trainer_config] (line 80). *)
Definition required_from_kwargs : list string :=
  ["checkpoint_dir"; "max_num_epochs"; "max_num_iterations"].

(** The binding of the arguments of the call of lines 69-80 to the
    parameters of [__init__], for the mapping [kwargs] that
    [**trainer_config] unpacks.  A key that the call passes itself, or
    ['self'], is an argument given twice; a parameter without default that
    is not a key is missing; every other key is a parameter with a default
    or goes to [**kwargs]. *)
Definition bind_arguments (kwargs : gmap string value) : result unit :=
  match List.find (λ k, bool_decide (is_Some (kwargs !! k))) ("self" :: call_keywords) with
  | Some k => Raise (Exn TypeError ("got multiple values for argument " ++ k))
  | None =>
      match List.find (λ k, negb (bool_decide (is_Some (kwargs !! k))))
              required_from_kwargs with
      | Some k => Raise (Exn TypeError ("missing required argument " ++ k))
      | None => Ok tt
      end
  end.

(** The call of lines 69-80, up to the body of [__init__]. *)
Definition call_constructor (args : trainer_args) : M cstate trainer_args :=
  s <- get ;;
  match ta_kwargs args with
  | VRef l =>
      match st_heap s !! l with
      | Some (ODict kwargs) => lift (bind_arguments kwargs) ;;; ret args
      | _ => raise (Exn TypeError "argument after ** must be a mapping")
      end
  | _ => raise (Exn TypeError "argument after ** must be a mapping")
  end.

(** [create_trainer], up to the body of [__init__]: the statements of
    lines 20-67 and the binding of the arguments of the call. *)
Definition create_trainer_to_init (config : value) : M cstate trainer_args :=
  args <- create_trainer config ;;
  call_constructor args.

End CreateTrainerMore.

(** A configuration as [load_config] leaves it for [--device xpu], with a
    ['trainer'] section that asks to resume. *)
Definition config_xpu_resume : heap :=
  {[ 1%positive :=
       ODict {[ "model" := VRef 2%positive;
                "optimizer" := VRef 3%positive;
                "trainer" := VRef 4%positive;
                "device" := VDevice (Device "xpu" "xpu");
                "device_str" := VStr "xpu";
                "channels_last" := VInt 1;
                "precision" := VStr "float32" ]};
     2%positive := ODict ∅;
     3%positive := ODict ∅;
     4%positive := ODict {[ "checkpoint_dir" := VStr "checkpoints";
                            "resume" := VStr "runs/last_checkpoint.pytorch";
                            "max_num_epochs" := VInt 10 ]} ]}.

(** The same configuration, with a ['trainer'] section that has the three
    entries that [__init__] requires. *)
Definition config_xpu_trainer : heap :=
  {[ 1%positive :=
       ODict {[ "model" := VRef 2%positive;
                "optimizer" := VRef 3%positive;
                "trainer" := VRef 4%positive;
                "device" := VDevice (Device "xpu" "xpu");
                "device_str" := VStr "xpu";
                "channels_last" := VInt 1;
                "precision" := VStr "float32" ]};
     2%positive := ODict ∅;
     3%positive := ODict ∅;
     4%positive := ODict {[ "checkpoint_dir" := VStr "checkpoints";
                            "resume" := VStr "runs/last_checkpoint.pytorch";
                            "max_num_epochs" := VInt 10;
                            "max_num_iterations" := VInt 1000 ]} ]}.

(** ** The trainer *)

Section TrainerMore.

Context `{Framework}.

(** The same constructor arguments with another [pre_trained]. *)
Definition with_pre_trained (p : option string) (a : init_args) : init_args :=
  InitArgs (i_model a) (i_optimizer a) (i_lr_scheduler a) (i_loss_criterion a)
    (i_eval_criterion a) (i_device a) (i_train_loader a) (i_checkpoint_dir a)
    (i_max_num_epochs a) (i_max_num_iterations a) (i_eval_score_higher_is_better a)
    (i_tensorboard_formatter a) (i_resume a) p (i_config a).

(** The same trainer with other limits [max_num_iterations] and
    [max_num_epochs]. *)
Definition with_limits (max_iterations max_epochs : Z) (s : trainer) : trainer :=
  Trainer (self_model s) (self_optimizer s) (self_scheduler s) (self_loss_criterion s)
    (self_eval_criterion s) (self_device s) (self_train_loader s)
    (self_checkpoint_dir s) max_epochs max_iterations
    (self_eval_score_higher_is_better s) (self_config s) (self_best_eval_score s)
    (self_tensorboard_formatter s) (self_num_iterations s) (self_num_epochs s).

Definition world_with_limits (max_iterations max_epochs : Z) (w : world) : world :=
  World (with_limits max_iterations max_epochs (w_self w)) (w_ticks w) (w_trace w)
    (w_files w).

(** Two worlds that differ in the two limits only: [wl] is [w] with the
    limits [max_iterations] and [max_epochs]. *)
Definition same_but_limits (max_iterations max_epochs : Z) (wl w : world) : Prop :=
  w_self wl = with_limits max_iterations max_epochs (w_self w)
  ∧ w_ticks wl = w_ticks w
  ∧ w_files wl = w_files w.

(** The line "Training iteration [i/max_num_iterations]. Epoch
    [e/max_num_epochs - 1]" with other limits. *)
Definition relog (max_iterations max_epochs : Z) (e : event) : event :=
  match e with
  | ELogIteration i _ ep _ => ELogIteration i max_iterations ep (max_epochs - 1)
  | _ => e
  end.

(** An event other than a synchronisation of a device and an autocast of
    a device kind that is not ['cpu']. *)
Definition cpu_unsynchronized (e : event) : bool :=
  match e with
  | ESynchronize _ => false
  | EAutocastEnter dev _ => String.eqb dev "cpu"
  | _ => true
  end.

(** The events of [train] outside the bodies of its loops. *)
Definition around_loop (e : event) : bool :=
  match e with
  | EModelTrain | EProfilerEnter _ _ | EProfilerExit | EPrintTotals _ _
  | EPrintLatency _ | EPrintThroughput _ => true
  | _ => false
  end.

(** An event other than a conversion of an input to channels-last. *)
Definition not_input_conversion (e : event) : bool :=
  match e with
  | EToChannelsLast _ => false
  | _ => true
  end.

(** No iteration of a run of [train] can count: the loader is empty, or the
    warmup does not end before [last_iter], or the run starts at or after
    [last_iter]. *)
Definition none_counts (s : trainer) : Prop :=
  self_train_loader s = []
  ∨ last_iter_of s ≤ cfg_num_warmup (self_config s)
  ∨ last_iter_of s ≤ self_num_iterations s.

(** The generic-profiled path does not enter its loop: the schedule of the
    profiler is refused. *)
Definition schedule_refused (p : path) (s : trainer) : bool :=
  match p with
  | Profile => profile_len_of s <? 0
  | _ => false
  end.

(** A trainer that differs from [s] in the model, the optimizer and
    [num_iterations] at most. *)
Definition trained_from (s s' : trainer) : Prop :=
  s' = set_num_iterations (self_num_iterations s')
         (set_model_optimizer (self_model s', self_optimizer s') s).

(** *** The lines that [train] prints, without the times *)

(** A line that [train] prints about its timing, without the floating-point
    numbers in it: the number of the iteration, and the [total_count] of
    the totals. *)
Inductive line :=
  | LIteration (i : Z)
  | LCounted (i : Z)
  | LTotals (total_count : Z)
  | LLatency
  | LThroughput.

Definition line_of (e : event) : option line :=
  match e with
  | EPrintIteration i _ => Some (LIteration i)
  | EPrintCounted i => Some (LCounted i)
  | EPrintTotals _ total_count => Some (LTotals total_count)
  | EPrintLatency _ => Some LLatency
  | EPrintThroughput _ => Some LThroughput
  | _ => None
  end.

Definition lines_of (evs : list event) : list line := omap line_of evs.

(** The lines of iteration [i] when [num_warmup = W] and
    [last_iter = L - 1]: lines 304-309 and 357-362. *)
Definition iteration_shape (W L i : Z) : list line :=
  LIteration i :: (if counts W L i then [LCounted i] else []).

(** *** [should_stop] *)

(** [min_lr = 1e-6]: the double nearest to one millionth, as the rational
    it denotes. *)
Definition min_lr : pyfloat := Finite (4722366482869645 # 4722366482869645213696).

(** [should_stop]; [learning_rate] stands for
    [optimizer.param_groups[0]['lr']]. *)
Definition should_stop (learning_rate : optimizer → result pyfloat) : M world bool :=
  s <- self ;;
  if self_max_num_iterations s <? self_num_iterations s then
    trace (ELogInfo "Maximum number of iterations exceeded.") ;;;
    ret true
  else
    lr <- lift (learning_rate (self_optimizer s)) ;;
    if float_lt lr min_lr then
      trace (ELogInfo "Learning rate below the minimum.") ;;;
      ret true
    else ret false.

(** *** Nested batches *)

Local Unset Elimination Schemes.

(** What a loader yields: a tensor, or a list or a tuple of such. *)
Inductive batch :=
  | BTensor (x : tensor)
  | BSeq (is_tuple : bool) (items : list batch).

(** [_move_to_device], the function local to [_split_training_batch]. *)
Fixpoint _move_to_device (d : device) (input : batch) : batch :=
  match input with
  | BSeq _ items => BSeq true (map (_move_to_device d) items)
  | BTensor x => BTensor (tensor_to_device x d)
  end.

(** [_split_training_batch] on a batch that is a list or a tuple of
    [items]. *)
Definition split_batch (d : device) (items : list batch)
    : result (batch * batch * option batch) :=
  match _move_to_device d (BSeq false items) with
  | BSeq _ [input; target] => Ok (input, target, None)
  | BSeq _ [input; target; weight] => Ok (input, target, Some weight)
  | _ => Raise (Exn ValueError "unpack")
  end.

(** The tensors of a batch, from left to right. *)
Fixpoint tensors_of (b : batch) : list tensor :=
  match b with
  | BTensor x => [x]
  | BSeq _ items => flat_map tensors_of items
  end.

(** The nesting of a batch: its tensors forgotten, its lists taken for
    tuples. *)
Inductive nesting :=
  | NLeaf
  | NNode (items : list nesting).

Local Set Elimination Schemes.

Fixpoint nesting_of (b : batch) : nesting :=
  match b with
  | BTensor _ => NLeaf
  | BSeq _ items => NNode (map nesting_of items)
  end.

(** No list is left in the batch. *)
Fixpoint tuples_only (b : batch) : bool :=
  match b with
  | BTensor _ => true
  | BSeq is_tuple items => is_tuple && forallb tuples_only items
  end.

(** *** The best score *)

(** [max] when a higher score is better, [min] otherwise. *)
Definition py_best (higher_is_better : bool) (a b : pyfloat) : pyfloat :=
  if higher_is_better then py_max a b else py_min a b.

(** [x] is at least as good as [y]. *)
Definition as_good (higher_is_better : bool) (x y : pyfloat) : bool :=
  if higher_is_better then float_le y x else float_le x y.

End TrainerMore.

(** A trainer over the small framework with a loader of [n] batches. *)
Definition toy_world_of (n : nat) (cfg : train_config) : @world (toy_framework false) :=
  @World (toy_framework false)
    (@Trainer (toy_framework false)
       1 0 tt tt tt (Device "cpu" "cpu")
       (replicate n [1; 2])
       "checkpoints" 10 1000 true cfg NegInf tt 0 0)
    0 [] ∅.


(** * Proofs *)

(** ** The monad *)

Lemma bind_ok {S A B} (c : M S A) (k : A → M S B) s s' a :
  c s = (s', Ok a) → bind c k s = k a s'.
Proof. unfold bind. by intros ->. Qed.

Lemma bind_raise {S A B} (c : M S A) (k : A → M S B) s s' e :
  c s = (s', Raise e) → bind c k s = (s', Raise e).
Proof. unfold bind. by intros ->. Qed.

Lemma bind_bind {S A B C} (c : M S A) (k : A → M S B) (k' : B → M S C) s :
  bind (bind c k) k' s = bind c (λ x, bind (k x) k') s.
Proof. unfold bind. destruct (c s) as [s' [a|e]]; reflexivity. Qed.

Lemma bind_inv_ok {S A B} (c : M S A) (k : A → M S B) s s'' b :
  bind c k s = (s'', Ok b) →
  ∃ s' a, c s = (s', Ok a) ∧ k a s' = (s'', Ok b).
Proof.
  unfold bind. destruct (c s) as [s' [a|e]]; intros Heq; [ eauto | discriminate ].
Qed.

(** ** Dictionaries in the store *)

Lemma dict_get_run l k d h log m :
  h !! l = Some (ODict m) →
  dict_get (VRef l) k d (CState h log) = (CState h log, Ok (default d (m !! k))).
Proof.
  intros Hl. unfold dict_get, bind, get. simpl. rewrite Hl. by destruct (m !! k).
Qed.

Lemma getitem_run l k h log m v :
  h !! l = Some (ODict m) → m !! k = Some v →
  getitem (VRef l) k (CState h log) = (CState h log, Ok v).
Proof. intros Hl Hk. unfold getitem, bind, get. simpl. by rewrite Hl, Hk. Qed.

Lemma getitem_missing l k h log m :
  h !! l = Some (ODict m) → m !! k = None →
  getitem (VRef l) k (CState h log) = (CState h log, Raise (Exn KeyError k)).
Proof. intros Hl Hk. unfold getitem, bind, get. simpl. by rewrite Hl, Hk. Qed.

Lemma setitem_run l k v h log m :
  h !! l = Some (ODict m) →
  setitem (VRef l) k v (CState h log)
  = (CState (<[l := ODict (<[k := v]> m)]> h) log, Ok tt).
Proof. intros Hl. unfold setitem, bind, get. simpl. by rewrite Hl. Qed.

Lemma setitem_inv d k v s s' :
  setitem d k v s = (s', Ok tt) →
  ∃ l m, d = VRef l ∧ st_heap s !! l = Some (ODict m).
Proof.
  unfold setitem, bind, get. simpl.
  destruct d as [| | | | | |l]; try discriminate.
  destruct (st_heap s !! l) as [[m|]|] eqn:Hl; try discriminate. eauto.
Qed.

Lemma getitem_heap d k s : st_heap (getitem d k s).1 = st_heap s.
Proof.
  unfold getitem, bind, get. simpl.
  destruct d as [| | | | | |l]; try reflexivity.
  destruct (st_heap s !! l) as [[m|]|]; try reflexivity.
  by destruct (m !! k).
Qed.

Lemma dict_get_heap d k v s : st_heap (dict_get d k v s).1 = st_heap s.
Proof.
  unfold dict_get, bind, get. simpl.
  destruct d as [| | | | | |l]; try reflexivity.
  by destruct (st_heap s !! l) as [[m|]|].
Qed.

(** ** Computations that ignore the log *)

Lemma heap_only_ret {A} (a : A) : heap_only (ret a).
Proof. by intros h l1 l2. Qed.

Lemma heap_only_raise {A} e : heap_only (@raise cstate A e).
Proof. by intros h l1 l2. Qed.

Lemma heap_only_bind {A B} (c : M cstate A) (k : A → M cstate B) :
  heap_only c → (∀ a, heap_only (k a)) → heap_only (bind c k).
Proof.
  intros Hc Hk h l1 l2. unfold bind.
  destruct (Hc h l1 l2) as [Hh Hr].
  destruct (c (CState h l1)) as [[h1 l1'] r1], (c (CState h l2)) as [[h2 l2'] r2].
  simpl in *. subst. destruct r2 as [a|e]; [ apply Hk | done ].
Qed.

Lemma heap_only_getitem d k : heap_only (getitem d k).
Proof.
  intros h l1 l2. unfold getitem, bind, get. simpl.
  destruct d as [| | | | | |l]; try done.
  destruct (h !! l) as [[m|]|]; try done. by destruct (m !! k).
Qed.

Lemma heap_only_setitem d k v : heap_only (setitem d k v).
Proof.
  intros h l1 l2. unfold setitem, bind, get. simpl.
  destruct d as [| | | | | |l]; try done.
  by destruct (h !! l) as [[m|]|].
Qed.

Create HintDb heap_only.

Global Hint Resolve heap_only_ret heap_only_raise heap_only_getitem heap_only_setitem
  : heap_only.

(** ** [load_config] *)

Lemma load_config_eq td cuda cmd config :
  load_config td cuda cmd config
  = (ds <- dict_get config "device" VNone ;;
     _ <- device_from_config cuda ds ;;
     write_flags td cmd config)%py.
Proof. reflexivity. Qed.

(** The block on the ['device'] entry only logs, and passes exactly when the
    entry is absent, null or a string. *)
Lemma device_from_config_run cuda (o : option value) h log :
  device_entry_ok o →
  ∃ log' v,
    device_from_config cuda (default VNone o) (CState h log) = (CState h log', Ok v).
Proof.
  destruct o as [[]|]; simpl; try done; intros _.
  - eexists _, _. reflexivity.
  - unfold bind. simpl.
    destruct (String.prefix "cuda" s && negb cuda); eexists _, _; reflexivity.
  - eexists _, _. reflexivity.
Qed.

Lemma device_from_config_raise cuda (o : option value) h log :
  ¬ device_entry_ok o →
  ∃ log',
    device_from_config cuda (default VNone o) (CState h log)
    = (CState h log', Raise (Exn AttributeError "startswith")).
Proof.
  destruct o as [[]|]; simpl; try tauto; intros _; eexists; reflexivity.
Qed.

Lemma device_entry_ok_dec o : device_entry_ok o ∨ ¬ device_entry_ok o.
Proof. destruct o as [[]|]; simpl; tauto. Qed.

Lemma write_flags_heap_only td cmd config : heap_only (write_flags td cmd config).
Proof.
  unfold write_flags. cbv zeta.
  apply heap_only_bind; [ destruct (td _); auto with heap_only | intros d ].
  repeat (apply heap_only_bind; [ auto with heap_only | intros ? ]).
  auto with heap_only.
Qed.

Ltac solve_lookup :=
  repeat first [ rewrite lookup_insert_eq | rewrite lookup_insert_ne by done ];
  first [ reflexivity | eassumption ].

Ltac step_set :=
  erewrite bind_ok; [ | apply setitem_run; solve_lookup ].

(** The run of [write_flags] on a well-formed configuration. *)
Lemma write_flags_run td cmd h log root m ll lm d :
  h !! root = Some (ODict m) →
  m !! "loaders" = Some (VRef ll) →
  h !! ll = Some (ODict lm) →
  td (a_device (parse_args cmd)) = Some d →
  let args := parse_args cmd in
  ∃ h' m' lm',
    write_flags td cmd (VRef root) (CState h log) = (CState h' log, Ok (VRef root)) ∧
    h' !! root = Some (ODict m') ∧
    h' !! ll = Some (ODict lm') ∧
    m' !! "device" = Some (VDevice d) ∧
    m' !! "device_str" = Some (VStr (a_device args)) ∧
    lm' !! "batch_size" = Some (VInt (a_batch_size args)) ∧
    m' !! "precision" = Some (VStr (a_precision args)) ∧
    m' !! "channels_last" = Some (VInt (a_channels_last args)) ∧
    m' !! "jit" = Some (VBool (a_jit args)) ∧
    m' !! "profile" = Some (VBool (a_profile args)) ∧
    m' !! "num_iter" = Some (VInt (a_num_iter args)) ∧
    m' !! "num_warmup" = Some (VInt (a_num_warmup args)) ∧
    m' !! "nv_fuser" = Some (VBool (a_nv_fuser args)) ∧
    m' !! "ipex" = Some (VBool (a_ipex args)) ∧
    (∀ k, k ∉ written_keys → (ll = root → k ≠ "batch_size") → m' !! k = m !! k) ∧
    (ll ≠ root → ∀ k, k ≠ "batch_size" → lm' !! k = lm !! k) ∧
    (∀ l, l ≠ root → l ≠ ll → h' !! l = h !! l).
Proof.
  intros Hroot Hloaders Hll Htd args. subst args.
  unfold write_flags. cbv zeta. rewrite Htd.
  erewrite bind_ok; [ | reflexivity ].
  do 2 step_set.
  erewrite bind_ok; [ | eapply getitem_run; [ solve_lookup | solve_lookup ] ].
  destruct (decide (ll = root)) as [-> | Hne].
  - do 9 step_set.
    eexists _, _, _. split; [ reflexivity | ].
    rewrite lookup_insert_eq.
    split; [ reflexivity | ]. split; [ reflexivity | ].
    repeat (split; [ by simplify_map_eq | ]).
    split; [ | split ].
    + intros k Hk Hbs. unfold written_keys in Hk.
      repeat (rewrite lookup_insert_ne; [ | set_solver ]). done.
    + done.
    + intros l Hl _. by repeat (rewrite lookup_insert_ne; [ | done ]).
  - do 9 step_set.
    eexists _, _, _. split; [ reflexivity | ].
    split; [ by simplify_map_eq | ]. split; [ by simplify_map_eq | ].
    repeat (split; [ by simplify_map_eq | ]).
    split; [ | split ].
    + intros k Hk Hbs. unfold written_keys in Hk.
      repeat (rewrite lookup_insert_ne; [ | set_solver ]). done.
    + intros _ k Hk. by rewrite lookup_insert_ne.
    + intros l Hl Hl'. by repeat (rewrite lookup_insert_ne; [ | done ]).
Qed.

(** A run of [write_flags] that returns found a device for the flag and a
    mapping under ['loaders']. *)
Lemma write_flags_ok_inv td cmd h log root m s' v :
  h !! root = Some (ODict m) →
  write_flags td cmd (VRef root) (CState h log) = (s', Ok v) →
  ∃ d ll lm,
    td (a_device (parse_args cmd)) = Some d ∧
    m !! "loaders" = Some (VRef ll) ∧
    h !! ll = Some (ODict lm).
Proof.
  intros Hroot. unfold write_flags. cbv zeta.
  destruct (td (a_device (parse_args cmd))) as [d|] eqn:Htd;
    [ | intros Hrun; discriminate Hrun ].
  erewrite bind_ok; [ | reflexivity ].
  do 2 step_set.
  destruct (m !! "loaders") as [vl|] eqn:Hl.
  - erewrite bind_ok; [ | eapply getitem_run; [ solve_lookup | solve_lookup ] ].
    intros Hrun. apply bind_inv_ok in Hrun as (s1 & [] & Hset & _).
    apply setitem_inv in Hset as (ll & lm & -> & Hll). simpl in Hll.
    destruct (decide (ll = root)) as [-> | Hne].
    + eauto 10.
    + rewrite !lookup_insert_ne in Hll by done. eauto 10.
  - erewrite bind_raise; [ | eapply getitem_missing; [ solve_lookup | solve_lookup ] ].
    discriminate.
Qed.

(** C3 (as amended): on a parsed YAML mapping whose ['loaders'] entry is a
    mapping and whose ['device'] entry is absent, null or a string, and with
    a [--device] value that [torch.device] accepts, [load_config] returns
    the very mapping it loaded, with the ten top-level keys and
    [loaders.batch_size] set from the command-line flags (the defaults being
    1, "float32", 1, False, False, 200, 20, "cpu", False, False); every
    other top-level key is still bound to the value (for a collection: the
    object) it was bound to, every other key of the loaders mapping is
    unchanged, and no object other than the top-level mapping and the
    loaders mapping is touched. *)
Theorem load_config_merges_flags td cuda cmd h log root m ll lm d :
  h !! root = Some (ODict m) →
  m !! "loaders" = Some (VRef ll) →
  h !! ll = Some (ODict lm) →
  device_entry_ok (m !! "device") →
  td (a_device (parse_args cmd)) = Some d →
  let args := parse_args cmd in
  parse_args (no_flags (c_config cmd))
  = Namespace (c_config cmd) 1 "float32" 1 false false 200 20 "cpu" false false ∧
  ∃ h' log' m' lm',
    load_config td cuda cmd (VRef root) (CState h log) = (CState h' log', Ok (VRef root)) ∧
    h' !! root = Some (ODict m') ∧
    h' !! ll = Some (ODict lm') ∧
    m' !! "device" = Some (VDevice d) ∧
    m' !! "device_str" = Some (VStr (a_device args)) ∧
    lm' !! "batch_size" = Some (VInt (a_batch_size args)) ∧
    m' !! "precision" = Some (VStr (a_precision args)) ∧
    m' !! "channels_last" = Some (VInt (a_channels_last args)) ∧
    m' !! "jit" = Some (VBool (a_jit args)) ∧
    m' !! "profile" = Some (VBool (a_profile args)) ∧
    m' !! "num_iter" = Some (VInt (a_num_iter args)) ∧
    m' !! "num_warmup" = Some (VInt (a_num_warmup args)) ∧
    m' !! "nv_fuser" = Some (VBool (a_nv_fuser args)) ∧
    m' !! "ipex" = Some (VBool (a_ipex args)) ∧
    (∀ k, k ∉ written_keys → (ll = root → k ≠ "batch_size") → m' !! k = m !! k) ∧
    (ll ≠ root → ∀ k, k ≠ "batch_size" → lm' !! k = lm !! k) ∧
    (∀ l, l ≠ root → l ≠ ll → h' !! l = h !! l).
Proof.
  intros Hroot Hloaders Hll Hdev Htd args.
  split; [ reflexivity | ].
  rewrite load_config_eq.
  erewrite bind_ok; [ | by apply dict_get_run ].
  destruct (device_from_config_run cuda _ h log Hdev) as (log' & v & Hpre).
  erewrite bind_ok; [ | exact Hpre ].
  destruct (write_flags_run td cmd h log' root m ll lm d Hroot Hloaders Hll Htd)
    as (h' & m' & lm' & Hrun).
  exists h', log', m', lm'. exact Hrun.
Qed.

Lemma load_config_merges_flags_witness :
  parse_args (no_flags "train_config.yaml")
  = Namespace "train_config.yaml" 1 "float32" 1 false false 200 20 "cpu" false false ∧
  ∃ h' log' m' lm',
    load_config any_device false (no_flags "train_config.yaml") (VRef 1%positive)
      (CState (yaml_small (Some (VStr "cuda:0"))) [])
    = (CState h' log', Ok (VRef 1%positive)) ∧
    h' !! 1%positive = Some (ODict m') ∧
    h' !! 2%positive = Some (ODict lm') ∧
    m' !! "device" = Some (VDevice (Device "cpu" "cpu")) ∧
    m' !! "device_str" = Some (VStr "cpu") ∧
    lm' !! "batch_size" = Some (VInt 1) ∧
    m' !! "precision" = Some (VStr "float32") ∧
    m' !! "channels_last" = Some (VInt 1) ∧
    m' !! "jit" = Some (VBool false) ∧
    m' !! "profile" = Some (VBool false) ∧
    m' !! "num_iter" = Some (VInt 200) ∧
    m' !! "num_warmup" = Some (VInt 20) ∧
    m' !! "nv_fuser" = Some (VBool false) ∧
    m' !! "ipex" = Some (VBool false) ∧
    (∀ k, k ∉ written_keys → (2%positive = 1%positive → k ≠ "batch_size") →
          m' !! k = ({[ "device" := VStr "cuda:0"; "loaders" := VRef 2%positive ]}
                       : gmap string value) !! k) ∧
    (2%positive ≠ 1%positive → ∀ k, k ≠ "batch_size" → lm' !! k = (∅ : gmap string value) !! k) ∧
    (∀ l, l ≠ 1%positive → l ≠ 2%positive →
          h' !! l = yaml_small (Some (VStr "cuda:0")) !! l).
Proof.
  apply (load_config_merges_flags any_device false (no_flags "train_config.yaml")
           (yaml_small (Some (VStr "cuda:0"))) [] 1%positive
           {[ "device" := VStr "cuda:0"; "loaders" := VRef 2%positive ]}
           2%positive ∅ (Device "cpu" "cpu")).
  - reflexivity.
  - reflexivity.
  - reflexivity.
  - vm_compute. exact I.
  - reflexivity.
Defined.

(** C3, counterexample: the YAML file [loaders: 5] parses to a mapping that
    contains the key ['loaders'], and [load_config] raises a [TypeError] at
    line 42 instead of returning. *)
Lemma load_config_loaders_scalar_raises :
  yaml_loaders_scalar !! 1%positive = Some (ODict {[ "loaders" := VInt 5 ]}) ∧
  ({[ "loaders" := VInt 5 ]} : gmap string value) !! "loaders" = Some (VInt 5) ∧
  (load_config any_device false (no_flags "train_config.yaml") (VRef 1%positive)
     (CState yaml_loaders_scalar [])).2
  = Raise (Exn TypeError "object does not support item assignment").
Proof. split; [ reflexivity | split; [ reflexivity | ] ]. vm_compute. reflexivity. Qed.

(** An alias of the loaders mapping sees the batch size too: the key
    ['val_loaders'] is left bound to the same object, and that object has
    changed. *)
Example load_config_aliased_loaders :
  ∃ m,
    st_heap (load_config any_device false (no_flags "train_config.yaml") (VRef 1%positive)
               (CState yaml_aliased [])).1 !! 2%positive = Some (ODict m)
    ∧ m !! "batch_size" = Some (VInt 1).
Proof. eexists. split; vm_compute; reflexivity. Qed.

Lemma heap_only_elim {A} (c : M cstate A) h l1 l2 :
  heap_only c →
  (c (CState h l1)).2 = (c (CState h l2)).2
  ∧ (∀ v, (c (CState h l1)).2 = Ok v →
          st_heap (c (CState h l1)).1 = st_heap (c (CState h l2)).1).
Proof. intros Hc. destruct (Hc h l1 l2) as [Hh Hr]. by split. Qed.

(** Two stores that differ only in the ['device'] entry of the top-level
    mapping are the same store once line 40 has overwritten that entry. *)
Lemma write_flags_agree td cmd root h1 h2 m1 m2 l1 l2 :
  h1 !! root = Some (ODict m1) →
  h2 !! root = Some (ODict m2) →
  (∀ l, l ≠ root → h1 !! l = h2 !! l) →
  (∀ k, k ≠ "device" → m1 !! k = m2 !! k) →
  (write_flags td cmd (VRef root) (CState h1 l1)).2
  = (write_flags td cmd (VRef root) (CState h2 l2)).2
  ∧ (∀ v, (write_flags td cmd (VRef root) (CState h1 l1)).2 = Ok v →
          st_heap (write_flags td cmd (VRef root) (CState h1 l1)).1
          = st_heap (write_flags td cmd (VRef root) (CState h2 l2)).1).
Proof.
  intros H1 H2 Hh Hm. unfold write_flags. cbv zeta.
  destruct (td (a_device (parse_args cmd))) as [d|]; [ | by split ].
  erewrite (bind_ok _ _ (CState h1 l1)); [ | reflexivity ].
  erewrite (bind_ok _ _ (CState h2 l2)); [ | reflexivity ].
  erewrite bind_ok; [ | apply setitem_run; exact H1 ].
  erewrite (bind_ok (setitem _ _ _) _ (CState h2 l2)); [ | apply setitem_run; exact H2 ].
  assert (Heq : <[root := ODict (<["device" := VDevice d]> m2)]> h2
                = <[root := ODict (<["device" := VDevice d]> m1)]> h1).
  { apply map_eq. intros l. destruct (decide (l = root)) as [-> | Hne].
    - rewrite !lookup_insert_eq. do 2 f_equal. apply map_eq. intros k.
      destruct (decide (k = "device")) as [-> | Hk].
      + by rewrite !lookup_insert_eq.
      + rewrite !lookup_insert_ne by done. symmetry. by apply Hm.
    - rewrite !lookup_insert_ne by done. symmetry. by apply Hh. }
  rewrite Heq.
  apply heap_only_elim.
  repeat (apply heap_only_bind; [ auto with heap_only | intros ? ]).
  auto with heap_only.
Qed.

(** C8: two runs of [load_config] with the same command line, on parsed
    files that differ only in the top-level ['device'] entry and under any
    CUDA availability, return identical configurations whenever both
    return: the same mapping object and the same store.  In it, ['device']
    and ['device_str'] hold what the [--device] flag gives.  When the
    ['device'] entries are absent, null or strings, the two runs also end
    alike: both return, or both raise the same exception. *)
Theorem load_config_device_from_flag_only td cuda1 cuda2 cmd root h1 h2 m1 m2 log1 log2 :
  h1 !! root = Some (ODict m1) →
  h2 !! root = Some (ODict m2) →
  (∀ l, l ≠ root → h1 !! l = h2 !! l) →
  (∀ k, k ≠ "device" → m1 !! k = m2 !! k) →
  let run1 := load_config td cuda1 cmd (VRef root) (CState h1 log1) in
  let run2 := load_config td cuda2 cmd (VRef root) (CState h2 log2) in
  (∀ v1 v2, run1.2 = Ok v1 → run2.2 = Ok v2 →
     v1 = v2 ∧ st_heap run1.1 = st_heap run2.1 ∧
     ∃ m' d,
       st_heap run1.1 !! root = Some (ODict m') ∧
       td (a_device (parse_args cmd)) = Some d ∧
       m' !! "device" = Some (VDevice d) ∧
       m' !! "device_str" = Some (VStr (a_device (parse_args cmd)))) ∧
  (device_entry_ok (m1 !! "device") → device_entry_ok (m2 !! "device") →
     run1.2 = run2.2).
Proof.
  intros H1 H2 Hh Hm run1 run2. subst run1 run2.
  rewrite !load_config_eq.
  erewrite bind_ok; [ | by apply dict_get_run ].
  erewrite (bind_ok _ _ (CState h2 log2)); [ | by apply dict_get_run ].
  destruct (device_entry_ok_dec (m1 !! "device")) as [Hd1 | Hd1];
    [ destruct (device_entry_ok_dec (m2 !! "device")) as [Hd2 | Hd2] | ].
  - destruct (device_from_config_run cuda1 _ h1 log1 Hd1) as (l1 & x1 & Hp1).
    destruct (device_from_config_run cuda2 _ h2 log2 Hd2) as (l2 & x2 & Hp2).
    erewrite bind_ok; [ | exact Hp1 ].
    erewrite (bind_ok _ _ (CState h2 log2)); [ | exact Hp2 ].
    destruct (write_flags_agree td cmd root h1 h2 m1 m2 l1 l2 H1 H2 Hh Hm)
      as [Hr Hheap].
    split; [ | by intros _ _ ].
    intros v1 v2 Hv1 Hv2. split; [ congruence | ].
    split; [ by eapply Hheap | ].
    destruct (write_flags td cmd (VRef root) (CState h1 l1)) as [s1 r1] eqn:Hrun.
    simpl in Hv1. subst r1.
    destruct (write_flags_ok_inv _ _ _ _ _ _ _ _ H1 Hrun) as (d & ll & lm & Htd & Hl & Hll).
    destruct (write_flags_run td cmd h1 l1 root m1 ll lm d H1 Hl Hll Htd)
      as (h' & m' & lm' & Hrun' & Hroot' & _ & Hdev & Hstr & _).
    rewrite Hrun in Hrun'. injection Hrun' as -> _. simpl. eauto 10.
  - destruct (device_from_config_raise cuda2 _ h2 log2 Hd2) as (l2 & Hp2).
    erewrite (bind_raise _ _ (CState h2 log2)); [ | exact Hp2 ].
    split; [ intros v1 v2 _ Hv2; discriminate Hv2 | by intros _ ? ].
  - destruct (device_from_config_raise cuda1 _ h1 log1 Hd1) as (l1 & Hp1).
    erewrite bind_raise; [ | exact Hp1 ].
    split; [ intros v1 v2 Hv1; discriminate Hv1 | by intros ? ].
Qed.

Lemma load_config_device_from_flag_only_witness :
  st_heap (load_config any_device true (no_flags "train_config.yaml") (VRef 1%positive)
             (CState (yaml_small (Some (VStr "cuda:0"))) [])).1
  = st_heap (load_config any_device false (no_flags "train_config.yaml") (VRef 1%positive)
               (CState (yaml_small None) [])).1.
Proof.
  destruct (load_config_device_from_flag_only any_device true false
              (no_flags "train_config.yaml") 1%positive
              (yaml_small (Some (VStr "cuda:0"))) (yaml_small None)
              {[ "device" := VStr "cuda:0"; "loaders" := VRef 2%positive ]}
              {[ "loaders" := VRef 2%positive ]} [] [])
    as [Hsame _].
  - reflexivity.
  - reflexivity.
  - intros l Hl. unfold yaml_small. by rewrite !lookup_insert_ne.
  - intros k Hk. by rewrite lookup_insert_ne.
  - destruct (Hsame (VRef 1%positive) (VRef 1%positive)) as (_ & Hheap & _).
    + vm_compute. reflexivity.
    + vm_compute. reflexivity.
    + exact Hheap.
Defined.

(** ** [create_trainer] *)

Section CreateTrainerProofs.

Context `{Framework}.

Lemma emit_run e s : emit e s = (CState (st_heap s) (st_log s ++ [e]), Ok tt).
Proof. reflexivity. Qed.

Lemma call_run {A} (f : heap → result A) s : call f s = (s, f (st_heap s)).
Proof. reflexivity. Qed.

Lemma heap_const_ret {A} (a : A) : heap_const (ret a).
Proof. by intros s. Qed.

Lemma heap_const_raise {A} e : heap_const (@raise cstate A e).
Proof. by intros s. Qed.

Lemma heap_const_lift {A} (r : result A) : heap_const (lift r).
Proof. by intros s. Qed.

Lemma heap_const_get : heap_const (@get cstate).
Proof. by intros s. Qed.

Lemma heap_const_emit e : heap_const (emit e).
Proof. by intros s. Qed.

Lemma heap_const_call {A} (f : heap → result A) : heap_const (call f).
Proof. by intros s. Qed.

Lemma heap_const_getitem d k : heap_const (getitem d k).
Proof. intros s. apply getitem_heap. Qed.

Lemma heap_const_dict_get d k v : heap_const (dict_get d k v).
Proof. intros s. apply dict_get_heap. Qed.

Lemma heap_const_device_type v : heap_const (device_type v).
Proof. intros s. by destruct v. Qed.

Lemma heap_const_bind {A B} (c : M cstate A) (k : A → M cstate B) :
  heap_const c → (∀ a, heap_const (k a)) → heap_const (bind c k).
Proof.
  intros Hc Hk s. unfold bind. specialize (Hc s).
  destruct (c s) as [s' [a|e]]; simpl in *; [ | done ].
  by rewrite Hk.
Qed.

Lemma heap_const_try {A} (c : M cstate A) (h : exn → M cstate A) :
  heap_const c → (∀ e, heap_const (h e)) → heap_const (try_except_RuntimeError c h).
Proof.
  intros Hc Hh s. unfold try_except_RuntimeError. specialize (Hc s).
  destruct (c s) as [s' [a|e]]; simpl in *; [ done | ].
  destruct (is_RuntimeError e); simpl; [ by rewrite Hh | done ].
Qed.

Lemma heap_const_if {A} (b : bool) (c1 c2 : M cstate A) :
  heap_const c1 → heap_const c2 → heap_const (if b then c1 else c2).
Proof. by destruct b. Qed.

Create HintDb heap_const.

Hint Resolve heap_const_ret heap_const_raise heap_const_lift heap_const_get
  heap_const_emit heap_const_call heap_const_getitem heap_const_dict_get
  heap_const_device_type heap_const_if : heap_const.

Ltac heap_const_tac :=
  repeat first
    [ solve [ auto with heap_const ]
    | apply heap_const_if
    | apply heap_const_try; [ | intros ? ]
    | apply heap_const_bind; [ | intros ? ] ].

Lemma heap_const_create_model config : heap_const (create_model config).
Proof. unfold create_model. heap_const_tac. Qed.

Lemma heap_const_model_channels_last m : heap_const (model_channels_last m).
Proof. unfold model_channels_last. heap_const_tac. Qed.

(** A computation that cannot return, after a step that leaves the store
    alone. *)
Lemma bind_never_ok {A B} (c : M cstate A) (k : A → M cstate B) s root o :
  heap_const c →
  st_heap s !! root = Some o →
  (∀ a s', st_heap s' !! root = Some o → ∃ e, (k a s').2 = Raise e) →
  ∃ e, (bind c k s).2 = Raise e.
Proof.
  intros Hc Hs Hk. unfold bind. specialize (Hc s).
  destruct (c s) as [s' [a|e]]; simpl in *; [ | eauto ].
  apply Hk. by rewrite Hc.
Qed.

Ltac skip_step :=
  eapply bind_never_ok; [ heap_const_tac | eassumption | intros ? ? ? ].

Lemma create_trainer_tail_no_trainer root model s m :
  st_heap s !! root = Some (ODict m) →
  m !! "trainer" = None →
  ∃ e, (create_trainer_tail (VRef root) model s).2 = Raise e.
Proof.
  intros Hroot Hm. unfold create_trainer_tail.
  do 10 skip_step.
  exists (Exn KeyError "trainer").
  match goal with s' : cstate |- (bind _ _ ?s).2 = _ => destruct s as [h' log'] end.
  erewrite bind_raise; [ reflexivity | by eapply getitem_missing ].
Qed.

Lemma create_trainer_no_trainer root s m :
  st_heap s !! root = Some (ODict m) →
  m !! "trainer" = None →
  ∃ e, (create_trainer (VRef root) s).2 = Raise e.
Proof.
  intros Hroot Hm. unfold create_trainer.
  eapply bind_never_ok; [ apply heap_const_create_model | eassumption | intros ? ? ? ].
  do 2 skip_step.
  eapply bind_never_ok;
    [ apply heap_const_if; [ apply heap_const_model_channels_last | heap_const_tac ]
    | eassumption | intros ? ? ? ].
  by eapply create_trainer_tail_no_trainer.
Qed.

Lemma create_trainer_no_model root h log m :
  h !! root = Some (ODict m) →
  m !! "model" = None →
  create_trainer (VRef root) (CState h log)
  = (CState h log, Raise (Exn KeyError "model")).
Proof.
  intros Hroot Hm. unfold create_trainer, create_model.
  rewrite !bind_bind.
  erewrite bind_raise; [ reflexivity | by eapply getitem_missing ].
Qed.


Lemma call_ok {A} (f : heap → result A) h log x :
  f h = Ok x → call f (CState h log) = (CState h log, Ok x).
Proof. intros Hf. rewrite call_run. simpl. by rewrite Hf. Qed.

Lemma lift_ok {A} (r : result A) (s : cstate) x : r = Ok x → lift r s = (s, Ok x).
Proof. by intros ->. Qed.

Ltac cstep :=
  first
    [ erewrite bind_ok by (eapply getitem_run; [ eassumption | eassumption ])
    | erewrite bind_ok by (apply call_ok; eassumption)
    | erewrite bind_ok by (apply lift_ok; eassumption)
    | erewrite bind_ok by (apply dict_get_run; eassumption)
    | erewrite bind_ok by apply emit_run
    | erewrite bind_ok by reflexivity ];
  cbn [st_heap st_log fst snd].

(** With every earlier lookup and call returning, [create_model] returns
    and leaves the store alone. *)
Lemma create_model_returns root h log m :
  framework_returns →
  h !! root = Some (ODict m) →
  keys_before_trainer m →
  ∃ log' model d,
    create_model (VRef root) (CState h log) = (CState h log', Ok (model, VDevice d)).
Proof.
  intros (Hgm & Hto & _) Hroot ([vm Hvm] & [d Hd] & _).
  unfold create_model.
  cstep. destruct (Hgm h vm) as [x Hx]. cstep. cstep.
  destruct (1 <? cuda_device_count).
  - rewrite bind_bind. erewrite bind_ok by reflexivity.
    destruct (negb (String.eqb (dev_type d) "cpu")).
    + rewrite bind_bind. cstep. cstep. cstep. cstep.
      destruct (Hto (DataParallel x) (VDevice d)) as [y Hy]. cstep.
      eexists _, _, _. reflexivity.
    + cstep. cstep. cstep.
      destruct (Hto x (VDevice d)) as [y Hy]. cstep.
      eexists _, _, _. reflexivity.
  - cstep. cstep. cstep.
    destruct (Hto x (VDevice d)) as [y Hy]. cstep.
    eexists _, _, _. reflexivity.
Qed.

Lemma model_channels_last_returns model h log :
  framework_returns →
  ∃ log' model', model_channels_last model (CState h log) = (CState h log', Ok model').
Proof.
  intros (_ & _ & Hcl & _).
  unfold model_channels_last, try_except_RuntimeError.
  destruct (Hcl model) as [[x Hx] | (e & He & Hrt)].
  - erewrite bind_ok by (apply lift_ok; eassumption).
    eexists _, _. reflexivity.
  - erewrite bind_raise by (unfold lift; rewrite He; reflexivity).
    rewrite Hrt. eexists _, _. reflexivity.
Qed.

Lemma create_trainer_tail_KeyError root model h log m :
  framework_returns →
  h !! root = Some (ODict m) →
  keys_before_trainer m →
  m !! "trainer" = None →
  ∃ log',
    create_trainer_tail (VRef root) model (CState h log)
    = (CState h log', Raise (Exn KeyError "trainer")).
Proof.
  intros (_ & _ & _ & Hlc & Hem & Htl & Hco & Hxo & Hls) Hroot
    (_ & [d Hd] & _ & [vo Hvo] & [vp Hvp]) Hm.
  unfold create_trainer_tail.
  cstep.
  destruct (Hlc h (VRef root)) as [lc Hlc']. cstep.
  destruct (Hem h (VRef root)) as [ec Hec]. cstep.
  destruct (Htl h (VRef root)) as [tl Htl']. cstep.
  cstep.
  destruct (Hco h vo model) as [o Ho]. cstep.
  cstep.
  destruct (str_is (VDevice d) "xpu").
  - rewrite bind_bind. cstep.
    destruct (Hxo model o (datatype_of vp)) as [mo Hmo].
    rewrite bind_bind. cstep. rewrite bind_bind. cstep. cstep. cstep.
    destruct (Hls h (default VNone (m !! "lr_scheduler")) mo.2) as [ls Hls']. cstep.
    erewrite bind_raise by (by eapply getitem_missing).
    eexists. reflexivity.
  - cstep. cstep.
    destruct (Hls h (default VNone (m !! "lr_scheduler")) o) as [ls Hls']. cstep.
    erewrite bind_raise by (by eapply getitem_missing).
    eexists. reflexivity.
Qed.

Lemma create_trainer_KeyError_trainer root h log m :
  framework_returns →
  h !! root = Some (ODict m) →
  keys_before_trainer m →
  m !! "trainer" = None →
  (create_trainer (VRef root) (CState h log)).2 = Raise (Exn KeyError "trainer").
Proof.
  intros Hfw Hroot Hkeys Hm.
  destruct (create_model_returns root h log m Hfw Hroot Hkeys) as (l1 & model & d & Hcm).
  pose proof Hkeys as (_ & _ & [cl Hcl] & _).
  unfold create_trainer.
  erewrite bind_ok by exact Hcm. cbn [fst snd].
  cstep. cstep.
  destruct (truthy h cl && ne_str (VDevice d) "xpu").
  - destruct (model_channels_last_returns model h l1 Hfw) as (l2 & model' & Hmc).
    erewrite bind_ok by exact Hmc.
    by destruct (create_trainer_tail_KeyError root model' h l2 m Hfw Hroot Hkeys Hm)
      as [l3 ->].
  - cstep.
    by destruct (create_trainer_tail_KeyError root model h l1 m Hfw Hroot Hkeys Hm)
      as [l3 ->].
Qed.


(** The conversion site of [create_trainer] when the conversion raises a
    [RuntimeError]: the two lines are printed and the model is the one
    that went in. *)
Lemma model_channels_last_caught model s e :
  module_to_channels_last_3d model = Raise e →
  is_RuntimeError e = true →
  model_channels_last model s
  = (CState (st_heap s)
       (st_log s ++ [Print "---- use normal format" [];
                     Print "failed to enable NHWC: " [VStr (exn_msg e)]]),
     Ok model).
Proof.
  intros He Hrt. unfold model_channels_last, try_except_RuntimeError.
  erewrite bind_raise by (unfold lift; rewrite He; reflexivity).
  rewrite Hrt. unfold bind, emit, modify, ret. simpl. by rewrite <- app_assoc.
Qed.

Lemma create_trainer_conversion_caught config s s1 model dev cl e :
  create_model config s = (s1, Ok (model, dev)) →
  getitem config "channels_last" s1 = (s1, Ok cl) →
  truthy (st_heap s1) cl && ne_str dev "xpu" = true →
  module_to_channels_last_3d model = Raise e →
  is_RuntimeError e = true →
  create_trainer config s
  = create_trainer_tail config model
      (CState (st_heap s1)
         (st_log s1 ++ [Print "---- use normal format" [];
                        Print "failed to enable NHWC: " [VStr (exn_msg e)]])).
Proof.
  intros Hcm Hcl Hcond He Hrt. unfold create_trainer.
  erewrite bind_ok by exact Hcm. cbn [fst snd].
  erewrite bind_ok by exact Hcl.
  erewrite bind_ok by reflexivity.
  rewrite Hcond.
  erewrite bind_ok by (by apply model_channels_last_caught).
  reflexivity.
Qed.

End CreateTrainerProofs.

(** C5 (as amended): a missing configuration key is never handled.  On a
    parsed mapping without ['loaders'], [load_config] does not return: the
    exception that reaches the caller is [KeyError('loaders')] whenever
    the statements before line 42 complete (the ['device'] entry is absent,
    null or a string and [torch.device] accepts the flag), and the earlier
    exception otherwise.  On a configuration without ['model'],
    [create_trainer] raises [KeyError('model')] at once.  On one without
    ['trainer'] it does not return: [KeyError('trainer')] reaches the caller
    whenever the lookups and the calls before line 62 return. *)
Theorem missing_key_propagates `{Framework} td cuda cmd yaml_root yaml log0 ym
    root h log m :
  yaml !! yaml_root = Some (ODict ym) →
  h !! root = Some (ODict m) →
  (ym !! "loaders" = None →
     (∃ e, (load_config td cuda cmd (VRef yaml_root) (CState yaml log0)).2 = Raise e) ∧
     (device_entry_ok (ym !! "device") →
      is_Some (td (a_device (parse_args cmd))) →
      (load_config td cuda cmd (VRef yaml_root) (CState yaml log0)).2
      = Raise (Exn KeyError "loaders"))) ∧
  (m !! "model" = None →
     create_trainer (VRef root) (CState h log)
     = (CState h log, Raise (Exn KeyError "model"))) ∧
  (m !! "trainer" = None →
     (∃ e, (create_trainer (VRef root) (CState h log)).2 = Raise e) ∧
     (framework_returns → keys_before_trainer m →
      (create_trainer (VRef root) (CState h log)).2 = Raise (Exn KeyError "trainer"))).
Proof.
  intros Hyaml Hroot. split; [ | split ].
  - intros Hl.
    assert (Hwf : ∀ log', is_Some (td (a_device (parse_args cmd))) →
              (write_flags td cmd (VRef yaml_root) (CState yaml log')).2
              = Raise (Exn KeyError "loaders")).
    { intros log' [d Hd]. unfold write_flags. cbv zeta. rewrite Hd.
      erewrite bind_ok; [ | reflexivity ].
      do 2 step_set.
      erewrite bind_raise; [ reflexivity | ].
      eapply getitem_missing; [ solve_lookup | solve_lookup ]. }
    rewrite load_config_eq.
    erewrite bind_ok; [ | by apply dict_get_run ].
    destruct (device_entry_ok_dec (ym !! "device")) as [Hd | Hd].
    + destruct (device_from_config_run cuda _ yaml log0 Hd) as (log' & x & Hp).
      erewrite bind_ok; [ | exact Hp ].
      split; [ | by intros _ Htd; apply Hwf ].
      destruct (td (a_device (parse_args cmd))) as [d|] eqn:Htd.
      * exists (Exn KeyError "loaders"). apply Hwf. by eexists.
      * unfold write_flags. cbv zeta. rewrite Htd. eexists. reflexivity.
    + destruct (device_from_config_raise cuda _ yaml log0 Hd) as (log' & Hp).
      erewrite bind_raise; [ | exact Hp ].
      split; [ eexists; reflexivity | tauto ].
  - intros Hm. by apply create_trainer_no_model with (m := m).
  - intros Hm. split.
    + by eapply create_trainer_no_trainer.
    + intros Hfw Hkeys. by apply create_trainer_KeyError_trainer with (m := m).
Qed.

Lemma toy_framework_returns b : @framework_returns (toy_framework b).
Proof.
  unfold framework_returns. simpl. repeat split; intros; try (eexists; reflexivity).
  destruct b; [ right | left ]; eauto.
Qed.

Lemma missing_key_propagates_witness :
  (load_config any_device false (no_flags "train_config.yaml") (VRef 1%positive)
     (CState yaml_no_loaders [])).2 = Raise (Exn KeyError "loaders")
  ∧ (@create_trainer (toy_framework false) (VRef 1%positive)
       (CState config_no_trainer [])).2 = Raise (Exn KeyError "trainer").
Proof.
  destruct (@missing_key_propagates (toy_framework false) any_device false
              (no_flags "train_config.yaml")
              1%positive yaml_no_loaders [] {[ "device" := VStr "cpu" ]}
              1%positive config_no_trainer []
              {[ "model" := VRef 2%positive;
                 "optimizer" := VRef 3%positive;
                 "device" := VDevice (Device "cpu" "cpu");
                 "device_str" := VStr "cpu";
                 "channels_last" := VInt 1;
                 "precision" := VStr "float32" ]})
    as (Hloaders & _ & Htrainer).
  - reflexivity.
  - reflexivity.
  - split.
    + apply Hloaders; [ reflexivity | vm_compute; exact I | by eexists ].
    + apply Htrainer; [ reflexivity | apply toy_framework_returns | ].
      unfold keys_before_trainer. repeat split; by eexists.
Defined.

(** C5, counterexample: the file [device: 5] has no ['loaders'] key, and
    what [load_config] raises is the [AttributeError] of line 31, which is
    not a lookup error. *)
Lemma load_config_device_int_raises_AttributeError :
  yaml_device_int !! 1%positive = Some (ODict {[ "device" := VInt 5 ]}) ∧
  ({[ "device" := VInt 5 ]} : gmap string value) !! "loaders" = None ∧
  (load_config any_device false (no_flags "train_config.yaml") (VRef 1%positive)
     (CState yaml_device_int [])).2 = Raise (Exn AttributeError "startswith") ∧
  is_LookupError (Exn AttributeError "startswith") = false.
Proof. repeat split; vm_compute; reflexivity. Qed.


(** ** The training loops *)

Section TrainerProofs.

Context `{Framework}.

Lemma add_events_nil w : add_events [] w = w.
Proof. destruct w. unfold add_events. simpl. by rewrite app_nil_r. Qed.

Lemma time_run u w :
  time_time u w
  = (World (w_self w) (S (w_ticks w)) (w_trace w ++ [ETime u (clock (w_ticks w))])
       (w_files w),
     Ok (clock (w_ticks w))).
Proof. reflexivity. Qed.

Lemma trace_run e w : trace e w = (add_events [e] w, Ok tt).
Proof. reflexivity. Qed.

Lemma self_run w : self w = (w, Ok (w_self w)).
Proof. reflexivity. Qed.

Lemma set_self_run f w :
  set_self f w = (World (f (w_self w)) (w_ticks w) (w_trace w) (w_files w), Ok tt).
Proof. reflexivity. Qed.

Lemma split_run t w :
  _split_training_batch t w
  = (add_events [EToDevice t (self_device (w_self w))] w,
     split_outcome (self_device (w_self w)) t).
Proof.
  unfold _split_training_batch, split_outcome, bind, self, get, trace, modify, ret. simpl.
  destruct t as [|a [|b [|c [|]]]]; reflexivity.
Qed.

Lemma conv_run x w :
  input_channels_last x w
  = (add_events (fst (conv_outcome (self_config (w_self w)) x)) w,
     snd (conv_outcome (self_config (w_self w)) x)).
Proof.
  unfold input_channels_last, conv_outcome, bind at 1, self, get, ret. simpl.
  destruct (_ && _); [ | by rewrite add_events_nil ].
  unfold try_except_RuntimeError, bind, trace, modify, lift, ret, add_events. simpl.
  destruct (tensor_to_channels_last_3d x) as [x'|e]; simpl.
  - by rewrite <- !app_assoc.
  - destruct (is_RuntimeError e); simpl; [ by rewrite <- !app_assoc | done ].
Qed.

Lemma forward_run ac dt x y wt w :
  autocast_forward_pass ac dt x y wt w
  = (add_events (forward_events (w_self w) ac dt x y wt) w,
     Ok (output_of (w_self w) ac dt x, loss_of (w_self w) ac dt x y wt)).
Proof.
  unfold autocast_forward_pass, with_context, _forward_pass, bind, trace, self, get,
    modify, ret, add_events, forward_events. simpl.
  by rewrite <- !app_assoc.
Qed.

Lemma profiled_forward_run dt x y wt w :
  with_context EProfilerLegacyEnter EProfilerLegacyExit
    (autocast_forward_pass "xpu" dt x y wt) w
  = (add_events ([EProfilerLegacyEnter] ++ forward_events (w_self w) "xpu" dt x y wt
                 ++ [EProfilerLegacyExit]) w,
     Ok (output_of (w_self w) "xpu" dt x, loss_of (w_self w) "xpu" dt x y wt)).
Proof.
  unfold with_context.
  rewrite bind_ok with (s' := add_events [EProfilerLegacyEnter] w) (a := tt)
    by reflexivity.
  rewrite forward_run. unfold add_events, trace, modify. simpl.
  by rewrite <- !app_assoc.
Qed.

Lemma update_run loss w :
  update_parameters loss w
  = (World (set_model_optimizer
              (optimizer_step (self_model (w_self w)) (self_optimizer (w_self w)) loss)
              (w_self w))
       (w_ticks w) (w_trace w ++ [EZeroGrad; EBackward loss; EOptimizerStep]) (w_files w),
     Ok tt).
Proof.
  unfold update_parameters, bind, trace, set_self, modify. simpl.
  by rewrite <- !app_assoc.
Qed.

Lemma count_run last d totals w :
  count_perf last d totals w
  = (add_events (counted_events (w_self w) last) w,
     Ok (counted_totals (w_self w) last d totals)).
Proof.
  unfold count_perf, counted_events, counted_totals, is_counted, bind, self, get, ret,
    trace, modify. simpl.
  destruct (_ && _); [ done | by rewrite add_events_nil ].
Qed.

Lemma break_run w :
  break_or_count w
  = (World (advanced (w_self w)) (w_ticks w) (w_trace w) (w_files w),
     Ok (is_last (w_self w))).
Proof.
  unfold break_or_count, advanced, is_last, bind, self, get, ret, set_self, modify. simpl.
  destruct (_ <=? _); [ by destruct w | done ].
Qed.

Lemma load_global_args w : load_global "args" w = (w, Raise (Exn NameError "args")).
Proof. reflexivity. Qed.

Lemma if_autocast_else {A} ds (f : string → A) :
  (if String.eqb ds "cuda" then f "cuda"
   else if String.eqb ds "xpu" then f "xpu" else f "cpu")
  = f (autocast_else ds).
Proof. unfold autocast_else. by repeat destruct (String.eqb _ _). Qed.

Lemma if_autocast_profile {A} ds (f : string → A) :
  (if String.eqb ds "cuda" then f "cuda" else f "cpu") = f (autocast_profile ds).
Proof. unfold autocast_profile. by destruct (String.eqb _ _). Qed.

Lemma if_sync_else ds w :
  (if String.eqb ds "cuda" then trace (ESynchronize "cuda")
   else if String.eqb ds "xpu" then trace (ESynchronize "xpu") else ret tt) w
  = (add_events (sync_else ds) w, Ok tt).
Proof.
  unfold sync_else. repeat destruct (String.eqb _ _); try reflexivity.
  by rewrite add_events_nil.
Qed.

Lemma if_sync_profile ds w :
  (if String.eqb ds "cuda" then trace (ESynchronize "cuda") else ret tt) w
  = (add_events (sync_profile ds) w, Ok tt).
Proof.
  unfold sync_profile. destruct (String.eqb _ _); try reflexivity.
  by rewrite add_events_nil.
Qed.

Ltac wsimpl :=
  unfold add_events;
  cbn [w_self w_ticks w_trace w_files fst snd
       self_config self_num_iterations self_device self_model self_optimizer
       self_loss_criterion self_max_num_iterations self_num_epochs self_max_num_epochs
       set_model_optimizer set_num_iterations].

Ltac mstep :=
  first
    [ rewrite bind_bind
    | erewrite bind_ok by
        (first [ apply time_run | apply trace_run | apply self_run | apply set_self_run
               | apply profiled_forward_run | apply forward_run | apply update_run | apply count_run | apply break_run
               | apply if_sync_else | apply if_sync_profile ])
    ]; wsimpl.

Ltac split_step Hs :=
  first
    [ erewrite bind_ok by (rewrite split_run; wsimpl; rewrite Hs; reflexivity)
    | erewrite bind_raise by (rewrite split_run; wsimpl; rewrite Hs; reflexivity) ];
  wsimpl.

Ltac conv_step Hc :=
  first
    [ erewrite bind_ok by (rewrite conv_run; wsimpl; rewrite Hc; reflexivity)
    | erewrite bind_raise by (rewrite conv_run; wsimpl; rewrite Hc; reflexivity) ];
  wsimpl.

(** Each loop body is its closed form. *)
Lemma body_spec p profile_len last dt t totals w :
  body p profile_len last dt t totals w = iteration_spec p last dt t totals w.
Proof.
  destruct w as [s k tr fs]. unfold iteration_spec. wsimpl.
  destruct (split_outcome (self_device s) t) as [[[x y] wt]|e] eqn:Hs.
  - destruct p; unfold body.
    + unfold iteration_xpu_profile, log_iteration.
      do 4 mstep. split_step Hs.
      repeat mstep.
      erewrite bind_raise by apply load_global_args.
      unfold xpu_profile_events, head_events, update_events, stepped,
        counted_events, is_counted.
      wsimpl. rewrite <- !app_assoc. reflexivity.
    + destruct (conv_outcome (self_config s) x) as [cev [x'|e]] eqn:Hc.
      * unfold iteration_profile, log_iteration.
        do 4 mstep. split_step Hs. mstep.
        assert (Hc' : (conv_outcome (self_config s) x).2 = Ok x') by (by rewrite Hc).
        conv_step Hc'. do 2 mstep.
        rewrite (if_autocast_profile _ (λ ac, autocast_forward_pass ac dt x' y wt)).
        repeat mstep.
        unfold ret, loop_events, head_events, update_events, stepped, autocast_of, sync_of,
          counted_events, counted_totals, is_counted, is_last.
        rewrite Hc. wsimpl. rewrite <- !app_assoc. reflexivity.
      * unfold iteration_profile, log_iteration.
        do 4 mstep. split_step Hs. mstep.
        assert (Hc' : (conv_outcome (self_config s) x).2 = Raise e) by (by rewrite Hc).
        conv_step Hc'.
        unfold head_events. rewrite Hc. wsimpl. rewrite <- !app_assoc. reflexivity.
    + destruct (conv_outcome (self_config s) x) as [cev [x'|e]] eqn:Hc.
      * unfold iteration_else, log_iteration.
        do 4 mstep. split_step Hs. mstep.
        assert (Hc' : (conv_outcome (self_config s) x).2 = Ok x') by (by rewrite Hc).
        conv_step Hc'. do 2 mstep.
        rewrite (if_autocast_else _ (λ ac, autocast_forward_pass ac dt x' y wt)).
        repeat mstep.
        unfold ret, loop_events, head_events, update_events, stepped, autocast_of, sync_of,
          counted_events, counted_totals, is_counted, is_last.
        rewrite Hc. wsimpl. rewrite <- !app_assoc. reflexivity.
      * unfold iteration_else, log_iteration.
        do 4 mstep. split_step Hs. mstep.
        assert (Hc' : (conv_outcome (self_config s) x).2 = Raise e) by (by rewrite Hc).
        conv_step Hc'.
        unfold head_events. rewrite Hc. wsimpl. rewrite <- !app_assoc. reflexivity.
  - destruct p; unfold body;
      [ unfold iteration_xpu_profile | unfold iteration_profile | unfold iteration_else ];
      unfold log_iteration; do 4 mstep; split_step Hs;
      unfold head_events; rewrite <- !app_assoc; reflexivity.
Qed.

End TrainerProofs.

Section LoopProofs.

Context `{Framework}.

Lemma for_each_batch_ext f g bs totals w :
  (∀ t tot w', f t tot w' = g t tot w') →
  for_each_batch f bs totals w = for_each_batch g bs totals w.
Proof.
  intros Hfg. revert totals w. induction bs as [|t bs IH]; intros totals w; [ done | ].
  simpl. unfold bind. rewrite Hfg.
  destruct (g t totals w) as [w' [[tot brk]|e]]; [ | done ].
  simpl. destruct brk; [ done | apply IH ].
Qed.

Lemma with_context_run {A} enter leave (c : M world A) w :
  with_context enter leave c w
  = (add_events [leave] (c (add_events [enter] w)).1, (c (add_events [enter] w)).2).
Proof.
  unfold with_context. rewrite bind_ok with (s' := add_events [enter] w) (a := tt)
    by reflexivity.
  by destruct (c (add_events [enter] w)).
Qed.

Lemma profiler_schedule_run {A} wait (c : M world A) w :
  (profiler_schedule wait ;;; c)%py w
  = if wait <? 0
    then (w, Raise (Exn AssertionError "Invalid profiler schedule arguments"))
    else c w.
Proof. unfold profiler_schedule. by destruct (wait <? 0). Qed.

(** The schedule of the profiler is accepted exactly when [num_iter] is not
    negative. *)
Lemma profile_len_nonneg s :
  0 ≤ cfg_num_iter (self_config s) → (profile_len_of s <? 0) = false.
Proof.
  intros Hn. apply Z.ltb_ge. unfold profile_len_of. apply Z.div_pos; lia.
Qed.

Lemma profile_len_neg s :
  cfg_num_iter (self_config s) < 0 → (profile_len_of s <? 0) = true.
Proof.
  intros Hn. apply Z.ltb_lt. unfold profile_len_of.
  apply Z.div_lt_upper_bound; lia.
Qed.

Lemma bind_congr {S A B} (c c' : M S A) (k : A → M S B) s :
  c s = c' s → bind c k s = bind c' k s.
Proof. unfold bind. by intros ->. Qed.

(** [train] is: enter training mode, run the loop of the path that the
    configuration selects, report. *)
Lemma train_eq w :
  train w
  = (trace EModelTrain ;;;
     totals <- run_loop (path_of (self_config (w_self w))) (w_self w) ;;
     report (self_config (w_self w)) totals)%py w.
Proof.
  unfold train. rewrite !(bind_ok (trace EModelTrain) _ w (add_events [EModelTrain] w) tt)
    by reflexivity.
  rewrite bind_ok with (s' := add_events [EModelTrain] w) (a := w_self w) by reflexivity.
  cbv zeta. apply bind_congr.
  unfold path_of, run_loop, last_iter_of, datatype_of_config, profile_len_of.
  destruct (cfg_profile (self_config (w_self w))); simpl;
    destruct (String.eqb (cfg_device_str (self_config (w_self w))) "xpu") eqn:Hx; simpl.
  - apply for_each_batch_ext. intros. apply (body_spec XpuProfile).
  - rewrite !profiler_schedule_run. destruct (_ <? 0); [ done | ].
    rewrite !with_context_run.
    by rewrite (for_each_batch_ext (iteration_profile _ _)
                  (iteration_spec Profile _ _) _ _ _ (body_spec Profile 0 _ _)).
  - apply for_each_batch_ext. intros. apply (body_spec Else 0).
  - apply for_each_batch_ext. intros. apply (body_spec Else 0).
Qed.


(** A property of the new events that holds of every pass through the loop
    body holds of the loop. *)
Lemma loop_invariant (P : list event → Prop) (Inv : trainer → Prop) p last dt :
  P [] →
  (∀ a b, P a → P b → P (a ++ b)) →
  (∀ t totals w, Inv (w_self w) →
     Inv (w_self (iteration_spec p last dt t totals w).1) ∧
     ∃ evs, w_trace (iteration_spec p last dt t totals w).1 = w_trace w ++ evs ∧ P evs) →
  ∀ bs totals w, Inv (w_self w) →
     Inv (w_self (for_each_batch (iteration_spec p last dt) bs totals w).1) ∧
     ∃ evs, w_trace (for_each_batch (iteration_spec p last dt) bs totals w).1
            = w_trace w ++ evs ∧ P evs.
Proof.
  intros Hnil Happ Hbody bs. induction bs as [|t bs IH]; intros totals w Hinv.
  - simpl. split; [ done | ]. exists []. by rewrite app_nil_r.
  - simpl. unfold bind.
    destruct (Hbody t totals w Hinv) as (Hinv1 & evs1 & Htr1 & HP1).
    destruct (iteration_spec p last dt t totals w) as [w1 [[tot brk]|e]]; simpl in *.
    + destruct brk; simpl; [ eauto | ].
      destruct (IH tot w1 Hinv1) as (Hinv2 & evs2 & Htr2 & HP2).
      split; [ done | ]. exists (evs1 ++ evs2).
      rewrite Htr2, Htr1, app_assoc. eauto.
    + eauto.
Qed.

Lemma self_config_advanced s : self_config (advanced s) = self_config s.
Proof. unfold advanced. by destruct (is_last s). Qed.

Lemma self_num_epochs_advanced s : self_num_epochs (advanced s) = self_num_epochs s.
Proof. unfold advanced. by destruct (is_last s). Qed.

(** What a pass through a loop body leaves of [self] alone. *)
Lemma iteration_spec_self p last dt t totals w :
  let s' := w_self (iteration_spec p last dt t totals w).1 in
  self_config s' = self_config (w_self w)
  ∧ self_num_epochs s' = self_num_epochs (w_self w)
  ∧ self_device s' = self_device (w_self w)
  ∧ self_train_loader s' = self_train_loader (w_self w).
Proof.
  unfold iteration_spec.
  destruct (split_outcome _ t) as [[[x y] wt]|e]; [ | done ].
  destruct p; [ done | | ];
    (destruct (conv_outcome _ x) as [cev [x'|e]]; simpl; [ | done ];
     unfold advanced; by destruct (is_last _)).
Qed.

Lemma iteration_spec_files_ticks p last dt t totals w :
  w_files (iteration_spec p last dt t totals w).1 = w_files w.
Proof.
  unfold iteration_spec.
  destruct (split_outcome _ t) as [[[x y] wt]|e]; [ | done ].
  destruct p; [ done | | ]; by destruct (conv_outcome _ x) as [cev [x'|e]].
Qed.

Lemma iteration_spec_trace p last dt t totals w :
  ∃ evs, w_trace (iteration_spec p last dt t totals w).1 = w_trace w ++ evs.
Proof.
  unfold iteration_spec.
  destruct (split_outcome _ t) as [[[x y] wt]|e]; [ | by eexists ].
  destruct p; [ by eexists | | ];
    by (destruct (conv_outcome _ x) as [cev [x'|e]]; eexists).
Qed.

(** *** Synchronisation before the clock is read *)

Lemma timed_app dev a b :
  timed_blocks dev a → timed_blocks dev b → timed_blocks dev (a ++ b).
Proof.
  induction 1; simpl; intros Hb; [ done | apply timed_plain | apply timed_block ]; auto.
Qed.

Lemma timed_of_plain dev evs : forallb plain evs = true → timed_blocks dev evs.
Proof.
  induction evs as [|e evs IH]; simpl; [ constructor | ].
  intros [He Hevs]%andb_true_iff. constructor; auto.
Qed.

(** In a trace made of such blocks, what precedes a final reading of the
    clock is a synchronisation of the device, after the copies to the host
    that follow the optimizer step; and what follows an optimizer step is
    the copies, the synchronisation and the reading. *)
Lemma timed_blocks_before dev evs :
  timed_blocks dev evs →
  ∀ pre t post, evs = pre ++ ETime EndTime t :: post →
  ∃ pre' o l, pre = pre' ++ [EOptimizerStep; EToCpu o; EToCpu l; ESynchronize dev].
Proof.
  induction 1 as [|e evs He Hevs IH|o l t0 evs Hevs IH]; intros pre t post Heq.
  - by destruct pre.
  - destruct pre as [|e' pre]; simpl in Heq.
    + injection Heq as -> _. discriminate He.
    + injection Heq as -> Heq. destruct (IH _ _ _ Heq) as (pre' & o & l & ->).
      by exists (e' :: pre'), o, l.
  - destruct pre as [|e1 [|e2 [|e3 [|e4 [|e5 pre]]]]]; simplify_eq/=.
    + by exists [], o, l.
    + destruct (IH _ _ _ eq_refl) as (pre' & o' & l' & ->).
      by exists (EOptimizerStep :: EToCpu o :: EToCpu l :: ESynchronize dev
                   :: ETime EndTime t0 :: pre'), o', l'.
Qed.

Lemma timed_blocks_after dev evs :
  timed_blocks dev evs →
  ∀ pre post, evs = pre ++ EOptimizerStep :: post →
  ∃ o l t post', post = [EToCpu o; EToCpu l; ESynchronize dev; ETime EndTime t] ++ post'.
Proof.
  induction 1 as [|e evs He Hevs IH|o l t0 evs Hevs IH]; intros pre post Heq.
  - by destruct pre.
  - destruct pre as [|e' pre]; simpl in Heq.
    + injection Heq as -> _. discriminate He.
    + injection Heq as -> Heq. eauto.
  - destruct pre as [|e1 [|e2 [|e3 [|e4 [|e5 pre]]]]]; simplify_eq/=.
    + by exists o, l, t0, evs.
    + eauto.
Qed.

Lemma conv_events_plain cfg x : forallb plain (conv_outcome cfg x).1 = true.
Proof.
  unfold conv_outcome. destruct (_ && _); [ | done ].
  destruct (tensor_to_channels_last_3d x) as [x'|e]; [ done | ].
  by destruct (is_RuntimeError e).
Qed.

Lemma counted_events_plain s last : forallb plain (counted_events s last) = true.
Proof. unfold counted_events. by destruct (is_counted s last). Qed.

Lemma sync_of_path cfg :
  cfg_device_str cfg = "cuda" ∨ cfg_device_str cfg = "xpu" →
  sync_of (path_of cfg) (cfg_device_str cfg) = [ESynchronize (cfg_device_str cfg)].
Proof.
  unfold path_of, sync_of, sync_profile, sync_else.
  intros [-> | ->]; by destruct (cfg_profile cfg).
Qed.

Lemma iteration_timed_blocks p last dt t totals w :
  sync_of p (cfg_device_str (self_config (w_self w)))
  = [ESynchronize (cfg_device_str (self_config (w_self w)))] →
  ∃ evs,
    w_trace (iteration_spec p last dt t totals w).1 = w_trace w ++ evs
    ∧ timed_blocks (cfg_device_str (self_config (w_self w))) evs.
Proof.
  intros Hsync. unfold iteration_spec.
  destruct (split_outcome _ t) as [[[x y] wt]|e];
    [ | eexists; split; [ reflexivity | by apply timed_of_plain ] ].
  assert (Hloop : ∀ p', sync_of p' (cfg_device_str (self_config (w_self w)))
                        = [ESynchronize (cfg_device_str (self_config (w_self w)))] →
            ∀ cev x', forallb plain cev = true →
            timed_blocks (cfg_device_str (self_config (w_self w)))
              (loop_events p' (w_self w) (w_ticks w) last dt t cev x' y wt)).
  { intros p' Hs cev x' Hcev. unfold loop_events. rewrite Hs.
    apply timed_app; [ by apply timed_of_plain | ].
    apply timed_app; [ by apply timed_of_plain | ].
    apply timed_app; [ by apply timed_of_plain | ].
    apply timed_app; [ by apply timed_of_plain | ].
    apply timed_app; [ by apply timed_of_plain | ].
    unfold update_events. simpl. do 3 (apply timed_plain; [ done | ]).
    apply timed_block. apply timed_of_plain.
    rewrite forallb_app. apply andb_true_iff. split; [ by destruct p' | ].
    simpl. apply counted_events_plain. }
  destruct p.
  - simpl in Hsync. injection Hsync as Hds.
    eexists. split; [ reflexivity | ].
    unfold xpu_profile_events, update_events. rewrite <- Hds.
    apply timed_app; [ by apply timed_of_plain | ].
    simpl. do 9 (apply timed_plain; [ done | ]).
    apply timed_block. apply timed_plain; [ done | ].
    apply timed_of_plain, counted_events_plain.
  - pose proof (conv_events_plain (self_config (w_self w)) x) as Hcev.
    destruct (conv_outcome _ x) as [cev [x'|e]]; simpl in *.
    + eexists. split; [ reflexivity | by apply Hloop ].
    + eexists. split; [ reflexivity | ].
      apply timed_of_plain. unfold head_events. simpl. exact Hcev.
  - pose proof (conv_events_plain (self_config (w_self w)) x) as Hcev.
    destruct (conv_outcome _ x) as [cev [x'|e]]; simpl in *.
    + eexists. split; [ reflexivity | by apply Hloop ].
    + eexists. split; [ reflexivity | ].
      apply timed_of_plain. unfold head_events. simpl. exact Hcev.
Qed.


(** *** The whole of [train] *)

(** The report in closed form: three divisions, then three lines. *)
Lemma report_cases cfg T C w :
  report cfg (T, C) w
  = if Qeq_bool (inject_Z C) 0
    then (w, Raise (Exn ZeroDivisionError "division by zero"))
    else if Qeq_bool (inject_Z (cfg_batch_size cfg)) 0
    then (w, Raise (Exn ZeroDivisionError "division by zero"))
    else if Qeq_bool (T / inject_Z C) 0
    then (w, Raise (Exn ZeroDivisionError "division by zero"))
    else (add_events
            [EPrintTotals T C;
             EPrintLatency (T / inject_Z C / inject_Z (cfg_batch_size cfg) * 1000)%Q;
             EPrintThroughput (inject_Z (cfg_batch_size cfg) / (T / inject_Z C))%Q] w,
          Ok true).
Proof.
  unfold report, bind, truediv.
  destruct (Qeq_bool (inject_Z C) 0); [ done | ]. simpl.
  destruct (Qeq_bool (inject_Z (cfg_batch_size cfg)) 0); [ done | ]. simpl.
  destruct (Qeq_bool (T / inject_Z C) 0); [ done | ]. simpl.
  unfold add_events. simpl. by rewrite <- !app_assoc.
Qed.

(** The report leaves [self] alone, adds no step and no reading of the
    clock to the trace, and returns [True] when it returns. *)
Lemma report_run cfg totals w :
  w_self (report cfg totals w).1 = w_self w
  ∧ w_ticks (report cfg totals w).1 = w_ticks w
  ∧ w_files (report cfg totals w).1 = w_files w
  ∧ (∃ evs, w_trace (report cfg totals w).1 = w_trace w ++ evs
            ∧ forallb plain evs = true)
  ∧ (∀ b, (report cfg totals w).2 = Ok b → b = true).
Proof.
  destruct totals as [T C]. rewrite report_cases.
  repeat destruct (Qeq_bool _ _);
    (repeat split;
     [ first [ by (exists []; rewrite app_nil_r) | by eexists ]
     | by intros b [= <-] || done ]).
Qed.

Lemma train_cases w :
  let s := w_self w in
  let r := run_loop (path_of (self_config s)) s (add_events [EModelTrain] w) in
  train w = match r.2 with
            | Ok totals => report (self_config s) totals r.1
            | Raise e => (r.1, Raise e)
            end.
Proof.
  intros s r. rewrite train_eq.
  rewrite bind_ok with (s' := add_events [EModelTrain] w) (a := tt) by reflexivity.
  unfold bind. subst r s. by destruct (run_loop _ _ _) as [w1 [totals|e]].
Qed.

(** An invariant of [self] and a property of traces that every pass
    through the loop body maintains, and that the events around the loop
    have, hold of [train]. *)
Lemma train_invariant (P : list event → Prop) (Inv : trainer → Prop) w :
  P [] →
  (∀ a b, P a → P b → P (a ++ b)) →
  (∀ e, plain e = true → P [e]) →
  (∀ t totals w',
     Inv (w_self w') →
     let r := iteration_spec (path_of (self_config (w_self w)))
                (last_iter_of (w_self w)) (datatype_of_config (w_self w)) t totals w' in
     Inv (w_self r.1) ∧ ∃ evs, w_trace r.1 = w_trace w' ++ evs ∧ P evs) →
  Inv (w_self w) →
  Inv (w_self (train w).1) ∧ ∃ evs, w_trace (train w).1 = w_trace w ++ evs ∧ P evs.
Proof.
  intros Hnil Happ Hplain Hbody Hinv.
  assert (Hplains : ∀ evs, forallb plain evs = true → P evs).
  { induction evs as [|e evs IH]; simpl; [ done | ].
    intros [He Hevs]%andb_true_iff. apply (Happ [e]); auto. }
  assert (Hloop : ∀ w0, Inv (w_self w0) →
            let r := run_loop (path_of (self_config (w_self w))) (w_self w) w0 in
            Inv (w_self r.1) ∧ ∃ evs, w_trace r.1 = w_trace w0 ++ evs ∧ P evs).
  { intros w0 Hinv0.
    pose proof (loop_invariant P Inv (path_of (self_config (w_self w)))
                  (last_iter_of (w_self w)) (datatype_of_config (w_self w))
                  Hnil Happ Hbody (self_train_loader (w_self w)) (0%Q, 0)) as Hl.
    unfold run_loop. destruct (path_of (self_config (w_self w))); try by apply Hl.
    rewrite profiler_schedule_run. destruct (_ <? 0).
    { split; [ done | ]. exists []. by rewrite app_nil_r. }
    rewrite with_context_run. cbn [fst snd].
    destruct (Hl (add_events [EProfilerEnter
                (if String.eqb (cfg_device_str (self_config (w_self w))) "cuda"
                 then ["CPU"; "CUDA"] else ["CPU"]) (profile_len_of (w_self w))] w0))
      as (Hinv1 & evs & Htr & HP); [ done | ].
    split; [ done | ].
    eexists. unfold add_events at 1. cbn [w_trace]. rewrite Htr.
    unfold add_events. cbn [w_trace]. rewrite <- !app_assoc.
    split; [ reflexivity | ].
    apply Happ; [ by apply Hplain | ]. apply Happ; [ done | by apply Hplain ]. }
  rewrite train_cases. cbv zeta.
  destruct (Hloop (add_events [EModelTrain] w) Hinv) as (Hinv1 & evs & Htr & HP).
  destruct (run_loop _ _ _) as [w1 [totals|e]]; cbn [fst snd] in *.
  - destruct (report_run (self_config (w_self w)) totals w1)
      as (Hself & _ & _ & (evs' & Htr' & Hevs') & _).
    rewrite Hself. split; [ done | ].
    eexists. rewrite Htr', Htr. unfold add_events. cbn [w_trace].
    rewrite <- !app_assoc. split; [ reflexivity | ].
    apply Happ; [ by apply Hplain | ]. apply Happ; [ done | by apply Hplains ].
  - split; [ done | ].
    eexists. rewrite Htr. unfold add_events. cbn [w_trace].
    rewrite <- !app_assoc. split; [ reflexivity | ].
    apply Happ; [ by apply Hplain | done ].
Qed.

End LoopProofs.

(** C7: on every code path of [train], when the configured device is
    ['cuda'] or ['xpu'], the trace of a run consists of blocks "optimizer
    step, copy of the output and of the loss to the host, synchronize of the
    configured device, final reading of the clock" among events that are
    neither a step nor such a reading.  So each reading of the clock from
    which a duration is computed comes directly after the synchronisation,
    which comes after the optimizer step of that iteration, and each
    optimizer step is followed by the synchronisation and the reading. *)
Theorem synchronize_before_duration `{Framework} (w : world) :
  cfg_device_str (self_config (w_self w)) = "cuda"
  ∨ cfg_device_str (self_config (w_self w)) = "xpu" →
  let dev := cfg_device_str (self_config (w_self w)) in
  ∃ evs,
    w_trace (train w).1 = w_trace w ++ evs
    ∧ timed_blocks dev evs
    ∧ (∀ pre t post, evs = pre ++ ETime EndTime t :: post →
         ∃ pre' o l,
           pre = pre' ++ [EOptimizerStep; EToCpu o; EToCpu l; ESynchronize dev])
    ∧ (∀ pre post, evs = pre ++ EOptimizerStep :: post →
         ∃ o l t post',
           post = [EToCpu o; EToCpu l; ESynchronize dev; ETime EndTime t] ++ post').
Proof.
  intros Hdev dev.
  destruct (train_invariant (timed_blocks dev)
              (λ s', self_config s' = self_config (w_self w)) w)
    as (_ & evs & Htr & Hevs).
  - constructor.
  - apply timed_app.
  - intros e He. by apply timed_plain; [ | constructor ].
  - intros t totals w' Hinv r. subst r. split.
    + destruct (iteration_spec_self (path_of (self_config (w_self w)))
                  (last_iter_of (w_self w)) (datatype_of_config (w_self w)) t totals w')
        as (-> & _). exact Hinv.
    + subst dev. rewrite <- Hinv. apply iteration_timed_blocks.
      rewrite Hinv. apply sync_of_path. exact Hdev.
  - reflexivity.
  - exists evs. split; [ done | ]. split; [ done | ].
    split; [ by apply timed_blocks_before | by apply timed_blocks_after ].
Qed.

Lemma synchronize_before_duration_witness :
  ∃ evs,
    w_trace (train (toy_world false (toy_config false "cuda" 1))).1 = [] ++ evs
    ∧ timed_blocks "cuda" evs
    ∧ (∀ pre t post, evs = pre ++ ETime EndTime t :: post →
         ∃ pre' o l,
           pre = pre' ++ [EOptimizerStep; EToCpu o; EToCpu l; ESynchronize "cuda"])
    ∧ (∀ pre post, evs = pre ++ EOptimizerStep :: post →
         ∃ o l t post',
           post = [EToCpu o; EToCpu l; ESynchronize "cuda"; ETime EndTime t] ++ post').
Proof.
  apply (@synchronize_before_duration (toy_framework false)
           (toy_world false (toy_config false "cuda" 1))).
  left. reflexivity.
Defined.

(** C9: [train] returns [True] whenever it returns; so [fit], on a trainer
    with [num_epochs < max_num_epochs], is one call of [train] followed by
    the log line and [return]: it returns when that call returns (and
    raises what the call raises), with [num_epochs] as it was, whatever
    [max_num_epochs] is. *)
Theorem train_returns_True_fit_one_epoch `{Framework} (w : world) :
  self_num_epochs (w_self w) < self_max_num_epochs (w_self w) →
  (∀ w' b, train w = (w', Ok b) → b = true)
  ∧ fit w
    = (match (train w).2 with
       | Ok _ =>
           add_events [ELogInfo "Stopping criterion is satisfied. Finishing training"]
             (train w).1
       | Raise _ => (train w).1
       end,
       match (train w).2 with
       | Ok _ => Ok tt
       | Raise e => Raise e
       end)
  ∧ self_num_epochs (w_self (fit w).1) = self_num_epochs (w_self w).
Proof.
  intros Hlt.
  assert (Htrue : ∀ w' b, train w = (w', Ok b) → b = true).
  { intros w' b. rewrite train_cases. cbv zeta.
    destruct (run_loop _ _ _) as [w1 [totals|e]]; cbn [fst snd]; [ | discriminate ].
    intros Hrep.
    destruct (report_run (self_config (w_self w)) totals w1) as (_ & _ & _ & _ & Hb).
    apply Hb. by rewrite Hrep. }
  assert (Hfit : fit w
    = (match (train w).2 with
       | Ok _ =>
           add_events [ELogInfo "Stopping criterion is satisfied. Finishing training"]
             (train w).1
       | Raise _ => (train w).1
       end,
       match (train w).2 with
       | Ok _ => Ok tt
       | Raise e => Raise e
       end)).
  { unfold fit. rewrite bind_ok with (s' := w) (a := w_self w) by reflexivity.
    destruct (Z.to_nat (self_max_num_epochs (w_self w) - self_num_epochs (w_self w)))
      as [|n] eqn:Hn; [ lia | ].
    simpl. rewrite bind_bind. unfold bind at 1.
    destruct (train w) as [w' [b|e]] eqn:Htrain; cbn [fst snd]; [ | done ].
    rewrite (Htrue w' b eq_refl). reflexivity. }
  split; [ exact Htrue | ]. split; [ exact Hfit | ].
  rewrite Hfit. cbn [fst].
  destruct (train_invariant (λ _, True)
              (λ s', self_num_epochs s' = self_num_epochs (w_self w)) w)
    as (Hne & _); try done.
  { intros t totals w' Hinv r. subst r. split.
    - destruct (iteration_spec_self (path_of (self_config (w_self w)))
                  (last_iter_of (w_self w)) (datatype_of_config (w_self w)) t totals w')
        as (_ & -> & _). exact Hinv.
    - destruct (iteration_spec_trace (path_of (self_config (w_self w)))
                  (last_iter_of (w_self w)) (datatype_of_config (w_self w)) t totals w')
        as [evs Hevs]. eauto. }
  by destruct ((train w).2).
Qed.

Lemma train_returns_True_fit_one_epoch_witness :
  train (toy_world false (toy_config false "cpu" 1))
  = ((train (toy_world false (toy_config false "cpu" 1))).1, Ok true)
  ∧ (fit (toy_world false (toy_config false "cpu" 1))).2 = Ok tt
  ∧ self_num_epochs (w_self (fit (toy_world false (toy_config false "cpu" 1))).1) = 0.
Proof.
  destruct (@train_returns_True_fit_one_epoch (toy_framework false)
              (toy_world false (toy_config false "cpu" 1)))
    as (Htrue & Hfit & Hepochs).
  - simpl. lia.
  - split; [ | split ].
    + vm_compute. reflexivity.
    + rewrite Hfit. vm_compute. reflexivity.
    + exact Hepochs.
Defined.

(** ** Checkpoints *)

Lemma prefix_app (a b : string) : String.prefix a (a +:+ b) = true.
Proof.
  induction a as [|c a IH]; simpl; [ by destruct b | ].
  destruct (Ascii.ascii_dec c c); [ done | congruence ].
Qed.

Lemma prefix_os_path_join (d : string) :
  String.prefix d (os_path_join d "last_checkpoint.pytorch") = true.
Proof.
  unfold os_path_join. simpl.
  destruct (String.eqb d "") eqn:Hd.
  - apply String.eqb_eq in Hd. by subst d.
  - destruct (String.eqb _ "/"); apply prefix_app.
Qed.

Lemma save_checkpoint_run `{Framework} (best_name : string) (is_best : bool) (w : world) :
  let s := w_self w in
  let last_path := os_path_join (self_checkpoint_dir s) "last_checkpoint.pytorch" in
  _save_checkpoint best_name is_best w
  = (World s (w_ticks w)
       (w_trace w ++ [ELogInfo ("Saving checkpoint to '" +:+ last_path +:+ "'")])
       (if is_best
        then <[os_path_join (self_checkpoint_dir s) best_name := checkpoint_of s]>
               (<[last_path := checkpoint_of s]> (w_files w))
        else <[last_path := checkpoint_of s]> (w_files w)),
     Ok tt).
Proof. destruct w, is_best; reflexivity. Qed.

(** C6: [_save_checkpoint] returns, leaves the trainer as it is, and writes
    one record: a dictionary with exactly the keys [num_epochs] (the
    trainer's [num_epochs] plus one), [num_iterations], [model_state_dict]
    (of the inner module when the model is a [DataParallel], of the model
    itself otherwise), [best_eval_score] and [optimizer_state_dict].  The
    record is in the file [last_checkpoint.pytorch] of [checkpoint_dir]
    afterwards, also in the best-score file when [is_best] holds, and no
    other file changes. *)
Theorem save_checkpoint_record `{Framework} (best_name : string) (is_best : bool)
    (w : world) :
  let s := w_self w in
  let last_path := os_path_join (self_checkpoint_dir s) "last_checkpoint.pytorch" in
  let best_path := os_path_join (self_checkpoint_dir s) best_name in
  let r := _save_checkpoint best_name is_best w in
  r.2 = Ok tt
  ∧ w_self r.1 = s
  ∧ w_files r.1 !! last_path = Some (checkpoint_of s)
  ∧ (is_best = true → w_files r.1 !! best_path = Some (checkpoint_of s))
  ∧ (∀ f, f ≠ last_path → (is_best = true → f ≠ best_path) →
          w_files r.1 !! f = w_files w !! f)
  ∧ map fst (checkpoint_of s)
    = ["num_epochs"; "num_iterations"; "model_state_dict"; "best_eval_score";
       "optimizer_state_dict"]
  ∧ checkpoint_of s
    = [ ("num_epochs", CInt (self_num_epochs s + 1));
        ("num_iterations", CInt (self_num_iterations s));
        ("model_state_dict",
         CStateDict (if isinstance_DataParallel (self_model s)
                     then state_dict (inner_module (self_model s))
                     else state_dict (self_model s)));
        ("best_eval_score", CFloat (self_best_eval_score s));
        ("optimizer_state_dict",
         CStateDict (optimizer_state_dict (self_optimizer s))) ]
  ∧ String.prefix (self_checkpoint_dir s) last_path = true.
Proof.
  intros s last_path best_path r. subst r.
  rewrite save_checkpoint_run. fold s. fold last_path. fold best_path.
  destruct is_best; cbn [fst snd w_self w_files]; split_and!;
    try done; try apply prefix_os_path_join.
  - destruct (decide (best_path = last_path)) as [Heq | Hne].
    + rewrite Heq. by rewrite lookup_insert_eq.
    + by rewrite lookup_insert_ne, lookup_insert_eq.
  - intros _. by rewrite lookup_insert_eq.
  - intros f Hf Hb. specialize (Hb eq_refl). by rewrite !lookup_insert_ne.
  - by rewrite lookup_insert_eq.
  - intros f Hf _. by rewrite lookup_insert_ne.
Qed.

(** ** The best evaluation score *)

Lemma float_lt_le a b : float_lt a b = true → float_le a b = true.
Proof.
  destruct a as [| |x|], b as [| |y|]; simpl; try done.
  intros Hlt%negb_true_iff. apply Qle_bool_iff.
  destruct (Qlt_le_dec x y) as [Hxy | Hyx]; [ by apply Qlt_le_weak | ].
  apply Qle_bool_iff in Hyx. congruence.
Qed.

Lemma float_not_lt_le a b :
  is_nan a = false → is_nan b = false → float_lt a b = false → float_le b a = true.
Proof.
  destruct a as [| |x|], b as [| |y|]; simpl; try done.
  intros _ _ Hlt%negb_false_iff. exact Hlt.
Qed.

Lemma float_le_refl a : is_nan a = false → float_le a a = true.
Proof. destruct a as [| |x|]; simpl; try done. intros _. apply Qle_bool_iff, Qle_refl. Qed.

Lemma float_lt_trans a b c :
  float_lt a b = true → float_lt b c = true → float_lt a c = true.
Proof.
  destruct a as [| |x|], b as [| |y|], c as [| |z|]; simpl; try done.
  intros Hxy%negb_true_iff Hyz%negb_true_iff. apply negb_true_iff.
  destruct (Qle_bool z x) eqn:Hzx; [ | done ].
  apply Qle_bool_iff in Hzx.
  assert (Hxy' : (x < y)%Q).
  { apply Qnot_le_lt. intros Hle%Qle_bool_iff. congruence. }
  assert (Hyz' : (y < z)%Q).
  { apply Qnot_le_lt. intros Hle%Qle_bool_iff. congruence. }
  exfalso. apply (Qlt_irrefl x).
  eapply Qlt_le_trans; [ | exact Hzx ]. by eapply Qlt_trans.
Qed.

Lemma better_trans hib a b c :
  better hib a b = true → better hib b c = true → better hib a c = true.
Proof.
  unfold better, float_gt. destruct hib; intros Hab Hbc.
  - by apply float_lt_trans with b.
  - by apply float_lt_trans with b.
Qed.

Lemma no_worse_trans hib a b c :
  no_worse hib a b → no_worse hib b c → no_worse hib a c.
Proof.
  unfold no_worse. intros [-> | Hab] [-> | Hbc]; eauto using better_trans.
Qed.

Section ScoreProofs.

Context `{Framework}.

Lemma is_best_run x w :
  let s := w_self w in
  let b := better (self_eval_score_higher_is_better s) x (self_best_eval_score s) in
  _is_best_eval_score x w
  = (if b
     then World (set_best_eval_score x s) (w_ticks w)
            (w_trace w ++ [ELogInfo "Saving new best evaluation metric"]) (w_files w)
     else w,
     Ok b).
Proof.
  destruct w as [s k tr fs].
  unfold _is_best_eval_score, self, trace, set_self.
  unfold better, bind, get, ret, modify. simpl.
  destruct (self_eval_score_higher_is_better s);
    [ destruct (float_gt _ _) | destruct (float_lt _ _) ]; reflexivity.
Qed.

Lemma is_best_no_worse x w :
  let s := w_self w in
  let s' := w_self (_is_best_eval_score x w).1 in
  self_eval_score_higher_is_better s' = self_eval_score_higher_is_better s
  ∧ no_worse (self_eval_score_higher_is_better s)
      (self_best_eval_score s') (self_best_eval_score s).
Proof.
  cbv zeta. rewrite is_best_run. cbv zeta.
  destruct (better _ x _) eqn:Hb; cbn [fst w_self]; [ | by split; [ | left ] ].
  split; [ done | by right ].
Qed.

Lemma is_best_scores_no_worse xs w :
  let s := w_self w in
  let s' := w_self (is_best_eval_scores xs w).1 in
  self_eval_score_higher_is_better s' = self_eval_score_higher_is_better s
  ∧ no_worse (self_eval_score_higher_is_better s)
      (self_best_eval_score s') (self_best_eval_score s).
Proof.
  revert w. induction xs as [|x xs IH]; intros w; cbv zeta.
  - simpl. split; [ done | by left ].
  - destruct (is_best_no_worse x w) as [Hh Hn].
    destruct (IH (_is_best_eval_score x w).1) as [Hh' Hn'].
    assert (Hw : (is_best_eval_scores (x :: xs) w).1
                 = (is_best_eval_scores xs (_is_best_eval_score x w).1).1).
    { simpl. erewrite bind_ok by apply is_best_run.
      rewrite is_best_run. cbv zeta. cbn [fst]. unfold bind, ret.
      match goal with
      | |- context [is_best_eval_scores xs ?w'] =>
          destruct (is_best_eval_scores xs w') as [w2 [bs|e]]
      end; reflexivity. }
    rewrite Hw. split; [ congruence | ].
    rewrite Hh in Hn'. by eapply no_worse_trans.
Qed.

End ScoreProofs.

(** C10: the constructor sets [best_eval_score] to minus infinity when a
    higher score is better and to plus infinity otherwise (and keeps that
    value unless it resumes from a checkpoint).  A call
    [_is_best_eval_score(s)] returns whether [s] is strictly better than the
    best so far, and leaves [max(best, s)] as the best when higher is better
    and [min(best, s)] otherwise: an upper (lower) bound of both that is one
    of them.  So the best score after a call, and after any sequence of
    calls, is the one before or a strictly better one. *)
Theorem best_eval_score_never_worse `{Framework} :
  (∀ (a : init_args) tr tr' s,
     UNet3DTrainer_init a tr = (tr', Ok s) →
     i_resume a = None →
     self_best_eval_score s
     = if i_eval_score_higher_is_better a then NegInf else PosInf)
  ∧ (∀ (w : world) x,
       let hib := self_eval_score_higher_is_better (w_self w) in
       let prev := self_best_eval_score (w_self w) in
       let best := self_best_eval_score (w_self (_is_best_eval_score x w).1) in
       (_is_best_eval_score x w).2 = Ok (better hib x prev)
       ∧ best = (if hib then py_max prev x else py_min prev x)
       ∧ (best = prev ∨ best = x)
       ∧ (is_nan prev = false → is_nan x = false →
          if hib then float_le prev best = true ∧ float_le x best = true
          else float_le best prev = true ∧ float_le best x = true)
       ∧ no_worse hib best prev)
  ∧ (∀ (w : world) xs,
       no_worse (self_eval_score_higher_is_better (w_self w))
         (self_best_eval_score (w_self (is_best_eval_scores xs w).1))
         (self_best_eval_score (w_self w))).
Proof.
  split; [ | split ].
  - intros a tr tr' s Hinit Hres. unfold UNet3DTrainer_init in Hinit.
    rewrite Hres in Hinit.
    apply bind_inv_ok in Hinit as (tr1 & [] & _ & Hinit).
    apply bind_inv_ok in Hinit as (tr2 & f & _ & Hinit).
    destruct (i_pre_trained a) as [pre|].
    + apply bind_inv_ok in Hinit as (tr3 & [] & _ & Hinit).
      apply bind_inv_ok in Hinit as (tr4 & [[st m] o] & _ & Hinit).
      by injection Hinit as _ <-.
    + by injection Hinit as _ <-.
  - intros w x hib prev best. subst best. rewrite is_best_run. cbv zeta.
    fold hib. fold prev. split; [ done | ].
    assert (Hbest : self_best_eval_score
                      (w_self (if better hib x prev
                               then World (set_best_eval_score x (w_self w)) (w_ticks w)
                                      (w_trace w ++ [ELogInfo "Saving new best evaluation metric"])
                                      (w_files w)
                               else w))
                    = if better hib x prev then x else prev).
    { by destruct (better hib x prev). }
    cbn [fst]. rewrite Hbest. clear Hbest.
    split; [ unfold better, py_max, py_min; by destruct hib | ].
    split; [ destruct (better hib x prev); auto | ].
    split.
    + intros Hp Hx. unfold better, float_gt. destruct hib.
      * destruct (float_lt prev x) eqn:Hlt.
        -- split; [ by apply float_lt_le | by apply float_le_refl ].
        -- split; [ by apply float_le_refl | by apply float_not_lt_le ].
      * destruct (float_lt x prev) eqn:Hlt.
        -- split; [ by apply float_lt_le | by apply float_le_refl ].
        -- split; [ by apply float_le_refl | by apply float_not_lt_le ].
    + unfold no_worse. destruct (better hib x prev) eqn:Hb; auto.
  - intros w xs. apply is_best_scores_no_worse.
Qed.

Lemma best_eval_score_never_worse_witness :
  (∃ s, (@UNet3DTrainer_init (toy_framework false) (toy_init_args true) []).2 = Ok s
        ∧ self_best_eval_score s = NegInf)
  ∧ (∃ s, (@UNet3DTrainer_init (toy_framework false) (toy_init_args false) []).2 = Ok s
          ∧ self_best_eval_score s = PosInf).
Proof.
  destruct (@best_eval_score_never_worse (toy_framework false)) as (Hinit & _ & _).
  split.
  - eexists. split; [ reflexivity | ].
    eapply (Hinit (toy_init_args true) []); [ cbv; reflexivity | reflexivity ].
  - eexists. split; [ reflexivity | ].
    eapply (Hinit (toy_init_args false) []); [ cbv; reflexivity | reflexivity ].
Defined.

(** ** A failed conversion to channels-last *)

Section ConversionProofs.

Context `{Framework}.

Lemma conv_outcome_caught cfg x e :
  cfg_channels_last cfg ≠ 0 →
  cfg_device_str cfg ≠ "xpu" →
  tensor_to_channels_last_3d x = Raise e →
  is_RuntimeError e = true →
  conv_outcome cfg x = (caught_events x e, Ok x).
Proof.
  intros Hcl Hds He Hrt. unfold conv_outcome.
  apply Z.eqb_neq in Hcl. apply String.eqb_neq in Hds.
  by rewrite Hcl, Hds, He, Hrt.
Qed.

Lemma conv_outcome_skipped cfg x : conv_outcome (set_channels_last 0 cfg) x = ([], Ok x).
Proof. reflexivity. Qed.

(** One pass through the body of the generic-profiled or the unprofiled
    loop in which the conversion raises a [RuntimeError]. *)
Lemma loop_conversion_caught p pl last dt t totals w x y wt e :
  p ≠ XpuProfile →
  split_outcome (self_device (w_self w)) t = Ok (x, y, wt) →
  cfg_channels_last (self_config (w_self w)) ≠ 0 →
  cfg_device_str (self_config (w_self w)) ≠ "xpu" →
  tensor_to_channels_last_3d x = Raise e →
  is_RuntimeError e = true →
  let w0 := world_with_config (set_channels_last 0) w in
  let r := body p pl last dt t totals w in
  let r0 := body p pl last dt t totals w0 in
  input_channels_last x w = (add_events (caught_events x e) w, Ok x)
  ∧ r.2 = r0.2
  ∧ (∃ tb, r.2 = Ok tb)
  ∧ (∃ pre post,
       w_trace r.1 = w_trace w ++ pre ++ caught_events x e ++ post
       ∧ w_trace r0.1 = w_trace w ++ pre ++ post
       ∧ In (EForward x) post)
  ∧ w_self r0.1 = with_config (set_channels_last 0) (w_self r.1)
  ∧ w_ticks r.1 = w_ticks r0.1
  ∧ w_files r.1 = w_files r0.1.
Proof.
  intros Hp Hs Hcl Hds He Hrt w0 r r0. subst r r0 w0.
  pose proof (conv_outcome_caught _ x e Hcl Hds He Hrt) as Hc.
  split; [ rewrite conv_run; by rewrite Hc | ].
  rewrite !body_spec. unfold iteration_spec.
  cbn [w_self world_with_config with_config self_device self_config w_ticks w_trace
       w_files].
  rewrite Hs, Hc. rewrite conv_outcome_skipped.
  destruct p; [ done | | ]; cbn [fst snd].
  - split; [ done | ]. split; [ by eexists | ].
    split; [ | split_and!; try done; unfold advanced, is_last; simpl; by destruct (_ <=? _) ].
    exists (head_events (w_self w) (w_ticks w) t ++ [ETime ClStartTime (clock (S (w_ticks w)))]).
    eexists. unfold loop_events. rewrite <- !app_assoc. split; [ reflexivity | ].
    split; [ reflexivity | ]. simpl. auto.
  - split; [ done | ]. split; [ by eexists | ].
    split; [ | split_and!; try done; unfold advanced, is_last; simpl; by destruct (_ <=? _) ].
    exists (head_events (w_self w) (w_ticks w) t ++ [ETime ClStartTime (clock (S (w_ticks w)))]).
    eexists. unfold loop_events. rewrite <- !app_assoc. split; [ reflexivity | ].
    split; [ reflexivity | ]. simpl. auto.
Qed.

End ConversionProofs.

(** ** The generic-profiled path against the unprofiled path *)

Section PathProofs.

Context `{Framework}.















End PathProofs.

(** ** The accelerator-profiled path *)

Section XpuProofs.

Context `{Framework}.






(** On the accelerator-profiled path the first pass through the loop body
    ends in the lookup of the global name [args], which [trainer.py] does
    not define. *)
Lemma train_xpu_profile w t bs :
  cfg_profile (self_config (w_self w)) = true →
  cfg_device_str (self_config (w_self w)) = "xpu" →
  self_train_loader (w_self w) = t :: bs →
  (∃ x y wt, split_outcome (self_device (w_self w)) t = Ok (x, y, wt)) →
  (train w).2 = Raise (Exn NameError "args")
  ∧ ∃ evs, w_trace (train w).1 = w_trace w ++ evs
           ∧ ∀ q, ¬ In (EPrintThroughput q) evs.
Proof.
  intros Hprof Hds Hbs (x & y & wt & Hs).
  rewrite train_cases. cbv zeta.
  unfold path_of. rewrite Hprof, Hds. simpl.
  unfold run_loop. rewrite Hbs. simpl. unfold bind. unfold iteration_spec.
  cbn [w_self w_ticks w_trace w_files add_events]. rewrite Hs. cbn [fst snd].
  split; [ reflexivity | ].
  eexists. rewrite <- app_assoc. split; [ reflexivity | ].
  intros q. unfold xpu_profile_events, counted_events.
  destruct (is_counted _ _); simpl; intuition discriminate.
Qed.

End XpuProofs.

(** ** The counted iterations and the throughput *)

Section ThroughputProofs.

Context `{Framework}.

Lemma perf_lines_app a b : perf_lines (a ++ b) = perf_lines a ++ perf_lines b.
Proof. apply List.filter_app. Qed.

Lemma perf_lines_conv cfg x : perf_lines (conv_outcome cfg x).1 = [].
Proof.
  unfold conv_outcome. destruct (_ && _); [ | done ].
  destruct (tensor_to_channels_last_3d x) as [x'|e]; [ done | ].
  by destruct (is_RuntimeError e).
Qed.

Lemma perf_lines_sync p ds : perf_lines (sync_of p ds) = [].
Proof.
  destruct p; simpl; [ done | unfold sync_profile | unfold sync_else ];
    by repeat destruct (String.eqb _ _).
Qed.

Lemma perf_lines_loop_events p s k last dt t cev x y wt :
  perf_lines cev = [] →
  perf_lines (loop_events p s k last dt t cev x y wt)
  = EPrintIteration (self_num_iterations s) (duration_at k)
      :: (if is_counted s last then [EPrintCounted (self_num_iterations s)] else []).
Proof.
  intros Hcev. unfold loop_events. rewrite !perf_lines_app, Hcev, perf_lines_sync.
  unfold counted_events. destruct p, (is_counted s last); reflexivity.
Qed.

(** The loop of the generic-profiled or the unprofiled path, entered at
    iteration [i] with [n] iterations to go up to iteration [N]. *)
Lemma loop_perf_lines p dt d cfg k0 W N :
  p ≠ XpuProfile →
  cfg_num_warmup cfg = W →
  cfg_num_iter cfg = N →
  ∀ (n : nat) bs i totals w,
    self_config (w_self w) = cfg →
    self_device (w_self w) = d →
    self_num_iterations (w_self w) = i →
    0 ≤ i ≤ N →
    Z.of_nat n = N + 1 - i →
    w_ticks w = (k0 + 4 * Z.to_nat i)%nat →
    (n ≤ length bs)%nat →
    forallb (batch_ok d cfg) (take n bs) = true →
    let r := for_each_batch (iteration_spec p (N - 1) dt) bs totals w in
    r.2 = Ok (fold_left (count_step k0 W N) (seqZ i (Z.of_nat n)) totals)
    ∧ ∃ evs,
        w_trace r.1 = w_trace w ++ evs
        ∧ perf_lines evs = flat_map (iteration_lines k0 W N) (seqZ i (Z.of_nat n)).
Proof.
  intros Hp HW HN n. induction n as [|n IH];
    intros bs i totals w Hcfg Hd Hi Hi0 Hn Hk Hlen Hok r; [ lia | ].
  destruct bs as [|t bs]; [ simpl in Hlen; lia | ].
  simpl in Hok. apply andb_true_iff in Hok as [Ht Hok].
  rewrite seqZ_cons by lia.
  replace (Z.pred (Z.of_nat (S n))) with (Z.of_nat n) by lia.
  replace (Z.succ i) with (i + 1) by lia.
  subst r. cbn [for_each_batch fold_left flat_map]. unfold bind.
  unfold batch_ok in Ht. unfold iteration_spec. rewrite Hd, Hcfg.
  destruct (split_outcome d t) as [[[x y] wt]|e]; [ | done ].
  pose proof (perf_lines_conv cfg x) as Hcev.
  destruct (conv_outcome cfg x) as [cev [x'|e]]; cbn [fst snd] in *; [ | done ].
  set (evs0 := loop_events p (w_self w) (w_ticks w) (N - 1) dt t cev x' y wt).
  set (s1 := advanced (stepped (w_self w) (autocast_of p (cfg_device_str cfg)) dt x' y wt)).
  set (w1 := World s1 (S (S (S (S (w_ticks w))))) (w_trace w ++ evs0) (w_files w)).
  set (tot1 := counted_totals (w_self w) (N - 1) (duration_at (w_ticks w)) totals).
  assert (Htot : tot1 = count_step k0 W N totals i).
  { subst tot1. unfold counted_totals, count_step, is_counted, counts, duration_of.
    by rewrite Hcfg, HW, Hi, Hk. }
  assert (Hlines : perf_lines evs0 = iteration_lines k0 W N i).
  { subst evs0. rewrite perf_lines_loop_events by done.
    unfold iteration_lines, is_counted, counts, duration_of.
    by rewrite Hcfg, HW, Hi, Hk. }
  assert (Hlast : is_last (w_self w) = (N <=? i)).
  { unfold is_last. by rewrite Hcfg, HN, Hi. }
  assert (Hrest :
    let rr := if is_last (w_self w) then (w1, Ok tot1)
              else for_each_batch (iteration_spec p (N - 1) dt) bs tot1 w1 in
    rr.2 = Ok (fold_left (count_step k0 W N) (seqZ (i + 1) (Z.of_nat n))
                 (count_step k0 W N totals i))
    ∧ ∃ evs, w_trace rr.1 = w_trace w ++ evs
             ∧ perf_lines evs
               = iteration_lines k0 W N i
                 ++ flat_map (iteration_lines k0 W N) (seqZ (i + 1) (Z.of_nat n))).
  { intros rr. subst rr. rewrite Hlast.
    destruct (Z.leb_spec N i) as [Hle|Hlt].
    - assert (n = 0%nat) as -> by lia. simpl.
      split; [ by rewrite Htot | ].
      exists evs0. split; [ done | ]. by rewrite Hlines, app_nil_r.
    - destruct (IH bs (i + 1) tot1 w1) as [Hr (evs & Htr & Hevs)].
      + subst w1 s1. cbn [w_self]. by rewrite self_config_advanced.
      + subst w1 s1. cbn [w_self]. unfold advanced. by destruct (is_last _).
      + subst w1 s1. cbn [w_self]. unfold advanced, is_last. simpl.
        rewrite Hcfg, HN, Hi. by destruct (Z.leb_spec N i); [ lia | ].
      + lia.
      + lia.
      + subst w1. cbn [w_ticks]. rewrite Hk. lia.
      + simpl in Hlen. lia.
      + done.
      + split; [ by rewrite Hr, Htot | ].
        exists (evs0 ++ evs). rewrite Htr. subst w1. cbn [w_trace].
        rewrite <- app_assoc. split; [ done | ].
        by rewrite perf_lines_app, Hlines, Hevs. }
  cbv zeta in Hrest. fold evs0 s1 w1 tot1.
  destruct p; [ done | | ];
    (destruct (is_last (w_self w)); cbn [fst snd] in *; exact Hrest).
Qed.

Lemma fold_count_skip k W N l totals :
  (∀ i, i ∈ l → counts W N i = false) →
  fold_left (count_step k W N) l totals = totals.
Proof.
  revert totals. induction l as [|i l IH]; intros totals Hl; [ done | ].
  simpl. unfold count_step at 2. rewrite Hl by left.
  apply IH. intros j Hj. apply Hl. by right.
Qed.

Lemma fold_count_all k W N l totals :
  (∀ i, i ∈ l → counts W N i = true) →
  fold_left (count_step k W N) l totals
  = (fold_left (λ T i, (T + duration_of k i)%Q) l totals.1,
     totals.2 + Z.of_nat (length l)).
Proof.
  revert totals. induction l as [|i l IH]; intros totals Hl.
  - simpl. destruct totals. simpl. f_equal. lia.
  - simpl. unfold count_step at 2. rewrite Hl by left.
    rewrite IH by (intros j Hj; apply Hl; by right).
    simpl. f_equal. lia.
Qed.

(** The totals that the loop leaves: the durations of the iterations
    [W], ..., [N - 2], and their number. *)
Lemma fold_count_step k W N :
  0 ≤ W → W + 1 < N →
  fold_left (count_step k W N) (seqZ 0 (N + 1)) (0%Q, 0)
  = (total_time_of k W N, N - W - 1).
Proof.
  intros HW HN.
  replace (N + 1) with (W + ((N - W - 1) + 2)) by lia.
  rewrite seqZ_app by lia. rewrite seqZ_app by lia.
  rewrite !fold_left_app.
  rewrite (fold_count_skip _ _ _ (seqZ 0 W)); last first.
  { intros i [? ?]%elem_of_seqZ. unfold counts. apply andb_false_iff. left.
    apply Z.leb_gt. lia. }
  rewrite (fold_count_all _ _ _ (seqZ (0 + W) (N - W - 1))); last first.
  { intros i [? ?]%elem_of_seqZ. unfold counts. apply andb_true_iff. split.
    - apply Z.leb_le. lia.
    - apply Z.ltb_lt. lia. }
  rewrite fold_count_skip; last first.
  { intros i [? ?]%elem_of_seqZ. unfold counts. apply andb_false_iff. right.
    apply Z.ltb_ge. lia. }
  rewrite length_seqZ. unfold total_time_of. simpl. f_equal. lia.
Qed.

Lemma last_iter_of_enough s :
  cfg_num_iter (self_config s) + 1 ≤ Z.of_nat (length (self_train_loader s)) →
  last_iter_of s = cfg_num_iter (self_config s) - 1.
Proof. unfold last_iter_of. lia. Qed.

(** On the generic-profiled and on the unprofiled path, a run of [train]
    that starts at iteration 0 on enough well-formed batches prints the
    lines of the iterations 0, ..., [N], then the totals, the latency and
    the throughput. *)
Lemma train_perf_lines (w : world) :
  let s := w_self w in
  let cfg := self_config s in
  let N := cfg_num_iter cfg in
  let W := cfg_num_warmup cfg in
  let T := total_time_of (w_ticks w) W N in
  path_of cfg ≠ XpuProfile →
  self_num_iterations s = 0 →
  0 ≤ W →
  W + 1 < N →
  N + 1 ≤ Z.of_nat (length (self_train_loader s)) →
  forallb (batch_ok (self_device s) cfg) (take (Z.to_nat (N + 1)) (self_train_loader s))
  = true →
  cfg_batch_size cfg ≠ 0 →
  ¬ (T == 0)%Q →
  (train w).2 = Ok true
  ∧ ∃ evs perf,
      w_trace (train w).1 = w_trace w ++ evs
      ∧ perf_lines evs
        = flat_map (iteration_lines (w_ticks w) W N) (seqZ 0 (N + 1))
          ++ [EPrintTotals T (N - W - 1);
              EPrintLatency
                (T / inject_Z (N - W - 1) / inject_Z (cfg_batch_size cfg) * 1000)%Q;
              EPrintThroughput perf]
      ∧ (perf == inject_Z (cfg_batch_size cfg) * inject_Z (N - W - 1) / T)%Q.
Proof.
  intros s cfg N W T Hp Hi HW HN Hlen Hok Hbs HT.
  assert (HC : ¬ (inject_Z (N - W - 1) == 0)%Q).
  { unfold Qeq. simpl. lia. }
  assert (HB : ¬ (inject_Z (cfg_batch_size cfg) == 0)%Q).
  { unfold Qeq. simpl. lia. }
  assert (Hloop : ∀ w0,
            w_self w0 = s → w_ticks w0 = w_ticks w →
            let r := for_each_batch
                       (iteration_spec (path_of cfg) (last_iter_of s) (datatype_of_config s))
                       (self_train_loader s) (0%Q, 0) w0 in
            r.2 = Ok (T, N - W - 1)
            ∧ ∃ evs, w_trace r.1 = w_trace w0 ++ evs
                     ∧ perf_lines evs
                       = flat_map (iteration_lines (w_ticks w) W N) (seqZ 0 (N + 1))).
  { intros w0 Hs Hk. rewrite last_iter_of_enough by done.
    destruct (loop_perf_lines (path_of cfg) (datatype_of_config s) (self_device s) cfg
                (w_ticks w) W N Hp eq_refl eq_refl (Z.to_nat (N + 1))
                (self_train_loader s) 0 (0%Q, 0) w0)
      as [Hr Hevs]; try (by rewrite Hs); try lia; try done.
    rewrite Z2Nat.id in Hr, Hevs by lia.
    rewrite fold_count_step in Hr by done. done. }
  assert (Hrun : let r := run_loop (path_of cfg) s (add_events [EModelTrain] w) in
            r.2 = Ok (T, N - W - 1)
            ∧ ∃ evs, w_trace r.1 = w_trace w ++ evs
                     ∧ perf_lines evs
                       = flat_map (iteration_lines (w_ticks w) W N) (seqZ 0 (N + 1))).
  { unfold run_loop. destruct (path_of cfg) eqn:Hpath; [ done | | ].
    - rewrite profiler_schedule_run, profile_len_nonneg by (change (0 ≤ N); lia).
      rewrite with_context_run. cbn [fst snd].
      destruct (Hloop (add_events [EProfilerEnter
                  (if String.eqb (cfg_device_str (self_config s)) "cuda"
                   then ["CPU"; "CUDA"] else ["CPU"]) (profile_len_of s)]
                  (add_events [EModelTrain] w)))
        as [Hr (evs & Htr & Hevs)]; [ done | done | ].
      split; [ done | ].
      eexists. unfold add_events at 1. cbn [w_trace]. rewrite Htr.
      unfold add_events. cbn [w_trace]. rewrite <- !app_assoc.
      split; [ reflexivity | ].
      rewrite !perf_lines_app, Hevs. simpl. by rewrite app_nil_r.
    - destruct (Hloop (add_events [EModelTrain] w)) as [Hr (evs & Htr & Hevs)];
        [ done | done | ].
      split; [ done | ].
      eexists. rewrite Htr. unfold add_events. cbn [w_trace]. rewrite <- !app_assoc.
      split; [ reflexivity | ]. by rewrite perf_lines_app, Hevs. }
  rewrite train_cases. cbv zeta in Hrun |- *. fold s cfg.
  destruct Hrun as [Hr (evs & Htr & Hevs)].
  destruct (run_loop (path_of cfg) s (add_events [EModelTrain] w)) as [w1 r1].
  cbn [fst snd] in *. subst r1.
  rewrite report_cases.
  destruct (Qeq_bool (inject_Z (N - W - 1)) 0) eqn:E1;
    [ by apply Qeq_bool_iff in E1 | ].
  destruct (Qeq_bool (inject_Z (cfg_batch_size cfg)) 0) eqn:E2;
    [ by apply Qeq_bool_iff in E2 | ].
  destruct (Qeq_bool (T / inject_Z (N - W - 1)) 0) eqn:E3.
  { apply Qeq_bool_iff in E3. exfalso. apply HT.
    rewrite <- (Qmult_div_r T (inject_Z (N - W - 1))) by done.
    rewrite E3. ring. }
  cbn [fst snd]. split; [ done | ].
  eexists _, _. unfold add_events. cbn [w_trace]. rewrite Htr, <- !app_assoc.
  split; [ reflexivity | ].
  split; [ by rewrite perf_lines_app, Hevs | ].
  field. split; done.
Qed.

End ThroughputProofs.

(** * The training loop: main results *)

(** C1: with [num_iter = N], [num_warmup = W], [0 ≤ W], [W + 1 < N], a
    loader of at least [N + 1] batches and [num_iterations = 0] at the
    start, [train] on the generic-profiled and on the unprofiled path
    returns [True] and prints: for each iteration [i] of 0, ..., [N] its
    duration, followed by the line that says it counts exactly when
    [W ≤ i < N - 1]; then the totals, which are the sum [T] of the durations
    of the iterations [W], ..., [N - 2] and their number [N - W - 1]; then
    the latency and the throughput, which is equal to
    [batch_size * (N - W - 1) / T].  This holds when the first [N + 1]
    batches unpack into two or three tensors, the conversion of the input
    raises nothing but a [RuntimeError], and neither [batch_size] nor [T]
    is zero.  On the accelerator-profiled path, with [--profile --device
    xpu] and a first batch that unpacks, [train] raises [NameError: name
    'args' is not defined] in its first iteration (line 232) and prints no
    throughput. *)
Theorem train_counts_and_throughput `{Framework} :
  (∀ w : world,
     let s := w_self w in
     let cfg := self_config s in
     let N := cfg_num_iter cfg in
     let W := cfg_num_warmup cfg in
     let T := total_time_of (w_ticks w) W N in
     path_of cfg ≠ XpuProfile →
     self_num_iterations s = 0 →
     0 ≤ W →
     W + 1 < N →
     N + 1 ≤ Z.of_nat (length (self_train_loader s)) →
     forallb (batch_ok (self_device s) cfg)
       (take (Z.to_nat (N + 1)) (self_train_loader s)) = true →
     cfg_batch_size cfg ≠ 0 →
     ¬ (T == 0)%Q →
     (train w).2 = Ok true
     ∧ ∃ evs perf,
         w_trace (train w).1 = w_trace w ++ evs
         ∧ perf_lines evs
           = flat_map (iteration_lines (w_ticks w) W N) (seqZ 0 (N + 1))
             ++ [EPrintTotals T (N - W - 1);
                 EPrintLatency
                   (T / inject_Z (N - W - 1) / inject_Z (cfg_batch_size cfg) * 1000)%Q;
                 EPrintThroughput perf]
         ∧ (perf == inject_Z (cfg_batch_size cfg) * inject_Z (N - W - 1) / T)%Q)
  ∧ (∀ (w : world) t bs,
       cfg_profile (self_config (w_self w)) = true →
       cfg_device_str (self_config (w_self w)) = "xpu" →
       self_train_loader (w_self w) = t :: bs →
       (∃ x y wt, split_outcome (self_device (w_self w)) t = Ok (x, y, wt)) →
       (train w).2 = Raise (Exn NameError "args")
       ∧ ∃ evs, w_trace (train w).1 = w_trace w ++ evs
                ∧ ∀ q, ¬ In (EPrintThroughput q) evs).
Proof.
  split.
  - apply train_perf_lines.
  - apply train_xpu_profile.
Qed.

Lemma train_counts_and_throughput_witness :
  ((train (toy_world false (toy_config false "cuda" 1))).2 = Ok true
   ∧ ∃ evs perf,
       w_trace (train (toy_world false (toy_config false "cuda" 1))).1 = [] ++ evs
       ∧ perf_lines evs
         = [EPrintIteration 0 2; EPrintCounted 0; EPrintIteration 1 2; EPrintCounted 1;
            EPrintIteration 2 2; EPrintIteration 3 2;
            EPrintTotals 4 2; EPrintLatency (4000 # 4); EPrintThroughput perf]
       ∧ (perf == 1)%Q)
  ∧ (train (toy_world false (toy_config true "xpu" 1))).2 = Raise (Exn NameError "args").
Proof.
  destruct (@train_counts_and_throughput (toy_framework false)) as [Hcount Hxpu].
  split.
  - destruct (Hcount (toy_world false (toy_config false "cuda" 1)))
      as [Hr (evs & perf & Htr & Hlines & Hperf)].
    + discriminate.
    + reflexivity.
    + vm_compute. discriminate.
    + reflexivity.
    + vm_compute. discriminate.
    + reflexivity.
    + discriminate.
    + vm_compute. discriminate.
    + split; [ exact Hr | ]. exists evs, perf. split; [ exact Htr | ].
      split; [ exact Hlines | ].
      apply (Qeq_trans _ _ _ Hperf). vm_compute. reflexivity.
  - destruct (Hxpu (toy_world false (toy_config true "xpu" 1)) [1; 2]
                [[3; 4]; [5; 6]; [7; 8]]) as [Hr _].
    + reflexivity.
    + reflexivity.
    + reflexivity.
    + by exists 1, 2, None.
    + exact Hr.
Defined.




(** C4: a [RuntimeError] raised by the conversion to channels-last is
    caught where it is raised.  In [create_trainer], the two lines are
    printed and the rest of the function runs on the model as it came from
    [model.to(device)].  In the generic-profiled and the unprofiled loop of
    [train] the two lines are printed, the pass through the loop body goes
    on and returns, and it is the pass that a configuration with
    [channels_last] off would make, but for the attempt and the printed
    lines: the forward pass takes the unconverted input. *)
Theorem channels_last_failure_is_caught `{Framework} :
  (∀ config s s1 model dev cl e,
     create_model config s = (s1, Ok (model, dev)) →
     getitem config "channels_last" s1 = (s1, Ok cl) →
     truthy (st_heap s1) cl && ne_str dev "xpu" = true →
     module_to_channels_last_3d model = Raise e →
     is_RuntimeError e = true →
     let s2 := CState (st_heap s1)
                 (st_log s1 ++ [Print "---- use normal format" [];
                                Print "failed to enable NHWC: " [VStr (exn_msg e)]]) in
     model_channels_last model s1 = (s2, Ok model)
     ∧ create_trainer config s = create_trainer_tail config model s2)
  ∧ (∀ p pl last dt t totals (w : world) x y wt e,
       p ≠ XpuProfile →
       split_outcome (self_device (w_self w)) t = Ok (x, y, wt) →
       cfg_channels_last (self_config (w_self w)) ≠ 0 →
       cfg_device_str (self_config (w_self w)) ≠ "xpu" →
       tensor_to_channels_last_3d x = Raise e →
       is_RuntimeError e = true →
       let w0 := world_with_config (set_channels_last 0) w in
       let r := body p pl last dt t totals w in
       let r0 := body p pl last dt t totals w0 in
       input_channels_last x w = (add_events (caught_events x e) w, Ok x)
       ∧ r.2 = r0.2
       ∧ (∃ tb, r.2 = Ok tb)
       ∧ (∃ pre post,
            w_trace r.1 = w_trace w ++ pre ++ caught_events x e ++ post
            ∧ w_trace r0.1 = w_trace w ++ pre ++ post
            ∧ In (EForward x) post)
       ∧ w_self r0.1 = with_config (set_channels_last 0) (w_self r.1)
       ∧ w_ticks r.1 = w_ticks r0.1
       ∧ w_files r.1 = w_files r0.1).
Proof.
  split.
  - intros config s s1 model dev cl e Hcm Hcl Hcond He Hrt s2. split.
    + by apply model_channels_last_caught.
    + by eapply create_trainer_conversion_caught.
  - intros p pl last dt t totals w x y wt e Hp Hs Hcl Hds He Hrt.
    exact (loop_conversion_caught p pl last dt t totals w x y wt e Hp Hs Hcl Hds He Hrt).
Qed.

Lemma channels_last_failure_is_caught_witness :
  (∃ s' args,
     @create_trainer (toy_framework true) (VRef 1%positive) (CState config_full [])
     = (s', Ok args)
     ∧ @ta_model (toy_framework true) args = 0
     ∧ In (Print "failed to enable NHWC: " [VStr "unsupported"]) (st_log s'))
  ∧ (∃ tb,
       (@iteration_else (toy_framework true) 2 Float32 [1; 2] (0%Q, 0)
          (toy_world true (toy_config false "cpu" 1))).2 = Ok tb).
Proof.
  destruct (@channels_last_failure_is_caught (toy_framework true)) as [Hmodel Hloop].
  split.
  - destruct (Hmodel (VRef 1%positive) (CState config_full [])
                (CState config_full [LogInfo "Sending the model to '{}'"
                                       [VDevice (Device "cpu" "cpu")]])
                0 (VDevice (Device "cpu" "cpu")) (VInt 1)
                (Exn RuntimeError "unsupported"))
      as [_ Hct]; try (vm_compute; reflexivity).
    rewrite Hct. eexists _, _. split; [ vm_compute; reflexivity | ].
    split; [ reflexivity | ]. simpl. auto.
  - assert (Hp : Else ≠ XpuProfile) by discriminate.
    assert (Hcl : cfg_channels_last
                    (self_config (w_self (toy_world true (toy_config false "cpu" 1)))) ≠ 0)
      by (cbv; discriminate).
    assert (Hds : cfg_device_str
                    (self_config (w_self (toy_world true (toy_config false "cpu" 1))))
                  ≠ "xpu")
      by (cbv; discriminate).
    pose proof (Hloop Else 0 2 Float32 [1; 2] (0%Q, 0)
                  (toy_world true (toy_config false "cpu" 1)) 1 2 None
                  (Exn RuntimeError "unsupported") Hp eq_refl Hcl Hds eq_refl eq_refl)
      as Hcaught.
    cbv beta zeta delta [body] in Hcaught.
    destruct Hcaught as (_ & _ & Hok & _). exact Hok.
Defined.

(** * Further behaviour: proofs *)

(** ** The log of [load_config] *)

Lemma bind_log {A B} (c : M cstate A) (k : A → M cstate B) :
  (∀ s, st_log (c s).1 = st_log s) →
  (∀ a s, st_log (k a s).1 = st_log s) →
  ∀ s, st_log (bind c k s).1 = st_log s.
Proof.
  intros Hc Hk s. unfold bind. specialize (Hc s).
  destruct (c s) as [s' [a|e]]; simpl in *; [ | done ].
  by rewrite Hk.
Qed.

Lemma getitem_log d k s : st_log (getitem d k s).1 = st_log s.
Proof.
  unfold getitem, bind, get. simpl.
  destruct d as [| | | | | |l]; try reflexivity.
  destruct (st_heap s !! l) as [[m|]|]; try reflexivity.
  by destruct (m !! k).
Qed.

Lemma setitem_log d k v s : st_log (setitem d k v s).1 = st_log s.
Proof.
  unfold setitem, bind, get. simpl.
  destruct d as [| | | | | |l]; try reflexivity.
  by destruct (st_heap s !! l) as [[m|]|].
Qed.

(** Lines 38-51 log nothing. *)
Lemma write_flags_log td cmd config s :
  st_log (write_flags td cmd config s).1 = st_log s.
Proof.
  revert s. unfold write_flags. cbv zeta.
  apply bind_log; [ by destruct (td _) | intros d ].
  repeat (apply bind_log;
          [ first [ apply setitem_log | apply getitem_log ] | intros ? ]).
  done.
Qed.

(** Lines 28-36 log [device_log], whether they pass or raise. *)
Lemma device_from_config_log cuda (o : option value) h log :
  st_log (device_from_config cuda (default VNone o) (CState h log)).1
  = log ++ device_log cuda o.
Proof.
  destruct o as [[]|]; simpl; try reflexivity.
  unfold bind. simpl. destruct (String.prefix "cuda" s && negb cuda); simpl;
    [ by rewrite <- app_assoc | done ].
Qed.

(** X1: whatever the flags are and however it ends, [load_config] logs the
    lines of the block on the ['device'] entry of the file and nothing
    else: one info line, followed by the warning "CUDA not available,
    using CPU" exactly when the entry is a string that starts with ['cuda']
    and CUDA is not available.  The line is about the entry of the file,
    not about the device that line 38 then takes from the [--device]
    flag. *)
Theorem load_config_log td cuda cmd root h log m :
  h !! root = Some (ODict m) →
  st_log (load_config td cuda cmd (VRef root) (CState h log)).1
  = log ++ device_log cuda (m !! "device").
Proof.
  intros Hroot. rewrite load_config_eq.
  erewrite bind_ok by (by apply dict_get_run).
  pose proof (device_from_config_log cuda (m !! "device") h log) as Hlog.
  unfold bind.
  destruct (device_from_config cuda (default VNone (m !! "device")) (CState h log))
    as [s1 [v|e]]; simpl in *; [ | done ].
  by rewrite write_flags_log.
Qed.

Lemma load_config_log_witness :
  let cmd := CmdLine "train_config.yaml" None None None false false None None
               (Some "cuda") false false in
  st_log (load_config any_device false cmd (VRef 1%positive) (CState yaml_cuda [])).1
  = [] ++ [LogInfo "Device specified in config: '{}'" [VStr "cuda:0"];
           LogWarning "CUDA not available, using CPU" []]
  ∧ ∃ h' log' m',
      load_config any_device false cmd (VRef 1%positive) (CState yaml_cuda [])
      = (CState h' log', Ok (VRef 1%positive))
      ∧ h' !! 1%positive = Some (ODict m')
      ∧ m' !! "device_str" = Some (VStr "cuda").
Proof.
  intros cmd. split.
  - etransitivity.
    + apply (load_config_log any_device false cmd 1%positive yaml_cuda []
               {[ "device" := VStr "cuda:0"; "loaders" := VRef 2%positive ]}).
      reflexivity.
    + vm_compute. reflexivity.
  - eexists _, _, _. split; [ vm_compute; reflexivity | ]. split; reflexivity.
Defined.

(** ** The ['trainer'] section in [create_trainer] *)

Section CreateTrainerMoreProofs.

Context `{Framework}.

Lemma dict_pop_run l k d h log m :
  h !! l = Some (ODict m) →
  dict_pop (VRef l) k d (CState h log)
  = (CState (<[l := ODict (delete k m)]> h) log, Ok (default d (m !! k))).
Proof. intros Hl. unfold dict_pop, bind, get, put, ret. simpl. by rewrite Hl. Qed.

Lemma without_popped_lookup tm k :
  without_popped tm !! k
  = if bool_decide (k ∈ ["tensorboard_formatter"; "resume"; "pre_trained"])
    then None else tm !! k.
Proof.
  unfold without_popped. case_bool_decide as Hk.
  - rewrite !elem_of_cons, elem_of_nil in Hk.
    destruct Hk as [-> | [-> | [-> | []]]]; by simplify_map_eq.
  - rewrite !elem_of_cons, elem_of_nil in Hk.
    rewrite !lookup_delete_ne by (intros <-; tauto). done.
Qed.

Lemma without_popped_idemp tm : without_popped (without_popped tm) = without_popped tm.
Proof.
  apply map_eq. intros k. rewrite !without_popped_lookup.
  by case_bool_decide.
Qed.

Ltac tstep :=
  first
    [ erewrite bind_ok by (eapply getitem_run; [ eassumption | eassumption ])
    | erewrite bind_ok by (apply call_ok; eassumption)
    | erewrite bind_ok by (apply lift_ok; eassumption)
    | erewrite bind_ok by (apply dict_get_run; eassumption)
    | erewrite bind_ok by apply emit_run
    | erewrite bind_ok by reflexivity ];
  cbn [st_heap st_log fst snd].

(** Lines 62-80, from the lookup of ['trainer'] on. *)
Lemma pop_trainer_keys root h log m tl tm d model opt ls lc ec loaders :
  formatter_returns →
  h !! root = Some (ODict m) →
  m !! "device" = Some (VDevice d) →
  m !! "trainer" = Some (VRef tl) →
  h !! tl = Some (ODict tm) →
  tl ≠ root →
  ∃ args,
    (trainer_config <- getitem (VRef root) "trainer" ;;
     formatter_config <- dict_pop trainer_config "tensorboard_formatter" VNone ;;
     tensorboard_formatter <- call (λ h, get_tensorboard_formatter h formatter_config) ;;
     resume <- dict_pop trainer_config "resume" VNone ;;
     pre_trained <- dict_pop trainer_config "pre_trained" VNone ;;
     d <- getitem (VRef root) "device" ;;
     ret {| ta_model := model;
            ta_optimizer := opt;
            ta_lr_scheduler := ls;
            ta_loss_criterion := lc;
            ta_eval_criterion := ec;
            ta_tensorboard_formatter := tensorboard_formatter;
            ta_device := d;
            ta_loaders := loaders;
            ta_resume := resume;
            ta_pre_trained := pre_trained;
            ta_config := VRef root;
            ta_kwargs := trainer_config |})%py (CState h log)
    = (CState (<[tl := ODict (without_popped tm)]> h) log, Ok args)
    ∧ ta_resume args = default VNone (tm !! "resume")
    ∧ ta_pre_trained args = default VNone (tm !! "pre_trained")
    ∧ ta_kwargs args = VRef tl
    ∧ ta_config args = VRef root
    ∧ ta_device args = VDevice d.
Proof.
  intros Hfmt Hroot Hd Htr Htl Hne.
  tstep.
  erewrite bind_ok by (by apply dict_pop_run).
  destruct (Hfmt (<[tl := ODict (delete "tensorboard_formatter" tm)]> h)
              (default VNone (tm !! "tensorboard_formatter"))) as [f Hf].
  tstep.
  erewrite bind_ok by (apply dict_pop_run; apply lookup_insert_eq).
  erewrite bind_ok by (apply dict_pop_run; apply lookup_insert_eq).
  rewrite !insert_insert_eq.
  erewrite bind_ok
    by (eapply getitem_run; [ rewrite lookup_insert_ne by done; eassumption | eassumption ]).
  eexists. split; [ reflexivity | ]. cbn.
  rewrite !lookup_delete_ne by done. done.
Qed.

(** With every call into the framework returning, [create_trainer_tail]
    returns, and what it changes in the store is the ['trainer'] mapping. *)
Lemma create_trainer_tail_returns root model h log m tl tm :
  framework_returns →
  formatter_returns →
  h !! root = Some (ODict m) →
  keys_before_trainer m →
  m !! "trainer" = Some (VRef tl) →
  h !! tl = Some (ODict tm) →
  tl ≠ root →
  ∃ log' args,
    create_trainer_tail (VRef root) model (CState h log)
    = (CState (<[tl := ODict (without_popped tm)]> h) log', Ok args)
    ∧ ta_resume args = default VNone (tm !! "resume")
    ∧ ta_pre_trained args = default VNone (tm !! "pre_trained")
    ∧ ta_kwargs args = VRef tl
    ∧ ta_config args = VRef root
    ∧ Some (ta_device args) = m !! "device".
Proof.
  intros (_ & _ & _ & Hlc & Hem & Htl & Hco & Hxo & Hls) Hfmt Hroot
    (_ & [d Hd] & _ & [vo Hvo] & [vp Hvp]) Htr Htm Hne.
  unfold create_trainer_tail.
  tstep.
  destruct (Hlc h (VRef root)) as [lc Hlc']. tstep.
  destruct (Hem h (VRef root)) as [ec Hec]. tstep.
  destruct (Htl h (VRef root)) as [tl' Htl']. tstep.
  tstep.
  destruct (Hco h vo model) as [o Ho]. tstep.
  tstep.
  destruct (str_is (VDevice d) "xpu").
  - rewrite bind_bind. tstep.
    destruct (Hxo model o (datatype_of vp)) as [mo Hmo].
    rewrite bind_bind. tstep. rewrite bind_bind. tstep. tstep. tstep.
    destruct (Hls h (default VNone (m !! "lr_scheduler")) mo.2) as [ls Hls']. tstep.
    match goal with
    | |- context [CState h ?l] =>
        destruct (pop_trainer_keys root h l m tl tm d mo.1 mo.2 ls lc ec tl'
                    Hfmt Hroot Hd Htr Htm Hne) as (args & -> & ? & ? & ? & ? & Hdev)
    end.
    eexists _, args. rewrite Hdev, Hd. by split_and!.
  - tstep. tstep.
    destruct (Hls h (default VNone (m !! "lr_scheduler")) o) as [ls Hls']. tstep.
    match goal with
    | |- context [CState h ?l] =>
        destruct (pop_trainer_keys root h l m tl tm d model o ls lc ec tl'
                    Hfmt Hroot Hd Htr Htm Hne) as (args & -> & ? & ? & ? & ? & Hdev)
    end.
    eexists _, args. rewrite Hdev, Hd. by split_and!.
Qed.

Lemma create_trainer_returns root h log m tl tm :
  framework_returns →
  formatter_returns →
  h !! root = Some (ODict m) →
  keys_before_trainer m →
  m !! "trainer" = Some (VRef tl) →
  h !! tl = Some (ODict tm) →
  tl ≠ root →
  ∃ log' args,
    create_trainer (VRef root) (CState h log)
    = (CState (<[tl := ODict (without_popped tm)]> h) log', Ok args)
    ∧ ta_resume args = default VNone (tm !! "resume")
    ∧ ta_pre_trained args = default VNone (tm !! "pre_trained")
    ∧ ta_kwargs args = VRef tl
    ∧ ta_config args = VRef root
    ∧ Some (ta_device args) = m !! "device".
Proof.
  intros Hfw Hfmt Hroot Hkeys Htr Htm Hne.
  destruct (create_model_returns root h log m Hfw Hroot Hkeys) as (l1 & model & d & Hcm).
  pose proof Hkeys as (_ & _ & [cl Hcl] & _).
  unfold create_trainer.
  erewrite bind_ok by exact Hcm. cbn [fst snd].
  tstep. tstep.
  destruct (truthy h cl && ne_str (VDevice d) "xpu").
  - destruct (model_channels_last_returns model h l1 Hfw) as (l2 & model' & Hmc).
    erewrite bind_ok by exact Hmc.
    by apply create_trainer_tail_returns with (m := m).
  - tstep. by apply create_trainer_tail_returns with (m := m).
Qed.





Lemma call_constructor_run args h log l kw :
  ta_kwargs args = VRef l →
  h !! l = Some (ODict kw) →
  call_constructor args (CState h log)
  = (CState h log, match bind_arguments kw with Ok _ => Ok args | Raise e => Raise e end).
Proof.
  intros Hkw Hl. unfold call_constructor, bind, get, lift, ret. cbn [st_heap].
  rewrite Hkw, Hl. by destruct (bind_arguments kw) as [[]|e].
Qed.

(** With every call into the framework returning, [create_trainer] gets as
    far as the call of the constructor, and the call gets as far as the
    ['trainer'] section allows. *)
Lemma create_trainer_to_init_run root h log m tl tm :
  framework_returns →
  formatter_returns →
  h !! root = Some (ODict m) →
  keys_before_trainer m →
  m !! "trainer" = Some (VRef tl) →
  h !! tl = Some (ODict tm) →
  tl ≠ root →
  ∃ log' args,
    create_trainer_to_init (VRef root) (CState h log)
    = (CState (<[tl := ODict (without_popped tm)]> h) log',
       match bind_arguments (without_popped tm) with
       | Ok _ => Ok args
       | Raise e => Raise e
       end)
    ∧ ta_resume args = default VNone (tm !! "resume")
    ∧ ta_pre_trained args = default VNone (tm !! "pre_trained")
    ∧ ta_kwargs args = VRef tl
    ∧ ta_config args = VRef root
    ∧ Some (ta_device args) = m !! "device".
Proof.
  intros Hfw Hfmt Hroot Hkeys Htr Htm Hne.
  destruct (create_trainer_returns root h log m tl tm Hfw Hfmt Hroot Hkeys Htr Htm Hne)
    as (log' & args & Hrun & Hres & Hpre & Hkw & Hcfg & Hdev).
  exists log', args. split; [ | done ].
  unfold create_trainer_to_init.
  erewrite bind_ok by exact Hrun.
  apply (call_constructor_run args _ _ tl (without_popped tm));
    [ done | apply lookup_insert_eq ].
Qed.

End CreateTrainerMoreProofs.

(** X2: when the calls into the framework return, [create_trainer] takes
    the entries ['tensorboard_formatter'], ['resume'] and ['pre_trained']
    out of the ['trainer'] mapping of the configuration (lines 64-67): it
    passes the values of the last two (or [None]) as [resume] and
    [pre_trained], and the mapping that remains, with every other entry as
    it was, as the further keyword arguments.  Nothing else in the store is
    changed by the statements of [create_trainer]. *)
Theorem create_trainer_pops_keys `{Framework} root h log m tl tm :
  framework_returns →
  formatter_returns →
  h !! root = Some (ODict m) →
  keys_before_trainer m →
  m !! "trainer" = Some (VRef tl) →
  h !! tl = Some (ODict tm) →
  tl ≠ root →
  ∃ log' args h',
    create_trainer (VRef root) (CState h log) = (CState h' log', Ok args)
    ∧ ta_resume args = default VNone (tm !! "resume")
    ∧ ta_pre_trained args = default VNone (tm !! "pre_trained")
    ∧ ta_kwargs args = VRef tl
    ∧ h' = <[tl := ODict (without_popped tm)]> h
    ∧ (∀ k, k ∈ ["tensorboard_formatter"; "resume"; "pre_trained"] →
            without_popped tm !! k = None)
    ∧ (∀ k, k ∉ ["tensorboard_formatter"; "resume"; "pre_trained"] →
            without_popped tm !! k = tm !! k).
Proof.
  intros Hfw Hfmt Hroot Hkeys Htr Htm Hne.
  destruct (create_trainer_returns root h log m tl tm Hfw Hfmt Hroot Hkeys Htr Htm Hne)
    as (log' & args & Hrun & Hres & Hpre & Hkw & _).
  exists log', args, (<[tl := ODict (without_popped tm)]> h).
  split_and!; try done.
  - intros k Hk. rewrite without_popped_lookup. by rewrite bool_decide_eq_true_2.
  - intros k Hk. rewrite without_popped_lookup. by rewrite bool_decide_eq_false_2.
Qed.

Lemma toy_formatter_returns b : @formatter_returns (toy_framework b).
Proof. intros h v. by eexists. Qed.

Lemma create_trainer_pops_keys_witness :
  ∃ log' args h',
    @create_trainer (toy_framework false) (VRef 1%positive) (CState config_xpu_resume [])
    = (CState h' log', Ok args)
    ∧ @ta_resume (toy_framework false) args = VStr "runs/last_checkpoint.pytorch"
    ∧ @ta_pre_trained (toy_framework false) args = VNone
    ∧ h' !! 4%positive
      = Some (ODict {[ "checkpoint_dir" := VStr "checkpoints";
                       "max_num_epochs" := VInt 10 ]}).
Proof.
  destruct (@create_trainer_pops_keys (toy_framework false) 1%positive config_xpu_resume []
              {[ "model" := VRef 2%positive;
                 "optimizer" := VRef 3%positive;
                 "trainer" := VRef 4%positive;
                 "device" := VDevice (Device "xpu" "xpu");
                 "device_str" := VStr "xpu";
                 "channels_last" := VInt 1;
                 "precision" := VStr "float32" ]}
              4%positive
              {[ "checkpoint_dir" := VStr "checkpoints";
                 "resume" := VStr "runs/last_checkpoint.pytorch";
                 "max_num_epochs" := VInt 10 ]})
    as (log' & args & h' & Hrun & Hres & Hpre & _ & Hh & _).
  - apply toy_framework_returns.
  - apply toy_formatter_returns.
  - reflexivity.
  - unfold keys_before_trainer. repeat split; by eexists.
  - reflexivity.
  - reflexivity.
  - discriminate.
  - exists log', args, h'. split; [ exact Hrun | ].
    split; [ exact Hres | ]. split; [ exact Hpre | ].
    rewrite Hh. vm_compute. reflexivity.
Defined.

(** X3: [create_trainer] consumes those entries, so it does not compose
    with itself.  After a first call that got as far as the body of
    [__init__] (the statements of lines 20-67 ran and the arguments of the
    call of lines 69-80 were bound), a second call on the same
    configuration object gets as far (when the calls into the framework
    return), with [resume] and [pre_trained] both [None], whatever the file
    said, with the same further keyword arguments, and it leaves the store
    as the first call left it.  What the body of [__init__] then does is
    not part of the statement. *)
Theorem create_trainer_second_call `{Framework} root h log m tl tm s1 args1 log2 :
  framework_returns →
  formatter_returns →
  h !! root = Some (ODict m) →
  keys_before_trainer m →
  m !! "trainer" = Some (VRef tl) →
  h !! tl = Some (ODict tm) →
  tl ≠ root →
  create_trainer_to_init (VRef root) (CState h log) = (s1, Ok args1) →
  ∃ log3 args2,
    create_trainer_to_init (VRef root) (CState (st_heap s1) log2)
    = (CState (st_heap s1) log3, Ok args2)
    ∧ ta_resume args2 = VNone
    ∧ ta_pre_trained args2 = VNone
    ∧ ta_kwargs args2 = ta_kwargs args1.
Proof.
  intros Hfw Hfmt Hroot Hkeys Htr Htm Hne Hrun.
  destruct (create_trainer_to_init_run root h log m tl tm Hfw Hfmt Hroot Hkeys Htr Htm Hne)
    as (log' & args & Hrun' & _ & _ & Hkw & _).
  rewrite Hrun' in Hrun.
  destruct (bind_arguments (without_popped tm)) as [[]|e] eqn:Hbind; [ | done ].
  injection Hrun as <- <-. cbn [st_heap].
  destruct (create_trainer_to_init_run root (<[tl := ODict (without_popped tm)]> h) log2 m tl
              (without_popped tm) Hfw Hfmt)
    as (log3 & args2 & Hrun2 & Hres & Hpre & Hkw2 & _); try done.
  - by rewrite lookup_insert_ne.
  - apply lookup_insert_eq.
  - exists log3, args2.
    rewrite Hrun2, insert_insert_eq, without_popped_idemp, Hbind.
    split; [ done | ].
    rewrite Hres, Hpre, !without_popped_lookup, Hkw, Hkw2. done.
Qed.

Lemma create_trainer_second_call_witness :
  ∃ s1 args1 log3 args2,
    @create_trainer_to_init (toy_framework false) (VRef 1%positive)
      (CState config_xpu_trainer [])
    = (s1, Ok args1)
    ∧ @ta_resume (toy_framework false) args1 = VStr "runs/last_checkpoint.pytorch"
    ∧ @create_trainer_to_init (toy_framework false) (VRef 1%positive)
        (CState (st_heap s1) [])
      = (CState (st_heap s1) log3, Ok args2)
    ∧ @ta_resume (toy_framework false) args2 = VNone.
Proof.
  destruct (@create_trainer_to_init (toy_framework false) (VRef 1%positive)
              (CState config_xpu_trainer [])) as [s1 r1] eqn:Hrun.
  assert (Hr1 : ∃ args1, r1 = Ok args1
                         ∧ @ta_resume (toy_framework false) args1
                           = VStr "runs/last_checkpoint.pytorch").
  { vm_compute in Hrun. injection Hrun as _ <-. eexists. split; reflexivity. }
  destruct Hr1 as (args1 & -> & Hres1).
  destruct (@create_trainer_second_call (toy_framework false) 1%positive config_xpu_trainer []
              {[ "model" := VRef 2%positive;
                 "optimizer" := VRef 3%positive;
                 "trainer" := VRef 4%positive;
                 "device" := VDevice (Device "xpu" "xpu");
                 "device_str" := VStr "xpu";
                 "channels_last" := VInt 1;
                 "precision" := VStr "float32" ]}
              4%positive
              {[ "checkpoint_dir" := VStr "checkpoints";
                 "resume" := VStr "runs/last_checkpoint.pytorch";
                 "max_num_epochs" := VInt 10;
                 "max_num_iterations" := VInt 1000 ]}
              s1 args1 [])
    as (log3 & args2 & Hrun2 & Hres2 & _).
  - apply toy_framework_returns.
  - apply toy_formatter_returns.
  - reflexivity.
  - unfold keys_before_trainer. repeat split; by eexists.
  - reflexivity.
  - reflexivity.
  - discriminate.
  - exact Hrun.
  - exists s1, args1, log3, args2. split; [ reflexivity | ]. split; [ exact Hres1 | ].
    split; [ exact Hrun2 | exact Hres2 ].
Defined.



(** ** Events that a run of [train] never has *)

Section TrainTraceProofs.

Context `{Framework}.

Lemma report_events cfg totals w :
  ∃ evs, w_trace (report cfg totals w).1 = w_trace w ++ evs
         ∧ forallb around_loop evs = true.
Proof.
  destruct totals as [T C]. rewrite report_cases.
  repeat destruct (Qeq_bool _ _);
    first [ by (exists []; rewrite app_nil_r) | by eexists ].
Qed.

(** A property of single events that the events around the loop have and
    that the events of every pass through the loop body have holds of all
    the events of [train]. *)
Lemma train_trace_forall (Q : event → bool) (Inv : trainer → Prop) w :
  (∀ e, around_loop e = true → Q e = true) →
  (∀ t totals w',
     Inv (w_self w') →
     let r := iteration_spec (path_of (self_config (w_self w)))
                (last_iter_of (w_self w)) (datatype_of_config (w_self w)) t totals w' in
     Inv (w_self r.1) ∧ ∃ evs, w_trace r.1 = w_trace w' ++ evs ∧ forallb Q evs = true) →
  Inv (w_self w) →
  ∃ evs, w_trace (train w).1 = w_trace w ++ evs ∧ forallb Q evs = true.
Proof.
  intros Haround Hbody Hinv.
  assert (Happ : ∀ a b, forallb Q a = true → forallb Q b = true →
                        forallb Q (a ++ b) = true).
  { intros a b Ha Hb. rewrite forallb_app. by rewrite Ha, Hb. }
  assert (Hloop : ∀ w0, Inv (w_self w0) →
            let r := run_loop (path_of (self_config (w_self w))) (w_self w) w0 in
            ∃ evs, w_trace r.1 = w_trace w0 ++ evs ∧ forallb Q evs = true).
  { intros w0 Hinv0.
    pose proof (loop_invariant (λ evs, forallb Q evs = true) Inv
                  (path_of (self_config (w_self w)))
                  (last_iter_of (w_self w)) (datatype_of_config (w_self w))
                  eq_refl Happ Hbody (self_train_loader (w_self w)) (0%Q, 0)) as Hl.
    unfold run_loop.
    destruct (path_of (self_config (w_self w))); try by apply Hl.
    rewrite profiler_schedule_run. destruct (_ <? 0).
    { exists []. by rewrite app_nil_r. }
    rewrite with_context_run. cbn [fst snd].
    destruct (Hl (add_events [EProfilerEnter
                (if String.eqb (cfg_device_str (self_config (w_self w))) "cuda"
                 then ["CPU"; "CUDA"] else ["CPU"]) (profile_len_of (w_self w))] w0))
      as (_ & evs & Htr & HQ); [ done | ].
    eexists. unfold add_events at 1. cbn [w_trace]. rewrite Htr.
    unfold add_events. cbn [w_trace]. rewrite <- !app_assoc.
    split; [ reflexivity | ].
    apply Happ; [ simpl; by rewrite Haround | ].
    apply Happ; [ done | simpl; by rewrite Haround ]. }
  rewrite train_cases. cbv zeta.
  destruct (Hloop (add_events [EModelTrain] w) Hinv) as (evs & Htr & HQ).
  destruct (run_loop _ _ _) as [w1 [[T C]|e]]; cbn [fst snd] in *.
  - destruct (report_events (self_config (w_self w)) (T, C) w1) as (evs' & Htr' & Hevs').
    eexists. rewrite Htr', Htr. unfold add_events. cbn [w_trace].
    rewrite <- !app_assoc. split; [ reflexivity | ].
    apply Happ; [ simpl; by rewrite Haround | ].
    apply Happ; [ done | ].
    clear -Haround Hevs'. induction evs' as [|e evs' IH]; simpl in *; [ done | ].
    apply andb_true_iff in Hevs' as [He Hevs']. by rewrite Haround, IH.
  - eexists. rewrite Htr. unfold add_events. cbn [w_trace]. rewrite <- !app_assoc.
    split; [ reflexivity | ].
    apply Happ; [ simpl; by rewrite Haround | done ].
Qed.

Lemma path_of_not_xpu cfg :
  cfg_device_str cfg ≠ "xpu" → path_of cfg ≠ XpuProfile.
Proof.
  intros Hds%String.eqb_neq. unfold path_of. rewrite Hds.
  by destruct (cfg_profile cfg).
Qed.

Lemma conv_outcome_xpu cfg x :
  cfg_device_str cfg = "xpu" → conv_outcome cfg x = ([], Ok x).
Proof. intros Hds. unfold conv_outcome. rewrite Hds. simpl. by rewrite andb_false_r. Qed.

Lemma counted_events_forall (Q : event → bool) s last :
  (∀ i, Q (EPrintCounted i) = true) → forallb Q (counted_events s last) = true.
Proof.
  intros HQ. unfold counted_events. destruct (is_counted s last); simpl; [ | done ].
  by rewrite HQ.
Qed.

Lemma sync_of_not_conversion p ds : forallb not_input_conversion (sync_of p ds) = true.
Proof.
  destruct p; simpl; [ done | unfold sync_profile | unfold sync_else ];
    by repeat destruct (String.eqb _ _).
Qed.

(** On ['xpu'] no pass through a loop body converts its input. *)
Lemma iteration_no_conversion_on_xpu p last dt t totals w :
  cfg_device_str (self_config (w_self w)) = "xpu" →
  let r := iteration_spec p last dt t totals w in
  cfg_device_str (self_config (w_self r.1)) = "xpu"
  ∧ ∃ evs, w_trace r.1 = w_trace w ++ evs ∧ forallb not_input_conversion evs = true.
Proof.
  intros Hds r. subst r. split.
  { destruct (iteration_spec_self p last dt t totals w) as (-> & _). done. }
  unfold iteration_spec.
  destruct (split_outcome _ t) as [[[x y] wt]|e]; [ | by eexists ].
  destruct p.
  - eexists. split; [ reflexivity | ].
    unfold xpu_profile_events. rewrite !forallb_app.
    rewrite counted_events_forall by done. reflexivity.
  - rewrite conv_outcome_xpu by done. cbn [fst snd].
    eexists. split; [ reflexivity | ].
    unfold loop_events. rewrite !forallb_app, sync_of_not_conversion.
    rewrite counted_events_forall by done. reflexivity.
  - rewrite conv_outcome_xpu by done. cbn [fst snd].
    eexists. split; [ reflexivity | ].
    unfold loop_events. rewrite !forallb_app, sync_of_not_conversion.
    rewrite counted_events_forall by done. reflexivity.
Qed.

Lemma train_no_conversion_on_xpu w :
  cfg_device_str (self_config (w_self w)) = "xpu" →
  ∃ evs, w_trace (train w).1 = w_trace w ++ evs
         ∧ forallb not_input_conversion evs = true.
Proof.
  intros Hds.
  apply (train_trace_forall not_input_conversion
           (λ s, cfg_device_str (self_config s) = "xpu")); [ | | done ].
  - by intros [].
  - intros t totals w' Hinv. by apply iteration_no_conversion_on_xpu.
Qed.

Lemma model_channels_last_done model model' s :
  module_to_channels_last_3d model = Ok model' →
  model_channels_last model s
  = (CState (st_heap s) (st_log s ++ [Print "--- use NDHWC format" []]), Ok model').
Proof.
  intros Hconv. unfold model_channels_last, try_except_RuntimeError.
  erewrite bind_ok by (unfold lift; rewrite Hconv; reflexivity).
  reflexivity.
Qed.

(** The conversion site of [create_trainer] when the conversion returns. *)
Lemma create_trainer_conversion_done config s s1 model d cl model' :
  create_model config s = (s1, Ok (model, VDevice d)) →
  getitem config "channels_last" s1 = (s1, Ok cl) →
  truthy (st_heap s1) cl = true →
  module_to_channels_last_3d model = Ok model' →
  create_trainer config s
  = create_trainer_tail config model'
      (CState (st_heap s1) (st_log s1 ++ [Print "--- use NDHWC format" []])).
Proof.
  intros Hcm Hcl Hcond Hconv. unfold create_trainer.
  erewrite bind_ok by exact Hcm. cbn [fst snd].
  erewrite bind_ok by exact Hcl.
  erewrite bind_ok by reflexivity.
  rewrite Hcond. cbn [ne_str eq_str negb andb].
  erewrite bind_ok by (by apply model_channels_last_done).
  reflexivity.
Qed.

(** Without ['cuda'] or ['xpu'] as the device string, the loops
    synchronise nothing and enter the autocast of the CPU. *)
Lemma conv_events_unsynchronized cfg x :
  forallb cpu_unsynchronized (conv_outcome cfg x).1 = true.
Proof.
  unfold conv_outcome. destruct (_ && _); [ | done ].
  destruct (tensor_to_channels_last_3d x) as [x'|e]; [ done | ].
  by destruct (is_RuntimeError e).
Qed.

Lemma iteration_unsynchronized p last dt t totals w :
  p ≠ XpuProfile →
  cfg_device_str (self_config (w_self w)) ≠ "cuda" →
  cfg_device_str (self_config (w_self w)) ≠ "xpu" →
  let r := iteration_spec p last dt t totals w in
  self_config (w_self r.1) = self_config (w_self w)
  ∧ ∃ evs, w_trace r.1 = w_trace w ++ evs ∧ forallb cpu_unsynchronized evs = true.
Proof.
  intros Hp Hcuda%String.eqb_neq Hxpu%String.eqb_neq r. subst r. split.
  { by destruct (iteration_spec_self p last dt t totals w) as (-> & _). }
  unfold iteration_spec.
  destruct (split_outcome _ t) as [[[x y] wt]|e]; [ | by eexists ].
  pose proof (conv_events_unsynchronized (self_config (w_self w)) x) as Hcev.
  destruct p; [ done | | ];
    (destruct (conv_outcome _ x) as [cev [x'|e]]; cbn [fst snd] in *;
     [ | eexists; split; [ reflexivity | ]; rewrite !forallb_app, Hcev; reflexivity ];
     eexists; split; [ reflexivity | ];
     unfold loop_events, autocast_of, autocast_profile, autocast_else, sync_of,
       sync_profile, sync_else;
     rewrite Hcuda, ?Hxpu, !forallb_app, Hcev;
     rewrite counted_events_forall by done; reflexivity).
Qed.

Lemma train_unsynchronized w :
  cfg_device_str (self_config (w_self w)) ≠ "cuda" →
  cfg_device_str (self_config (w_self w)) ≠ "xpu" →
  ∃ evs, w_trace (train w).1 = w_trace w ++ evs
         ∧ forallb cpu_unsynchronized evs = true.
Proof.
  intros Hcuda Hxpu.
  apply (train_trace_forall cpu_unsynchronized
           (λ s, self_config s = self_config (w_self w))); [ | | done ].
  - by intros [].
  - intros t totals w' Hinv r. subst r.
    destruct (iteration_unsynchronized (path_of (self_config (w_self w)))
                (last_iter_of (w_self w)) (datatype_of_config (w_self w)) t totals w')
      as (Hcfg & Hevs); try (by rewrite Hinv); [ by apply path_of_not_xpu | ].
    split; [ by rewrite Hcfg | done ].
Qed.

End TrainTraceProofs.

(** X5: the test of line 33 compares the [torch.device] of the
    configuration with a string, so it never excludes a device: when
    ['channels_last'] is set, [create_trainer] converts the model to
    channels-last on every device, ['xpu'] included.  The loops of [train]
    test the device string instead: with [device_str = 'xpu'] no run of
    [train] converts an input. *)
Theorem model_converted_on_xpu_inputs_not `{Framework} :
  (∀ config s s1 model d cl model',
     create_model config s = (s1, Ok (model, VDevice d)) →
     getitem config "channels_last" s1 = (s1, Ok cl) →
     truthy (st_heap s1) cl = true →
     module_to_channels_last_3d model = Ok model' →
     create_trainer config s
     = create_trainer_tail config model'
         (CState (st_heap s1) (st_log s1 ++ [Print "--- use NDHWC format" []])))
  ∧ (∀ w : world,
       cfg_device_str (self_config (w_self w)) = "xpu" →
       ∃ evs, w_trace (train w).1 = w_trace w ++ evs
              ∧ forallb not_input_conversion evs = true).
Proof.
  split.
  - intros. by eapply create_trainer_conversion_done.
  - apply train_no_conversion_on_xpu.
Qed.

Lemma model_converted_on_xpu_inputs_not_witness :
  (∃ s' args,
     @create_trainer (toy_framework false) (VRef 1%positive) (CState config_xpu_resume [])
     = (s', Ok args)
     ∧ In (Print "--- use NDHWC format" []) (st_log s'))
  ∧ ∃ evs,
      w_trace (train (toy_world false (toy_config false "xpu" 1))).1 = [] ++ evs
      ∧ forallb not_input_conversion evs = true.
Proof.
  destruct (@model_converted_on_xpu_inputs_not (toy_framework false)) as [Hmodel Hinput].
  split.
  - pose proof (Hmodel (VRef 1%positive) (CState config_xpu_resume [])
                  (CState config_xpu_resume
                     [LogInfo "Sending the model to '{}'" [VDevice (Device "xpu" "xpu")]])
                  0 (Device "xpu" "xpu") (VInt 1) 0) as Hrun.
    rewrite Hrun.
    + eexists _, _. split; [ vm_compute; reflexivity | ]. simpl. auto.
    + vm_compute. reflexivity.
    + vm_compute. reflexivity.
    + reflexivity.
    + reflexivity.
  - apply (Hinput (toy_world false (toy_config false "xpu" 1))). reflexivity.
Defined.

(** X6: with a device string other than ['cuda'] and ['xpu'] (['cpu'], and
    also ['cuda:0'] or ['mps']), no run of [train] synchronises a device
    before it reads the clock, and every autocast it enters is that of the
    CPU: lines 285, 301, 334 and 353 compare the string with ['cuda'] and
    ['xpu'] exactly. *)
Theorem other_device_cpu_autocast_no_synchronize `{Framework} (w : world) :
  cfg_device_str (self_config (w_self w)) ≠ "cuda" →
  cfg_device_str (self_config (w_self w)) ≠ "xpu" →
  ∃ evs, w_trace (train w).1 = w_trace w ++ evs
         ∧ forallb cpu_unsynchronized evs = true.
Proof. apply train_unsynchronized. Qed.

Lemma other_device_cpu_autocast_no_synchronize_witness :
  ∃ evs,
    w_trace (train (toy_world false (toy_config true "cuda:0" 1))).1 = [] ++ evs
    ∧ forallb cpu_unsynchronized evs = true.
Proof.
  apply (@other_device_cpu_autocast_no_synchronize (toy_framework false)
           (toy_world false (toy_config true "cuda:0" 1))).
  - discriminate.
  - discriminate.
Defined.

(** ** The constructor and [fit] *)

(** X7: in the constructor [resume] takes precedence: with [resume] given,
    [pre_trained] is not looked at, and a trainer that is returned has the
    counters and the best score of the loaded checkpoint and keeps its
    checkpoints in the directory of the resumed file.  With [pre_trained]
    alone the weights are loaded, the counters stay at 0 and the optimizer
    is the one passed in, but [checkpoint_dir] is replaced by the directory
    of the pre-trained file all the same.  What [load_checkpoint] raises,
    the constructor raises. *)
Theorem init_resume_before_pre_trained `{Framework} (a : init_args) tr f :
  i_tensorboard_formatter a = Some f →
  (∀ r, i_resume a = Some r →
     UNet3DTrainer_init a tr = UNet3DTrainer_init (with_pre_trained None a) tr
     ∧ (∀ e, load_checkpoint r (i_model a) (Some (i_optimizer a)) = Raise e →
             (UNet3DTrainer_init a tr).2 = Raise e)
     ∧ (∀ st m o, load_checkpoint r (i_model a) (Some (i_optimizer a)) = Ok (st, m, o) →
          ∃ tr' s,
            UNet3DTrainer_init a tr = (tr', Ok s)
            ∧ self_num_epochs s = ls_num_epochs st
            ∧ self_num_iterations s = ls_num_iterations st
            ∧ self_best_eval_score s = ls_best_eval_score st
            ∧ self_checkpoint_dir s = os_path_split_head r
            ∧ self_model s = m))
  ∧ (∀ p, i_resume a = None → i_pre_trained a = Some p →
       (∀ e, load_checkpoint p (i_model a) None = Raise e →
             (UNet3DTrainer_init a tr).2 = Raise e)
       ∧ (∀ st m o, load_checkpoint p (i_model a) None = Ok (st, m, o) →
            ∃ tr' s,
              UNet3DTrainer_init a tr = (tr', Ok s)
              ∧ self_num_epochs s = 0
              ∧ self_num_iterations s = 0
              ∧ self_optimizer s = i_optimizer a
              ∧ self_checkpoint_dir s = os_path_split_head p
              ∧ self_model s = m)).
Proof.
  intros Hf. split.
  - intros r Hr. unfold UNet3DTrainer_init. rewrite Hf, Hr. cbn [with_pre_trained
      i_resume i_pre_trained i_tensorboard_formatter i_model i_optimizer i_lr_scheduler
      i_loss_criterion i_eval_criterion i_device i_train_loader i_checkpoint_dir
      i_max_num_epochs i_max_num_iterations i_eval_score_higher_is_better i_config].
    rewrite Hf, Hr. split; [ reflexivity | ].
    unfold bind, modify, lift, ret. cbn. split.
    + intros e ->. reflexivity.
    + intros st m o ->. eexists _, _. split; [ reflexivity | ]. by cbn.
  - intros p Hr Hp. unfold UNet3DTrainer_init. rewrite Hf, Hr, Hp.
    unfold bind, modify, lift, ret. cbn. split.
    + intros e ->. reflexivity.
    + intros st m o ->. eexists _, _. split; [ reflexivity | ]. by cbn.
Qed.

Lemma init_resume_before_pre_trained_witness :
  ∃ tr' s,
    @UNet3DTrainer_init (toy_framework false)
      (@InitArgs (toy_framework false) 1 0 tt tt tt (Device "cpu" "cpu")
         [[1; 2]] "checkpoints" 10 1000 true (Some tt)
         (Some "runs/last_checkpoint.pytorch") (Some "zoo/best_checkpoint.pytorch")
         (toy_config false "cpu" 1)) []
    = (tr', Ok s)
    ∧ @self_checkpoint_dir (toy_framework false) s = "runs/last_checkpoint.pytorch"
    ∧ @self_best_eval_score (toy_framework false) s = Finite 0.
Proof.
  destruct (@init_resume_before_pre_trained (toy_framework false)
              (@InitArgs (toy_framework false) 1 0 tt tt tt (Device "cpu" "cpu")
                 [[1; 2]] "checkpoints" 10 1000 true (Some tt)
                 (Some "runs/last_checkpoint.pytorch") (Some "zoo/best_checkpoint.pytorch")
                 (toy_config false "cpu" 1)) [] tt eq_refl) as [Hres _].
  destruct (Hres "runs/last_checkpoint.pytorch" eq_refl) as (_ & _ & Hok).
  destruct (Hok (LoadedState (Finite 0) 0 0) 1 (Some 0) eq_refl)
    as (tr' & s & Hrun & _ & _ & Hbest & Hdir & _).
  exists tr', s. split; [ exact Hrun | ]. split; [ exact Hdir | exact Hbest ].
Defined.

(** X8: when no epoch is left ([num_epochs >= max_num_epochs], as after
    resuming from the checkpoint of the last epoch), [fit] does not call
    [train]: it logs that the maximum number of epochs is reached and
    returns, and the trainer, the clock and the checkpoints are as before. *)
Theorem fit_no_epoch_left `{Framework} (w : world) :
  self_max_num_epochs (w_self w) ≤ self_num_epochs (w_self w) →
  fit w
  = (add_events [ELogInfo "Reached maximum number of epochs. Finishing training..."] w,
     Ok tt).
Proof.
  intros Hle. unfold fit.
  rewrite bind_ok with (s' := w) (a := w_self w) by reflexivity.
  replace (Z.to_nat (self_max_num_epochs (w_self w) - self_num_epochs (w_self w)))
    with 0%nat by lia.
  reflexivity.
Qed.

Lemma fit_no_epoch_left_witness :
  @fit (toy_framework false)
    (@World (toy_framework false)
       (@Trainer (toy_framework false) 1 0 tt tt tt (Device "cpu" "cpu") [[1; 2]]
          "checkpoints" 10 1000 true (toy_config false "cpu" 1) NegInf tt 0 10)
       0 [] ∅)
  = (@World (toy_framework false)
       (@Trainer (toy_framework false) 1 0 tt tt tt (Device "cpu" "cpu") [[1; 2]]
          "checkpoints" 10 1000 true (toy_config false "cpu" 1) NegInf tt 0 10)
       0 [@ELogInfo (toy_framework false)
            "Reached maximum number of epochs. Finishing training..."] ∅,
     Ok tt).
Proof.
  apply (@fit_no_epoch_left (toy_framework false)). simpl. lia.
Defined.

(** ** What a run of [train] keeps *)

Section TrainKeepsProofs.

Context `{Framework}.

Lemma trained_from_refl s : trained_from s s.
Proof. unfold trained_from. by destruct s. Qed.

Lemma trained_from_step s s' mo i :
  trained_from s s' →
  trained_from s (set_num_iterations i (set_model_optimizer mo s')).
Proof.
  unfold trained_from. intros Hs. destruct s, s', mo. simpl in *.
  by injection Hs as -> -> -> -> -> -> -> -> -> -> -> -> ->.
Qed.

Lemma trained_from_stepped s s' mo :
  trained_from s s' → trained_from s (set_model_optimizer mo s').
Proof.
  unfold trained_from. intros Hs. destruct s, s', mo. simpl in *.
  by injection Hs as -> -> -> -> -> -> -> -> -> -> -> -> ->.
Qed.

Lemma trained_from_advanced s s' : trained_from s s' → trained_from s (advanced s').
Proof.
  intros Hs. unfold advanced. destruct (is_last s'); [ done | ].
  unfold trained_from in *. destruct s, s'. simpl in *.
  by injection Hs as -> -> -> -> -> -> -> -> -> -> -> -> ->.
Qed.

Lemma trained_from_config s s' : trained_from s s' → self_config s' = self_config s.
Proof. unfold trained_from. intros ->. reflexivity. Qed.

Lemma trained_from_loader s s' :
  trained_from s s' → self_train_loader s' = self_train_loader s.
Proof. unfold trained_from. intros ->. reflexivity. Qed.

Lemma trained_from_device s s' : trained_from s s' → self_device s' = self_device s.
Proof. unfold trained_from. intros ->. reflexivity. Qed.

(** What a pass through a loop body leaves of the trainer, and where it
    leaves [num_iterations]. *)
Lemma iteration_spec_keeps p last dt t totals w s i0 :
  let N := cfg_num_iter (self_config s) in
  trained_from s (w_self w) →
  i0 ≤ self_num_iterations (w_self w) ≤ Z.max i0 N →
  let s' := w_self (iteration_spec p last dt t totals w).1 in
  trained_from s s' ∧ i0 ≤ self_num_iterations s' ≤ Z.max i0 N.
Proof.
  intros N Hs Hi. pose proof (trained_from_config _ _ Hs) as Hcfg.
  assert (Hadv : ∀ mo,
            let s1 := advanced (set_model_optimizer mo (w_self w)) in
            trained_from s s1 ∧ i0 ≤ self_num_iterations s1 ≤ Z.max i0 N).
  { intros mo s1. subst s1. split.
    - by apply trained_from_advanced, trained_from_stepped.
    - unfold advanced, is_last. simpl. rewrite Hcfg. fold N.
      destruct (Z.leb_spec N (self_num_iterations (w_self w))); simpl; lia. }
  unfold iteration_spec.
  destruct (split_outcome _ t) as [[[x y] wt]|e]; [ | done ].
  destruct p.
  - simpl. split; [ by apply trained_from_stepped | done ].
  - destruct (conv_outcome _ x) as [cev [x'|e]]; cbn [fst snd]; [ apply Hadv | done ].
  - destruct (conv_outcome _ x) as [cev [x'|e]]; cbn [fst snd]; [ apply Hadv | done ].
Qed.

Lemma loop_files p last dt bs totals w :
  w_files (for_each_batch (iteration_spec p last dt) bs totals w).1 = w_files w.
Proof.
  revert totals w. induction bs as [|t bs IH]; intros totals w; [ done | ].
  simpl. unfold bind.
  pose proof (iteration_spec_files_ticks p last dt t totals w) as Hf.
  destruct (iteration_spec p last dt t totals w) as [w1 [[tot brk]|e]]; simpl in *;
    [ | done ].
  destruct brk; simpl; [ done | ]. by rewrite IH.
Qed.

Lemma run_loop_files p s w : w_files (run_loop p s w).1 = w_files w.
Proof.
  unfold run_loop. destruct p; try apply loop_files.
  rewrite profiler_schedule_run. destruct (_ <? 0); [ done | ].
  rewrite with_context_run. cbn [fst]. unfold add_events at 1. cbn [w_files].
  by rewrite loop_files.
Qed.

Lemma train_files w : w_files (train w).1 = w_files w.
Proof.
  rewrite train_cases. cbv zeta.
  pose proof (run_loop_files (path_of (self_config (w_self w))) (w_self w)
                (add_events [EModelTrain] w)) as Hf.
  destruct (run_loop _ _ _) as [w1 [totals|e]]; cbn [fst snd] in *; [ | done ].
  destruct (report_run (self_config (w_self w)) totals w1) as (_ & _ & -> & _).
  done.
Qed.

Lemma train_trained_from w :
  let s := w_self w in
  let s' := w_self (train w).1 in
  trained_from s s'
  ∧ self_num_iterations s ≤ self_num_iterations s'
    ≤ Z.max (self_num_iterations s) (cfg_num_iter (self_config s)).
Proof.
  intros s s'. subst s'.
  destruct (train_invariant (λ _, True)
              (λ s', trained_from s s'
                     ∧ self_num_iterations s ≤ self_num_iterations s'
                       ≤ Z.max (self_num_iterations s) (cfg_num_iter (self_config s))) w)
    as (Hinv & _); try done.
  - intros t totals w' [Hs Hi] r. subst r. split.
    + by apply iteration_spec_keeps.
    + destruct (iteration_spec_trace (path_of (self_config (w_self w)))
                  (last_iter_of (w_self w)) (datatype_of_config (w_self w)) t totals w')
        as [evs Hevs]. eauto.
  - subst s. split; [ apply trained_from_refl | lia ].
Qed.

(** ** Runs of [train] in which no iteration counts *)

(** When no iteration can count, the totals leave the loop as they
    entered it. *)
Lemma loop_none_counts p last dt cfg :
  ∀ bs totals w tot,
    self_config (w_self w) = cfg →
    last ≤ cfg_num_warmup cfg ∨ last ≤ self_num_iterations (w_self w) →
    (for_each_batch (iteration_spec p last dt) bs totals w).2 = Ok tot →
    tot = totals.
Proof.
  induction bs as [|t bs IH]; intros totals w tot Hcfg Hno; simpl.
  - by intros [= ->].
  - unfold bind.
    assert (Hc : counted_totals (w_self w) last (duration_at (w_ticks w)) totals = totals).
    { unfold counted_totals, is_counted. rewrite Hcfg.
      destruct (Z.leb_spec (cfg_num_warmup cfg) (self_num_iterations (w_self w)));
        destruct (Z.ltb_spec (self_num_iterations (w_self w)) last); simpl; try done.
      lia. }
    assert (Hnext : ∀ mo,
              let s1 := advanced (set_model_optimizer mo (w_self w)) in
              self_config s1 = cfg
              ∧ (last ≤ cfg_num_warmup cfg ∨ last ≤ self_num_iterations s1)).
    { intros mo s1. subst s1. rewrite self_config_advanced. split; [ done | ].
      destruct Hno as [? | ?]; [ by left | right ].
      unfold advanced. destruct (is_last _); simpl; lia. }
    unfold iteration_spec.
    destruct (split_outcome _ t) as [[[x y] wt]|e]; [ | done ].
    destruct p; [ done | | ];
      (destruct (conv_outcome _ x) as [cev [x'|e]]; cbn [fst snd]; [ | done ];
       rewrite Hc; destruct (is_last (w_self w)); cbn [fst snd];
       [ by intros [= ->] | ];
       apply IH; cbn [w_self]; apply Hnext).
Qed.

(** On the generic-profiled and on the unprofiled path the loop returns
    when every batch is well-formed. *)
Lemma loop_returns p last dt d cfg :
  p ≠ XpuProfile →
  ∀ bs totals w,
    self_config (w_self w) = cfg →
    self_device (w_self w) = d →
    forallb (batch_ok d cfg) bs = true →
    ∃ tot, (for_each_batch (iteration_spec p last dt) bs totals w).2 = Ok tot.
Proof.
  intros Hp. induction bs as [|t bs IH]; intros totals w Hcfg Hd Hok; simpl.
  - by eexists.
  - apply andb_true_iff in Hok as [Ht Hok]. unfold bind.
    destruct (iteration_spec_self p last dt t totals w) as (Hcfg1 & _ & Hd1 & _).
    unfold batch_ok in Ht. unfold iteration_spec in *. rewrite Hd, Hcfg in *.
    destruct (split_outcome d t) as [[[x y] wt]|e]; [ | done ].
    destruct p; [ done | | ];
      (destruct (conv_outcome cfg x) as [cev [x'|e]]; cbn [fst snd] in *; [ | done ];
       destruct (is_last (w_self w)); cbn [fst snd]; [ by eexists | ];
       apply IH; [ by rewrite Hcfg1 | by rewrite Hd1 | done ]).
Qed.

Lemma schedule_accepted p s :
  (p = Profile → 0 ≤ cfg_num_iter (self_config s)) → schedule_refused p s = false.
Proof.
  intros Hn. destruct p; try done. simpl. apply profile_len_nonneg. by apply Hn.
Qed.

Lemma run_loop_result p s w :
  (run_loop p s w).2
  = if schedule_refused p s
    then Raise (Exn AssertionError "Invalid profiler schedule arguments")
    else
      (for_each_batch (iteration_spec p (last_iter_of s) (datatype_of_config s))
         (self_train_loader s) (0%Q, 0)
         (match p with
          | Profile =>
              add_events
                [EProfilerEnter
                   (if String.eqb (cfg_device_str (self_config s)) "cuda"
                    then ["CPU"; "CUDA"] else ["CPU"])
                   (profile_len_of s)] w
          | _ => w
          end)).2.
Proof.
  unfold run_loop, schedule_refused. destruct p; try done.
  rewrite profiler_schedule_run. destruct (_ <? 0); [ done | ].
  by rewrite with_context_run.
Qed.

Lemma run_loop_self p s w :
  schedule_refused p s = false →
  w_self (run_loop p s w).1
  = w_self (for_each_batch (iteration_spec p (last_iter_of s) (datatype_of_config s))
              (self_train_loader s) (0%Q, 0)
              (match p with
               | Profile =>
                   add_events
                     [EProfilerEnter
                        (if String.eqb (cfg_device_str (self_config s)) "cuda"
                         then ["CPU"; "CUDA"] else ["CPU"])
                        (profile_len_of s)] w
               | _ => w
               end)).1.
Proof.
  unfold run_loop, schedule_refused. destruct p; try done.
  rewrite profiler_schedule_run. intros ->. by rewrite with_context_run.
Qed.

Lemma report_nothing_counted cfg T w :
  report cfg (T, 0) w = (w, Raise (Exn ZeroDivisionError "division by zero")).
Proof. by rewrite report_cases. Qed.

(** On the generic-profiled path with a negative [num_iter], [train] raises
    before its loop. *)
Lemma train_schedule_refused w :
  path_of (self_config (w_self w)) = Profile →
  cfg_num_iter (self_config (w_self w)) < 0 →
  (train w).2 = Raise (Exn AssertionError "Invalid profiler schedule arguments")
  ∧ w_trace (train w).1 = w_trace w ++ [EModelTrain].
Proof.
  intros Hp Hn. rewrite train_cases. cbv zeta. rewrite Hp. unfold run_loop.
  by rewrite profiler_schedule_run, profile_len_neg.
Qed.

Lemma train_none_counts w :
  none_counts (w_self w) →
  (∃ e, (train w).2 = Raise e)
  ∧ (self_train_loader (w_self w) = [] ∨ path_of (self_config (w_self w)) ≠ XpuProfile →
     (path_of (self_config (w_self w)) = Profile →
      0 ≤ cfg_num_iter (self_config (w_self w))) →
     forallb (batch_ok (self_device (w_self w)) (self_config (w_self w)))
       (self_train_loader (w_self w)) = true →
     (train w).2 = Raise (Exn ZeroDivisionError "division by zero")).
Proof.
  intros Hnone. rewrite train_cases. cbv zeta.
  set (s := w_self w) in *. set (p := path_of (self_config s)).
  set (w0 := match p with
             | Profile =>
                 add_events
                   [EProfilerEnter
                      (if String.eqb (cfg_device_str (self_config s)) "cuda"
                       then ["CPU"; "CUDA"] else ["CPU"])
                      (profile_len_of s)] (add_events [EModelTrain] w)
             | _ => add_events [EModelTrain] w
             end).
  assert (Hw0 : w_self w0 = s) by (subst w0; by destruct p).
  assert (Htot : ∀ tot,
            (run_loop p s (add_events [EModelTrain] w)).2 = Ok tot → tot = (0%Q, 0)).
  { intros tot. rewrite run_loop_result.
    destruct (schedule_refused p s); [ done | ]. fold w0.
    destruct Hnone as [Hempty | Hno].
    - rewrite Hempty. simpl. by intros [= ->].
    - apply loop_none_counts with (cfg := self_config s); [ by rewrite Hw0 | ].
      rewrite Hw0. exact Hno. }
  split.
  - destruct (run_loop p s (add_events [EModelTrain] w)) as [w1 [tot|e]];
      cbn [fst snd] in *; [ | by eexists ].
    rewrite (Htot tot eq_refl), report_nothing_counted. by eexists.
  - intros Hpath Hni Hok.
    assert (Hret : ∃ tot, (run_loop p s (add_events [EModelTrain] w)).2 = Ok tot).
    { rewrite run_loop_result, (schedule_accepted p s Hni). fold w0.
      destruct Hpath as [Hempty | Hp].
      - rewrite Hempty. simpl. by eexists.
      - apply loop_returns with (d := self_device s) (cfg := self_config s);
          [ done | by rewrite Hw0 | by rewrite Hw0 | done ]. }
    destruct Hret as [tot Hret].
    destruct (run_loop p s (add_events [EModelTrain] w)) as [w1 r]; cbn [fst snd] in *.
    subst r. rewrite (Htot tot eq_refl), report_nothing_counted. done.
Qed.

(** ** A second run of [train] *)

Lemma advanced_stepped_iterations s mo :
  self_num_iterations (advanced (set_model_optimizer mo s))
  = if is_last s then self_num_iterations s else self_num_iterations s + 1.
Proof. unfold advanced, is_last. simpl. by destruct (_ <=? _). Qed.

Lemma advanced_stepped_config s mo :
  self_config (advanced (set_model_optimizer mo s)) = self_config s.
Proof. by rewrite self_config_advanced. Qed.

(** A loop that returns has reached [num_iter] or has used up its
    batches. *)
Lemma loop_reach p last dt :
  ∀ bs totals w tot,
    let r := for_each_batch (iteration_spec p last dt) bs totals w in
    r.2 = Ok tot →
    cfg_num_iter (self_config (w_self w)) ≤ self_num_iterations (w_self r.1)
    ∨ self_num_iterations (w_self r.1)
      = self_num_iterations (w_self w) + Z.of_nat (length bs).
Proof.
  induction bs as [|t bs IH]; intros totals w tot r; subst r; simpl.
  - intros _. right. lia.
  - unfold bind, iteration_spec.
    destruct (split_outcome _ t) as [[[x y] wt]|e]; [ | done ].
    destruct p; [ done | | ];
      (destruct (conv_outcome _ x) as [cev [x'|e]]; cbn [fst snd]; [ | done ];
       unfold stepped;
       destruct (is_last (w_self w)) eqn:Hlast; cbn [fst snd];
       [ intros _; left; unfold ret; cbn [fst w_self];
         rewrite advanced_stepped_iterations, Hlast; by apply Z.leb_le
       | intros Hr; destruct (IH _ _ _ Hr) as [Hge | Heq];
         [ left; cbn [w_self] in Hge; by rewrite advanced_stepped_config in Hge
         | right; etransitivity; [ exact Heq | ]; cbn [w_self];
           rewrite advanced_stepped_iterations, Hlast; lia ] ]).
Qed.

Lemma train_twice w b :
  0 ≤ self_num_iterations (w_self w) →
  (train w).2 = Ok b →
  ∃ e, (train (train w).1).2 = Raise e.
Proof.
  intros Hi Hok.
  destruct (train_trained_from w) as [Hfrom _].
  apply train_none_counts. right. right.
  unfold last_iter_of.
  rewrite (trained_from_loader _ _ Hfrom), (trained_from_config _ _ Hfrom).
  assert (Hreach :
    cfg_num_iter (self_config (w_self w)) ≤ self_num_iterations (w_self (train w).1)
    ∨ self_num_iterations (w_self (train w).1)
      = self_num_iterations (w_self w)
        + Z.of_nat (length (self_train_loader (w_self w)))); [ | lia ].
  revert Hok. rewrite train_cases. cbv zeta.
  set (s := w_self w). set (p := path_of (self_config s)).
  pose proof (run_loop_result p s (add_events [EModelTrain] w)) as Hres.
  pose proof (run_loop_self p s (add_events [EModelTrain] w)) as Hself.
  destruct (run_loop p s (add_events [EModelTrain] w)) as [w1 [tot|e]];
    cbn [fst snd] in *; [ | done ].
  intros _.
  destruct (schedule_refused p s); [ done | ].
  specialize (Hself eq_refl).
  destruct (report_run (self_config s) tot w1) as (-> & _).
  rewrite Hself.
  destruct (loop_reach p (last_iter_of s) (datatype_of_config s) (self_train_loader s)
              (0%Q, 0) _ tot (eq_sym Hres)) as [Hge | Heq].
  - left. by destruct p.
  - right. rewrite Heq. by destruct p.
Qed.

End TrainKeepsProofs.

(** X9: a run of [train], however it ends, writes no checkpoint, and of the
    trainer it changes the model, the optimizer and [num_iterations] at
    most: configuration, loaders, limits, [num_epochs], [checkpoint_dir]
    and [best_eval_score] are as before.  [num_iterations] does not
    decrease and does not pass [num_iter] (unless it was beyond it). *)
Theorem train_keeps_trainer `{Framework} (w : world) :
  let s := w_self w in
  let s' := w_self (train w).1 in
  w_files (train w).1 = w_files w
  ∧ trained_from s s'
  ∧ self_num_epochs s' = self_num_epochs s
  ∧ self_best_eval_score s' = self_best_eval_score s
  ∧ self_checkpoint_dir s' = self_checkpoint_dir s
  ∧ self_num_iterations s ≤ self_num_iterations s'
    ≤ Z.max (self_num_iterations s) (cfg_num_iter (self_config s)).
Proof.
  intros s s'. destruct (train_trained_from w) as [Hfrom Hi].
  split; [ apply train_files | ]. split; [ exact Hfrom | ].
  subst s s'. unfold trained_from in Hfrom. split_and!.
  - exact (f_equal self_num_epochs Hfrom).
  - exact (f_equal self_best_eval_score Hfrom).
  - exact (f_equal self_checkpoint_dir Hfrom).
  - apply Hi.
  - apply Hi.
Qed.

(** X10: a run of [train] in which no iteration can count does not return:
    with an empty loader, with [num_warmup >= last_iter] (that is, with at
    most [num_warmup + 1] batches or [num_iter <= num_warmup + 1]), or when it
    starts with [num_iterations >= last_iter], [total_count] is still 0 at
    line 369.  When the loop is entered and completes (the loader is empty,
    or the path is not the accelerator-profiled one and the batches are
    well-formed; on the generic-profiled path also [num_iter >= 0], so that
    the profiler accepts its schedule) what it raises is the
    [ZeroDivisionError] of that line.  On the generic-profiled path with
    [num_iter < 0] it raises the [AssertionError] of
    [torch.profiler.schedule] instead, before the first iteration. *)
Theorem train_without_counted_iteration `{Framework} (w : world) :
  none_counts (w_self w) →
  (∃ e, (train w).2 = Raise e)
  ∧ (self_train_loader (w_self w) = [] ∨ path_of (self_config (w_self w)) ≠ XpuProfile →
     (path_of (self_config (w_self w)) = Profile →
      0 ≤ cfg_num_iter (self_config (w_self w))) →
     forallb (batch_ok (self_device (w_self w)) (self_config (w_self w)))
       (self_train_loader (w_self w)) = true →
     (train w).2 = Raise (Exn ZeroDivisionError "division by zero"))
  ∧ (path_of (self_config (w_self w)) = Profile →
     cfg_num_iter (self_config (w_self w)) < 0 →
     (train w).2 = Raise (Exn AssertionError "Invalid profiler schedule arguments")
     ∧ w_trace (train w).1 = w_trace w ++ [EModelTrain]).
Proof.
  intros Hnone. destruct (train_none_counts w Hnone) as [Hraise Hzero].
  split; [ exact Hraise | ]. split; [ exact Hzero | ].
  apply train_schedule_refused.
Qed.

Lemma train_without_counted_iteration_witness :
  (train (toy_world_of 0 (toy_config true "xpu" 1))).2
  = Raise (Exn ZeroDivisionError "division by zero")
  ∧ (train (toy_world_of 1 (toy_config true "cpu" 1))).2
    = Raise (Exn ZeroDivisionError "division by zero")
  ∧ (train (toy_world_of 1 (toy_config_negative true "cpu"))).2
    = Raise (Exn AssertionError "Invalid profiler schedule arguments").
Proof.
  split_and!.
  - apply (@train_without_counted_iteration (toy_framework false)
             (toy_world_of 0 (toy_config true "xpu" 1))).
    + left. reflexivity.
    + left. reflexivity.
    + discriminate.
    + reflexivity.
  - apply (@train_without_counted_iteration (toy_framework false)
             (toy_world_of 1 (toy_config true "cpu" 1))).
    + right. left. vm_compute. discriminate.
    + right. discriminate.
    + intros _. vm_compute. discriminate.
    + reflexivity.
  - apply (@train_without_counted_iteration (toy_framework false)
             (toy_world_of 1 (toy_config_negative true "cpu"))).
    + right. left. vm_compute. discriminate.
    + reflexivity.
    + reflexivity.
Defined.

(** X11: [train] cannot return twice in a row: after a run that returned
    (from [num_iterations >= 0]), [num_iterations] has reached [num_iter] or
    the number of batches, so in a second run on the same trainer no
    iteration counts and the run raises. *)
Theorem train_twice_raises `{Framework} (w : world) b :
  0 ≤ self_num_iterations (w_self w) →
  (train w).2 = Ok b →
  ∃ e, (train (train w).1).2 = Raise e.
Proof. apply train_twice. Qed.

Lemma train_twice_raises_witness :
  (train (toy_world false (toy_config false "cpu" 1))).2 = Ok true
  ∧ ∃ e, (train (train (toy_world false (toy_config false "cpu" 1))).1).2 = Raise e.
Proof.
  assert (Hok : (train (toy_world false (toy_config false "cpu" 1))).2 = Ok true)
    by (vm_compute; reflexivity).
  split; [ exact Hok | ].
  apply (@train_twice_raises (toy_framework false)
           (toy_world false (toy_config false "cpu" 1)) true); [ | exact Hok ].
  simpl. lia.
Defined.

(** ** The limits [max_num_iterations] and [max_num_epochs] *)

Section LimitsProofs.

Context `{Framework}.

Variables max_iterations max_epochs : Z.

Lemma relog_conv cfg x :
  map (relog max_iterations max_epochs) (conv_outcome cfg x).1 = (conv_outcome cfg x).1.
Proof.
  unfold conv_outcome. destruct (_ && _); [ | done ].
  destruct (tensor_to_channels_last_3d x) as [x'|e]; [ done | ].
  by destruct (is_RuntimeError e).
Qed.

Lemma relog_sync p ds :
  map (relog max_iterations max_epochs) (sync_of p ds) = sync_of p ds.
Proof.
  destruct p; simpl; [ done | unfold sync_profile | unfold sync_else ];
    by repeat destruct (String.eqb _ _).
Qed.

Lemma relog_counted s last :
  map (relog max_iterations max_epochs) (counted_events s last) = counted_events s last.
Proof. unfold counted_events. by destruct (is_counted s last). Qed.

Lemma advanced_with_limits s :
  advanced (with_limits max_iterations max_epochs s)
  = with_limits max_iterations max_epochs (advanced s).
Proof. unfold advanced, is_last. simpl. by destruct (_ <=? _). Qed.

(** A pass through a loop body reads the limits for its log line only. *)
Lemma iteration_ignores_limits p last dt t totals wl w :
  same_but_limits max_iterations max_epochs wl w →
  let rl := iteration_spec p last dt t totals wl in
  let r := iteration_spec p last dt t totals w in
  rl.2 = r.2
  ∧ same_but_limits max_iterations max_epochs rl.1 r.1
  ∧ ∃ evs,
      w_trace r.1 = w_trace w ++ evs
      ∧ w_trace rl.1 = w_trace wl ++ map (relog max_iterations max_epochs) evs.
Proof.
  intros (Hself & Hticks & Hfiles).
  destruct wl as [sl kl trl fsl], w as [s k tr fs]. simpl in *. subst sl kl fsl.
  unfold iteration_spec.
  cbn [w_self w_ticks w_trace w_files with_limits self_device self_config].
  destruct (split_outcome (self_device s) t) as [[[x y] wt]|e];
    [ | split_and!; try done; by eexists ].
  destruct p.
  - split; [ done | ]. split; [ done | ].
    eexists. split; [ reflexivity | ].
    unfold xpu_profile_events. rewrite !map_app, relog_counted. reflexivity.
  - pose proof (relog_conv (self_config s) x) as Hcev.
    destruct (conv_outcome (self_config s) x) as [cev [x'|e]]; cbn [fst snd] in *.
    + split; [ done | ].
      split; [ unfold same_but_limits; cbn [w_self w_ticks w_files];
               by rewrite <- advanced_with_limits | ].
      eexists. split; [ reflexivity | ].
      unfold loop_events. rewrite !map_app, Hcev, relog_sync, relog_counted.
      reflexivity.
    + split; [ done | ]. split; [ done | ].
      eexists. split; [ reflexivity | ]. rewrite !map_app, Hcev. reflexivity.
  - pose proof (relog_conv (self_config s) x) as Hcev.
    destruct (conv_outcome (self_config s) x) as [cev [x'|e]]; cbn [fst snd] in *.
    + split; [ done | ].
      split; [ unfold same_but_limits; cbn [w_self w_ticks w_files];
               by rewrite <- advanced_with_limits | ].
      eexists. split; [ reflexivity | ].
      unfold loop_events. rewrite !map_app, Hcev, relog_sync, relog_counted.
      reflexivity.
    + split; [ done | ]. split; [ done | ].
      eexists. split; [ reflexivity | ]. rewrite !map_app, Hcev. reflexivity.
Qed.

Lemma loop_ignores_limits p last dt bs totals wl w :
  same_but_limits max_iterations max_epochs wl w →
  let rl := for_each_batch (iteration_spec p last dt) bs totals wl in
  let r := for_each_batch (iteration_spec p last dt) bs totals w in
  rl.2 = r.2
  ∧ same_but_limits max_iterations max_epochs rl.1 r.1
  ∧ ∃ evs,
      w_trace r.1 = w_trace w ++ evs
      ∧ w_trace rl.1 = w_trace wl ++ map (relog max_iterations max_epochs) evs.
Proof.
  revert totals wl w. induction bs as [|t bs IH]; intros totals wl w Hsame; cbv zeta.
  - simpl. split_and!; try done. exists []. by rewrite !app_nil_r.
  - simpl. unfold bind.
    destruct (iteration_ignores_limits p last dt t totals wl w Hsame)
      as (Hr & Hsame1 & evs1 & Htr1 & Htrl1).
    destruct (iteration_spec p last dt t totals wl) as [wl1 rl1],
             (iteration_spec p last dt t totals w) as [w1 [[tot brk]|e]];
      cbn [fst snd] in *; subst rl1; [ | by eauto 10 ].
    destruct brk; cbn [fst snd]; [ by eauto 10 | ].
    destruct (IH tot wl1 w1 Hsame1) as (Hr2 & Hsame2 & evs2 & Htr2 & Htrl2).
    split; [ done | ]. split; [ done | ].
    exists (evs1 ++ evs2).
    rewrite Htr2, Htrl2, Htr1, Htrl1, map_app, !app_assoc. done.
Qed.

Lemma report_ignores_limits cfg totals wl w :
  same_but_limits max_iterations max_epochs wl w →
  (report cfg totals wl).2 = (report cfg totals w).2
  ∧ same_but_limits max_iterations max_epochs (report cfg totals wl).1
      (report cfg totals w).1
  ∧ ∃ evs,
      w_trace (report cfg totals w).1 = w_trace w ++ evs
      ∧ w_trace (report cfg totals wl).1
        = w_trace wl ++ map (relog max_iterations max_epochs) evs.
Proof.
  intros Hsame. destruct totals as [T C]. rewrite !report_cases.
  repeat destruct (Qeq_bool _ _); cbn [fst snd];
    (split; [ done | ]; split; [ done | ]);
    first [ by (exists []; rewrite !app_nil_r) | by eexists ].
Qed.

Lemma train_ignores_limits w :
  let wl := world_with_limits max_iterations max_epochs w in
  (train wl).2 = (train w).2
  ∧ same_but_limits max_iterations max_epochs (train wl).1 (train w).1
  ∧ ∃ evs,
      w_trace (train w).1 = w_trace w ++ evs
      ∧ w_trace (train wl).1 = w_trace w ++ map (relog max_iterations max_epochs) evs.
Proof.
  intros wl. rewrite !train_cases. cbv zeta.
  subst wl. cbn [w_self world_with_limits with_limits self_config].
  change (last_iter_of (with_limits max_iterations max_epochs (w_self w)))
    with (last_iter_of (w_self w)).
  set (p := path_of (self_config (w_self w))).
  set (wl0 := add_events [EModelTrain] (world_with_limits max_iterations max_epochs w)).
  set (w0 := add_events [EModelTrain] w).
  assert (Hsame0 : same_but_limits max_iterations max_epochs wl0 w0) by done.
  assert (Hloop :
    let rl := run_loop p (with_limits max_iterations max_epochs (w_self w)) wl0 in
    let r := run_loop p (w_self w) w0 in
    rl.2 = r.2
    ∧ same_but_limits max_iterations max_epochs rl.1 r.1
    ∧ ∃ evs,
        w_trace r.1 = w_trace w0 ++ evs
        ∧ w_trace rl.1 = w_trace wl0 ++ map (relog max_iterations max_epochs) evs).
  { unfold run_loop.
    change (last_iter_of (with_limits max_iterations max_epochs (w_self w)))
      with (last_iter_of (w_self w)).
    change (datatype_of_config (with_limits max_iterations max_epochs (w_self w)))
      with (datatype_of_config (w_self w)).
    change (profile_len_of (with_limits max_iterations max_epochs (w_self w)))
      with (profile_len_of (w_self w)).
    cbn [with_limits self_train_loader self_config].
    destruct p; try by apply loop_ignores_limits.
    rewrite !profiler_schedule_run. destruct (_ <? 0).
    { split; [ done | ]. split; [ done | ]. exists []. by rewrite !app_nil_r. }
    rewrite !with_context_run. cbn [fst snd].
    set (enter := EProfilerEnter _ _).
    assert (Hsame1 : same_but_limits max_iterations max_epochs
                       (add_events [enter] wl0) (add_events [enter] w0)) by done.
    destruct (loop_ignores_limits Profile (last_iter_of (w_self w))
                (datatype_of_config (w_self w)) (self_train_loader (w_self w)) (0%Q, 0)
                _ _ Hsame1) as (Hr & Hsame2 & evs & Htr & Htrl).
    split; [ done | ].
    split; [ destruct Hsame2 as (? & ? & ?); by split_and! | ].
    exists ([enter] ++ evs ++ [EProfilerExit]).
    unfold add_events at 1 3. cbn [w_trace]. rewrite Htr, Htrl.
    unfold add_events. cbn [w_trace]. rewrite !map_app, <- !app_assoc. done. }
  cbv zeta in Hloop. destruct Hloop as (Hr & Hsame1 & evs & Htr & Htrl).
  destruct (run_loop p (with_limits max_iterations max_epochs (w_self w)) wl0)
    as [wl1 rl],
    (run_loop p (w_self w) w0) as [w1 [totals|e]]; cbn [fst snd] in *; subst rl;
    cbn [fst snd].
  - destruct (report_ignores_limits (self_config (w_self w)) totals wl1 w1 Hsame1)
      as (Hr3 & Hsame3 & evs3 & Htr3 & Htrl3).
    split; [ done | ]. split; [ done | ].
    exists ([EModelTrain] ++ evs ++ evs3).
    rewrite Htr3, Htrl3, Htr, Htrl. subst wl0 w0. unfold add_events.
    cbn [w_trace world_with_limits]. rewrite !map_app, <- !app_assoc. done.
  - split; [ done | ]. split; [ done | ].
    exists ([EModelTrain] ++ evs).
    rewrite Htr, Htrl. subst wl0 w0. unfold add_events.
    cbn [w_trace world_with_limits]. rewrite !map_app, <- !app_assoc. done.
Qed.

End LimitsProofs.

(** X12: [train] does not enforce the limits of the trainer: it reads
    [max_num_iterations] and [max_num_epochs] for the line it logs at the
    start of an iteration and for nothing else ([should_stop] is not
    called).  Two runs that differ in the limits only end alike, read the
    clock as often, leave the same trainer (up to the limits) and the same
    checkpoints, and their traces differ in those log lines only. *)
Theorem train_does_not_enforce_limits `{Framework} max_iterations max_epochs (w : world) :
  let wl := world_with_limits max_iterations max_epochs w in
  (train wl).2 = (train w).2
  ∧ w_self (train wl).1 = with_limits max_iterations max_epochs (w_self (train w).1)
  ∧ w_ticks (train wl).1 = w_ticks (train w).1
  ∧ w_files (train wl).1 = w_files (train w).1
  ∧ ∃ evs,
      w_trace (train w).1 = w_trace w ++ evs
      ∧ w_trace (train wl).1 = w_trace w ++ map (relog max_iterations max_epochs) evs.
Proof.
  intros wl.
  destruct (train_ignores_limits max_iterations max_epochs w)
    as (Hr & (Hself & Hticks & Hfiles) & Hevs).
  by split_and!.
Qed.

(** ** A loader with fewer batches than [num_iter] *)

Section ShortLoaderProofs.

Context `{Framework}.

(** The loop of the generic-profiled or the unprofiled path on a loader
    that ends before [num_iter] is passed: it is left when the batches are
    used up. *)
Lemma loop_perf_lines_short p dt d cfg k0 W N L :
  p ≠ XpuProfile →
  cfg_num_warmup cfg = W →
  cfg_num_iter cfg = N →
  ∀ bs i totals w,
    self_config (w_self w) = cfg →
    self_device (w_self w) = d →
    self_num_iterations (w_self w) = i →
    0 ≤ i →
    i + Z.of_nat (length bs) ≤ N →
    w_ticks w = (k0 + 4 * Z.to_nat i)%nat →
    forallb (batch_ok d cfg) bs = true →
    let r := for_each_batch (iteration_spec p (L - 1) dt) bs totals w in
    r.2 = Ok (fold_left (count_step k0 W L) (seqZ i (Z.of_nat (length bs))) totals)
    ∧ self_num_iterations (w_self r.1) = i + Z.of_nat (length bs)
    ∧ ∃ evs,
        w_trace r.1 = w_trace w ++ evs
        ∧ perf_lines evs
          = flat_map (iteration_lines k0 W L) (seqZ i (Z.of_nat (length bs))).
Proof.
  intros Hp HW HN. induction bs as [|t bs IH];
    intros i totals w Hcfg Hd Hi Hi0 Hlen Hk Hok r.
  - subst r. simpl. split; [ done | ]. split; [ lia | ].
    exists []. by rewrite app_nil_r.
  - simpl in Hok. apply andb_true_iff in Hok as [Ht Hok].
    cbn [length] in *. rewrite seqZ_cons by lia.
    replace (Z.pred (Z.of_nat (S (length bs)))) with (Z.of_nat (length bs)) by lia.
    replace (Z.succ i) with (i + 1) by lia.
    subst r. cbn [for_each_batch fold_left flat_map]. unfold bind.
    unfold batch_ok in Ht. unfold iteration_spec. rewrite Hd, Hcfg.
    destruct (split_outcome d t) as [[[x y] wt]|e]; [ | done ].
    pose proof (perf_lines_conv cfg x) as Hcev.
    destruct (conv_outcome cfg x) as [cev [x'|e]]; cbn [fst snd] in *; [ | done ].
    set (evs0 := loop_events p (w_self w) (w_ticks w) (L - 1) dt t cev x' y wt).
    set (s1 := advanced (stepped (w_self w) (autocast_of p (cfg_device_str cfg))
                           dt x' y wt)).
    set (w1 := World s1 (S (S (S (S (w_ticks w))))) (w_trace w ++ evs0) (w_files w)).
    set (tot1 := counted_totals (w_self w) (L - 1) (duration_at (w_ticks w)) totals).
    assert (Htot : tot1 = count_step k0 W L totals i).
    { subst tot1. unfold counted_totals, count_step, is_counted, counts, duration_of.
      by rewrite Hcfg, HW, Hi, Hk. }
    assert (Hlines : perf_lines evs0 = iteration_lines k0 W L i).
    { subst evs0. rewrite perf_lines_loop_events by done.
      unfold iteration_lines, is_counted, counts, duration_of.
      by rewrite Hcfg, HW, Hi, Hk. }
    assert (Hlast : is_last (w_self w) = false).
    { unfold is_last. rewrite Hcfg, HN, Hi. apply Z.leb_gt. lia. }
    assert (Hrest :
      let rr := for_each_batch (iteration_spec p (L - 1) dt) bs tot1 w1 in
      rr.2 = Ok (fold_left (count_step k0 W L) (seqZ (i + 1) (Z.of_nat (length bs)))
                   (count_step k0 W L totals i))
      ∧ self_num_iterations (w_self rr.1) = i + Z.of_nat (S (length bs))
      ∧ ∃ evs, w_trace rr.1 = w_trace w ++ evs
               ∧ perf_lines evs
                 = iteration_lines k0 W L i
                   ++ flat_map (iteration_lines k0 W L)
                        (seqZ (i + 1) (Z.of_nat (length bs)))).
    { destruct (IH (i + 1) tot1 w1) as (Hr & Hiter & evs & Htr & Hevs).
      - subst w1 s1. cbn [w_self]. by rewrite self_config_advanced.
      - subst w1 s1. cbn [w_self]. unfold advanced. by destruct (is_last _).
      - subst w1 s1. cbn [w_self]. unfold stepped.
        rewrite advanced_stepped_iterations, Hlast. lia.
      - lia.
      - lia.
      - subst w1. cbn [w_ticks]. rewrite Hk. lia.
      - done.
      - cbv zeta. split; [ by rewrite Hr, Htot | ]. split; [ lia | ].
        exists (evs0 ++ evs). rewrite Htr. subst w1. cbn [w_trace].
        rewrite <- app_assoc. split; [ done | ].
        by rewrite perf_lines_app, Hlines, Hevs. }
    cbv zeta in Hrest. fold evs0 s1 w1 tot1.
    destruct p; [ done | | ]; rewrite Hlast; cbn [fst snd]; exact Hrest.
Qed.

(** The totals that a loop of [n >= L - 1] iterations leaves. *)
Lemma fold_count_step_upto k W L n :
  0 ≤ W → W + 1 < L → L - 1 ≤ n →
  fold_left (count_step k W L) (seqZ 0 n) (0%Q, 0)
  = (total_time_of k W L, L - W - 1).
Proof.
  intros HW HL Hn.
  replace n with (W + ((L - W - 1) + (n - (L - 1)))) by lia.
  rewrite seqZ_app by lia. rewrite seqZ_app by lia.
  rewrite !fold_left_app.
  rewrite (fold_count_skip _ _ _ (seqZ 0 W)); last first.
  { intros i [? ?]%elem_of_seqZ. unfold counts. apply andb_false_iff. left.
    apply Z.leb_gt. lia. }
  rewrite (fold_count_all _ _ _ (seqZ (0 + W) (L - W - 1))); last first.
  { intros i [? ?]%elem_of_seqZ. unfold counts. apply andb_true_iff. split.
    - apply Z.leb_le. lia.
    - apply Z.ltb_lt. lia. }
  rewrite fold_count_skip; last first.
  { intros i [? ?]%elem_of_seqZ. unfold counts. apply andb_false_iff. right.
    apply Z.ltb_ge. lia. }
  rewrite length_seqZ. unfold total_time_of. simpl. f_equal. lia.
Qed.

Lemma last_iter_of_short s :
  Z.of_nat (length (self_train_loader s)) ≤ cfg_num_iter (self_config s) →
  last_iter_of s = Z.of_nat (length (self_train_loader s)) - 1.
Proof. unfold last_iter_of. lia. Qed.

Lemma lines_of_app a b : lines_of (a ++ b) = lines_of a ++ lines_of b.
Proof. apply omap_app. Qed.

(** The lines without their times are read off the lines that report
    durations, counted iterations and totals. *)
Lemma lines_of_perf_lines evs : lines_of (perf_lines evs) = lines_of evs.
Proof.
  induction evs as [|e evs IH]; [ done | ].
  unfold lines_of, perf_lines in *.
  destruct e; simpl; first [ exact IH | f_equal; exact IH ].
Qed.

Lemma lines_of_iteration_lines k W L l :
  lines_of (flat_map (iteration_lines k W L) l) = flat_map (iteration_shape W L) l.
Proof.
  induction l as [|i l IH]; [ done | ].
  cbn [flat_map]. rewrite lines_of_app, IH. f_equal.
  unfold iteration_lines, iteration_shape. by destruct (counts W L i).
Qed.

Lemma train_short_loader (w : world) :
  let s := w_self w in
  let cfg := self_config s in
  let L := Z.of_nat (length (self_train_loader s)) in
  let W := cfg_num_warmup cfg in
  path_of cfg ≠ XpuProfile →
  self_num_iterations s = 0 →
  0 ≤ W →
  W + 1 < L →
  L ≤ cfg_num_iter cfg →
  forallb (batch_ok (self_device s) cfg) (self_train_loader s) = true →
  self_num_iterations (w_self (train w).1) = L
  ∧ ∃ evs,
      w_trace (train w).1 = w_trace w ++ evs
      ∧ lines_of evs
        = flat_map (iteration_shape W L) (seqZ 0 L)
          ++ match (train w).2 with
             | Ok _ => [LTotals (L - W - 1); LLatency; LThroughput]
             | Raise _ => []
             end.
Proof.
  intros s cfg L W Hp Hi HW HL HN Hok.
  set (T := total_time_of (w_ticks w) W L).
  assert (Hloop : ∀ w0,
            w_self w0 = s → w_ticks w0 = w_ticks w →
            let r := for_each_batch
                       (iteration_spec (path_of cfg) (last_iter_of s) (datatype_of_config s))
                       (self_train_loader s) (0%Q, 0) w0 in
            r.2 = Ok (T, L - W - 1)
            ∧ self_num_iterations (w_self r.1) = L
            ∧ ∃ evs, w_trace r.1 = w_trace w0 ++ evs
                     ∧ lines_of evs = flat_map (iteration_shape W L) (seqZ 0 L)).
  { intros w0 Hs Hk. rewrite last_iter_of_short by done. fold L.
    destruct (loop_perf_lines_short (path_of cfg) (datatype_of_config s) (self_device s)
                cfg (w_ticks w) W (cfg_num_iter cfg) L Hp eq_refl eq_refl
                (self_train_loader s) 0 (0%Q, 0) w0)
      as (Hr & Hiter & evs & Htr & Hevs); try (by rewrite Hs); try (fold L; lia); try done.
    fold L in Hr, Hiter, Hevs.
    rewrite fold_count_step_upto in Hr by lia. split; [ done | ].
    split; [ lia | ]. exists evs. split; [ done | ].
    by rewrite <- lines_of_perf_lines, Hevs, lines_of_iteration_lines. }
  assert (Hrun : let r := run_loop (path_of cfg) s (add_events [EModelTrain] w) in
            r.2 = Ok (T, L - W - 1)
            ∧ self_num_iterations (w_self r.1) = L
            ∧ ∃ evs, w_trace r.1 = w_trace w ++ evs
                     ∧ lines_of evs = flat_map (iteration_shape W L) (seqZ 0 L)).
  { unfold run_loop. destruct (path_of cfg) eqn:Hpath; [ done | | ].
    - rewrite profiler_schedule_run, profile_len_nonneg by (change (0 ≤ cfg_num_iter cfg); lia).
      rewrite with_context_run. cbn [fst snd].
      destruct (Hloop (add_events [EProfilerEnter
                  (if String.eqb (cfg_device_str (self_config s)) "cuda"
                   then ["CPU"; "CUDA"] else ["CPU"]) (profile_len_of s)]
                  (add_events [EModelTrain] w)))
        as (Hr & Hiter & evs & Htr & Hevs); [ done | done | ].
      split; [ done | ]. split; [ done | ].
      eexists. unfold add_events at 1. cbn [w_trace]. rewrite Htr.
      unfold add_events. cbn [w_trace]. rewrite <- !app_assoc.
      split; [ reflexivity | ].
      rewrite !lines_of_app, Hevs. simpl. by rewrite app_nil_r.
    - destruct (Hloop (add_events [EModelTrain] w))
        as (Hr & Hiter & evs & Htr & Hevs); [ done | done | ].
      split; [ done | ]. split; [ done | ].
      eexists. rewrite Htr. unfold add_events. cbn [w_trace]. rewrite <- !app_assoc.
      split; [ reflexivity | ]. by rewrite lines_of_app, Hevs. }
  rewrite train_cases. cbv zeta in Hrun |- *. fold s cfg.
  destruct Hrun as (Hr & Hiter & evs & Htr & Hevs).
  destruct (run_loop (path_of cfg) s (add_events [EModelTrain] w)) as [w1 r1].
  cbn [fst snd] in *. subst r1.
  rewrite report_cases.
  repeat destruct (Qeq_bool _ _); cbn [fst snd];
    (split; [ done | ]);
    [ exists evs | exists evs | exists evs | eexists ];
    unfold add_events; cbn [w_trace]; rewrite ?Htr, <- ?app_assoc;
    (split; [ reflexivity | ]);
    rewrite ?lines_of_app, Hevs; by rewrite ?app_nil_r.
Qed.

End ShortLoaderProofs.

(** X13: with a loader of [L <= num_iter] batches, [num_warmup = W >= 0],
    [W + 1 < L] and [num_iterations = 0] at the start, [train] on the
    generic-profiled and on the unprofiled path runs the [L] well-formed
    batches (iterations 0, ..., [L - 1]) and leaves the loop when they are
    used up, with [num_iterations = L].  [last_iter] is [L - 1], so the last
    batch is run but not counted: each iteration prints its line, and the
    line that says it counts exactly when [W <= i < L - 1].  The totals
    follow exactly when [train] returns, and their [total_count] is
    [L - W - 1].  Nothing is said of the times printed, nor of whether the
    divisions of lines 369-371 raise. *)
Theorem train_on_short_loader `{Framework} (w : world) :
  let s := w_self w in
  let cfg := self_config s in
  let L := Z.of_nat (length (self_train_loader s)) in
  let W := cfg_num_warmup cfg in
  path_of cfg ≠ XpuProfile →
  self_num_iterations s = 0 →
  0 ≤ W →
  W + 1 < L →
  L ≤ cfg_num_iter cfg →
  forallb (batch_ok (self_device s) cfg) (self_train_loader s) = true →
  self_num_iterations (w_self (train w).1) = L
  ∧ ∃ evs,
      w_trace (train w).1 = w_trace w ++ evs
      ∧ lines_of evs
        = flat_map (iteration_shape W L) (seqZ 0 L)
          ++ match (train w).2 with
             | Ok _ => [LTotals (L - W - 1); LLatency; LThroughput]
             | Raise _ => []
             end.
Proof. apply train_short_loader. Qed.

Lemma train_on_short_loader_witness :
  self_num_iterations (w_self (train (toy_world_of 3 (toy_config false "cpu" 1))).1) = 3
  ∧ ∃ evs,
      w_trace (train (toy_world_of 3 (toy_config false "cpu" 1))).1 = [] ++ evs
      ∧ lines_of evs
        = [LIteration 0; LCounted 0; LIteration 1; LCounted 1; LIteration 2;
           LTotals 2; LLatency; LThroughput].
Proof.
  destruct (@train_on_short_loader (toy_framework false)
              (toy_world_of 3 (toy_config false "cpu" 1)))
    as (Hiter & evs & Htr & Hlines).
  - discriminate.
  - reflexivity.
  - vm_compute. discriminate.
  - reflexivity.
  - vm_compute. discriminate.
  - reflexivity.
  - split; [ exact Hiter | ].
    exists evs. split; [ exact Htr | ].
    etransitivity; [ exact Hlines | ]. vm_compute. reflexivity.
Defined.

(** ** [should_stop] *)

Section ShouldStopProofs.

Context `{Framework}.

Lemma should_stop_cases learning_rate w :
  should_stop learning_rate w
  = if self_max_num_iterations (w_self w) <? self_num_iterations (w_self w)
    then (add_events [ELogInfo "Maximum number of iterations exceeded."] w, Ok true)
    else match learning_rate (self_optimizer (w_self w)) with
         | Raise e => (w, Raise e)
         | Ok lr =>
             if float_lt lr min_lr
             then (add_events [ELogInfo "Learning rate below the minimum."] w, Ok true)
             else (w, Ok false)
         end.
Proof.
  unfold should_stop, bind, self, get, ret, lift, trace, modify. simpl.
  destruct (_ <? _); [ done | ].
  destruct (learning_rate _) as [lr|e]; [ | done ].
  by destruct (float_lt lr min_lr).
Qed.

Lemma train_keeps_limit w :
  self_max_num_iterations (w_self w) < self_num_iterations (w_self w) →
  self_max_num_iterations (w_self (train w).1)
  < self_num_iterations (w_self (train w).1).
Proof.
  intros Hlt. destruct (train_trained_from w) as [Hfrom Hi].
  rewrite (f_equal self_max_num_iterations Hfrom). simpl. lia.
Qed.

End ShouldStopProofs.

(** X14: [should_stop] compares strictly: at [num_iterations =
    max_num_iterations] the limit is not exceeded, and then the answer is
    whether the learning rate is below [1e-6] ([False] for a [nan] rate,
    and what reading the rate raises is raised).  Beyond the limit it
    answers [True] without reading the learning rate, and it goes on
    answering [True] after any further run of [train], which never takes
    [num_iterations] back.  In no case does it change the trainer. *)
Theorem should_stop_limit_is_strict_and_stable `{Framework}
    (learning_rate : optimizer → result pyfloat) (w : world) :
  (self_num_iterations (w_self w) ≤ self_max_num_iterations (w_self w) →
     (should_stop learning_rate w).2
     = match learning_rate (self_optimizer (w_self w)) with
       | Ok lr => Ok (float_lt lr min_lr)
       | Raise e => Raise e
       end
     ∧ (learning_rate (self_optimizer (w_self w)) = Ok NaN →
        should_stop learning_rate w = (w, Ok false)))
  ∧ (self_max_num_iterations (w_self w) < self_num_iterations (w_self w) →
       should_stop learning_rate w
       = (add_events [ELogInfo "Maximum number of iterations exceeded."] w, Ok true)
       ∧ (should_stop learning_rate (train w).1).2 = Ok true)
  ∧ w_self (should_stop learning_rate w).1 = w_self w.
Proof.
  split_and!.
  - intros Hle. rewrite should_stop_cases.
    destruct (Z.ltb_spec (self_max_num_iterations (w_self w))
                (self_num_iterations (w_self w))) as [Hlt | _]; [ lia | ].
    split.
    + destruct (learning_rate _) as [lr|e]; [ | done ]. by destruct (float_lt lr min_lr).
    + by intros ->.
  - intros Hlt. split.
    + rewrite should_stop_cases.
      by destruct (Z.ltb_spec (self_max_num_iterations (w_self w))
                     (self_num_iterations (w_self w))) as [_ | Hle]; [ | lia ].
    + pose proof (train_keeps_limit w Hlt) as Hlt'.
      rewrite should_stop_cases.
      by destruct (Z.ltb_spec (self_max_num_iterations (w_self (train w).1))
                     (self_num_iterations (w_self (train w).1))) as [_ | Hle]; [ | lia ].
  - rewrite should_stop_cases. destruct (_ <? _); [ done | ].
    destruct (learning_rate _) as [lr|e]; [ | done ]. by destruct (float_lt lr min_lr).
Qed.

Lemma should_stop_limit_is_strict_and_stable_witness :
  let at_limit :=
    @World (toy_framework false)
      (@Trainer (toy_framework false) 1 0 tt tt tt (Device "cpu" "cpu")
         [[1; 2]; [3; 4]; [5; 6]; [7; 8]]
         "checkpoints" 10 3 true (toy_config false "cpu" 1) NegInf tt 3 0)
      0 [] ∅ in
  let beyond :=
    @World (toy_framework false)
      (@Trainer (toy_framework false) 1 0 tt tt tt (Device "cpu" "cpu")
         [[1; 2]; [3; 4]; [5; 6]; [7; 8]]
         "checkpoints" 10 3 true (toy_config false "cpu" 1) NegInf tt 4 0)
      0 [] ∅ in
  (@should_stop (toy_framework false) (λ _, Ok (Finite (1 # 1000))) at_limit).2 = Ok false
  ∧ (@should_stop (toy_framework false) (λ _, Raise (Exn IndexError "param_groups"))
       beyond).2 = Ok true.
Proof.
  intros at_limit beyond. split.
  - destruct (@should_stop_limit_is_strict_and_stable (toy_framework false)
                (λ _, Ok (Finite (1 # 1000))) at_limit) as ([Hr _] & _).
    + simpl. lia.
    + rewrite Hr. reflexivity.
  - destruct (@should_stop_limit_is_strict_and_stable (toy_framework false)
                (λ _, Raise (Exn IndexError "param_groups")) beyond) as (_ & Hb & _).
    destruct Hb as [Hr _].
    + simpl. lia.
    + rewrite Hr. reflexivity.
Defined.

(** ** Nested batches *)

Section BatchProofs.

Context `{Framework}.

Lemma batch_ind (P : batch → Prop) :
  (∀ x, P (BTensor x)) →
  (∀ is_tuple items, Forall P items → P (BSeq is_tuple items)) →
  ∀ b, P b.
Proof.
  intros Hleaf Hseq. fix IH 1. intros [x | is_tuple items].
  - apply Hleaf.
  - apply Hseq. induction items as [|b items IHitems]; constructor.
    + apply IH.
    + apply IHitems.
Qed.

Lemma move_tensors d b :
  tensors_of (_move_to_device d b) = map (λ x, tensor_to_device x d) (tensors_of b).
Proof.
  induction b as [x | is_tuple items IH] using batch_ind; [ done | ].
  simpl. induction IH as [|b items Hb _ IHitems]; [ done | ].
  simpl. by rewrite map_app, Hb, IHitems.
Qed.

Lemma move_nesting d b : nesting_of (_move_to_device d b) = nesting_of b.
Proof.
  induction b as [x | is_tuple items IH] using batch_ind; [ done | ].
  simpl. f_equal. induction IH as [|b items Hb _ IHitems]; [ done | ].
  simpl. by rewrite Hb, IHitems.
Qed.

Lemma move_tuples d b : tuples_only (_move_to_device d b) = true.
Proof.
  induction b as [x | is_tuple items IH] using batch_ind; [ done | ].
  simpl. induction IH as [|b items Hb _ IHitems]; [ done | ].
  simpl. by rewrite Hb, IHitems.
Qed.

Lemma split_batch_cases d items :
  split_batch d items
  = match items with
    | [a; b] => Ok (_move_to_device d a, _move_to_device d b, None)
    | [a; b; c] =>
        Ok (_move_to_device d a, _move_to_device d b, Some (_move_to_device d c))
    | _ => Raise (Exn ValueError "unpack")
    end.
Proof. unfold split_batch. simpl. by destruct items as [|a [|b [|c [|]]]]. Qed.

End BatchProofs.

(** X15: [_move_to_device] moves every tensor of a batch to the device of
    the trainer and nothing else: the tensors of the result are those of
    the batch, each moved, in the same order; the nesting is the same; and
    every list of the batch has become a tuple. *)
Theorem move_to_device_keeps_structure `{Framework} (d : device) (b : batch) :
  tensors_of (_move_to_device d b) = map (λ x, tensor_to_device x d) (tensors_of b)
  ∧ nesting_of (_move_to_device d b) = nesting_of b
  ∧ tuples_only (_move_to_device d b) = true.
Proof.
  split; [ apply move_tensors | ]. split; [ apply move_nesting | apply move_tuples ].
Qed.

(** X16: [_split_training_batch] returns on a batch of two or of three
    items exactly, with the moved items as input, target and weight (no
    weight for two items); on a batch of any other length the unpacking of
    line 435 raises a [ValueError].  On a batch of tensors this is
    the outcome that the loops of [train] see, and the call leaves the
    trainer, the clock and the files alone. *)
Theorem split_training_batch_arity `{Framework} (d : device) (items : list batch) :
  ((∃ r, split_batch d items = Ok r) ↔ length items = 2%nat ∨ length items = 3%nat)
  ∧ ((∀ r, split_batch d items ≠ Ok r) →
     split_batch d items = Raise (Exn ValueError "unpack"))
  ∧ (∀ x y wt,
       split_batch d items = Ok (x, y, wt) →
       x :: y :: option_list wt = map (_move_to_device d) items
       ∧ (wt = None ↔ length items = 2%nat))
  ∧ (∀ ts : list tensor,
       split_batch d (map BTensor ts)
       = match split_outcome d ts with
         | Ok (x, y, wt) => Ok (BTensor x, BTensor y, BTensor <$> wt)
         | Raise e => Raise e
         end)
  ∧ (∀ (ts : list tensor) (w : world),
       _split_training_batch ts w
       = (add_events [EToDevice ts (self_device (w_self w))] w,
          split_outcome (self_device (w_self w)) ts)).
Proof.
  rewrite split_batch_cases. split_and!.
  - destruct items as [|a [|b [|c [|]]]]; simpl; split;
      first [ by (intros [r Hr]; discriminate Hr)
            | by (intros [Hl | Hl]; discriminate Hl)
            | by (intros _; left)
            | by (intros _; right)
            | by (intros _; eexists) ].
  - destruct items as [|a [|b [|c [|]]]]; simpl; intros Hno; try done;
      by edestruct Hno.
  - intros x y wt. destruct items as [|a [|b [|c [|]]]]; simpl; try done;
      intros [= <- <- <-]; (split; [ done | by split ]).
  - intros ts. rewrite split_batch_cases. unfold split_outcome.
    by destruct ts as [|a [|b [|c [|]]]].
  - intros ts w. apply split_run.
Qed.

Lemma split_training_batch_arity_witness :
  @split_batch (toy_framework false) (Device "cpu" "cpu")
    [@BTensor (toy_framework false) 1]
  = Raise (Exn ValueError "unpack").
Proof.
  destruct (@split_training_batch_arity (toy_framework false) (Device "cpu" "cpu")
              [@BTensor (toy_framework false) 1]) as (_ & Hno & _).
  apply Hno. intros r. discriminate.
Defined.

(** ** The best score over a sequence of evaluations *)

Lemma float_le_trans a b c :
  float_le a b = true → float_le b c = true → float_le a c = true.
Proof.
  destruct a as [| |x|], b as [| |y|], c as [| |z|]; simpl; try done.
  intros Hxy%Qle_bool_iff Hyz%Qle_bool_iff. apply Qle_bool_iff.
  by apply Qle_trans with y.
Qed.

Lemma float_lt_irrefl a : float_lt a a = false.
Proof.
  destruct a as [| |x|]; simpl; try done.
  apply negb_false_iff, Qle_bool_iff, Qle_refl.
Qed.

Lemma better_irrefl hib a : better hib a a = false.
Proof. unfold better, float_gt. destruct hib; apply float_lt_irrefl. Qed.

Lemma better_nan_l hib a : better hib NaN a = false.
Proof. unfold better, float_gt. by destruct hib, a. Qed.

Lemma better_nan_r hib a : better hib a NaN = false.
Proof. unfold better, float_gt. by destruct hib, a. Qed.

Lemma py_best_better hib a b :
  py_best hib a b = if better hib b a then b else a.
Proof. unfold py_best, py_max, py_min, better. by destruct hib. Qed.

Lemma py_best_not_nan hib a b :
  is_nan a = false → is_nan b = false → is_nan (py_best hib a b) = false.
Proof. intros Ha Hb. rewrite py_best_better. by destruct (better hib b a). Qed.

Lemma as_good_trans hib a b c :
  as_good hib a b = true → as_good hib b c = true → as_good hib a c = true.
Proof.
  unfold as_good. destruct hib; intros Hab Hbc.
  - by apply float_le_trans with b.
  - by apply float_le_trans with b.
Qed.

Lemma py_best_as_good hib a b :
  is_nan a = false → is_nan b = false →
  as_good hib (py_best hib a b) a = true ∧ as_good hib (py_best hib a b) b = true.
Proof.
  intros Ha Hb. unfold py_best, py_max, py_min, as_good, float_gt.
  destruct hib.
  - destruct (float_lt a b) eqn:Hlt.
    + split; [ by apply float_lt_le | by apply float_le_refl ].
    + split; [ by apply float_le_refl | by apply float_not_lt_le ].
  - destruct (float_lt b a) eqn:Hlt.
    + split; [ by apply float_lt_le | by apply float_le_refl ].
    + split; [ by apply float_le_refl | by apply float_not_lt_le ].
Qed.

Section BestScoreProofs.

Context `{Framework}.

Lemma is_best_after x w :
  let s := w_self w in
  let s' := w_self (_is_best_eval_score x w).1 in
  self_eval_score_higher_is_better s' = self_eval_score_higher_is_better s
  ∧ self_best_eval_score s'
    = py_best (self_eval_score_higher_is_better s) (self_best_eval_score s) x.
Proof.
  cbv zeta. rewrite is_best_run, py_best_better. cbv zeta.
  by destruct (better _ x _).
Qed.

Lemma is_best_scores_cons x xs w :
  (is_best_eval_scores (x :: xs) w).1
  = (is_best_eval_scores xs (_is_best_eval_score x w).1).1.
Proof.
  simpl. erewrite bind_ok by apply is_best_run.
  rewrite is_best_run. cbv zeta. cbn [fst]. unfold bind, ret.
  match goal with
  | |- context [is_best_eval_scores xs ?w'] =>
      destruct (is_best_eval_scores xs w') as [w2 [bs|e]]
  end; reflexivity.
Qed.

Lemma is_best_scores_fold xs w :
  let s := w_self w in
  let s' := w_self (is_best_eval_scores xs w).1 in
  self_eval_score_higher_is_better s' = self_eval_score_higher_is_better s
  ∧ self_best_eval_score s'
    = fold_left (py_best (self_eval_score_higher_is_better s)) xs
        (self_best_eval_score s).
Proof.
  revert w. induction xs as [|x xs IH]; intros w; cbv zeta; [ done | ].
  rewrite is_best_scores_cons.
  destruct (is_best_after x w) as [Hh Hb].
  destruct (IH (_is_best_eval_score x w).1) as [Hh' Hb'].
  split; [ congruence | ]. rewrite Hb', Hh, Hb. reflexivity.
Qed.

Lemma fold_best_is_best hib xs prev :
  is_nan prev = false →
  forallb (λ x, negb (is_nan x)) xs = true →
  let best := fold_left (py_best hib) xs prev in
  is_nan best = false
  ∧ In best (prev :: xs)
  ∧ ∀ x, In x (prev :: xs) → as_good hib best x = true.
Proof.
  revert prev. induction xs as [|x xs IH]; intros prev Hprev Hxs best; subst best.
  - simpl. split; [ done | ]. split; [ by left | ].
    intros x [<- | []]. unfold as_good. destruct hib; by apply float_le_refl.
  - simpl in Hxs. apply andb_true_iff in Hxs as [Hx%negb_true_iff Hxs].
    destruct (IH (py_best hib prev x) (py_best_not_nan hib prev x Hprev Hx) Hxs)
      as (Hnan & Hin & Hall).
    destruct (py_best_as_good hib prev x Hprev Hx) as [Hgp Hgx].
    simpl. split; [ exact Hnan | ]. split.
    + destruct Hin as [Heq | Hin]; [ | by right; right ].
      rewrite <- Heq, py_best_better. destruct (better hib x prev); auto.
    + intros y [<- | [<- | Hy]].
      * eapply as_good_trans; [ apply Hall; by left | exact Hgp ].
      * eapply as_good_trans; [ apply Hall; by left | exact Hgx ].
      * apply Hall. by right.
Qed.

End BestScoreProofs.

(** X17: a [nan] score is never the best: [_is_best_eval_score(nan)]
    returns [False] and changes nothing.  And once the best score is [nan]
    (as after resuming from a checkpoint that holds one) no score replaces
    it: every call returns [False] and changes nothing. *)
Theorem nan_score_is_never_best `{Framework} (w : world) :
  _is_best_eval_score NaN w = (w, Ok false)
  ∧ (self_best_eval_score (w_self w) = NaN →
     ∀ x, _is_best_eval_score x w = (w, Ok false)).
Proof.
  split.
  - rewrite is_best_run. cbv zeta. by rewrite better_nan_l.
  - intros Hnan x. rewrite is_best_run. cbv zeta. by rewrite Hnan, better_nan_r.
Qed.

Lemma nan_score_is_never_best_witness :
  let w := @World (toy_framework false)
             (@Trainer (toy_framework false) 1 0 tt tt tt (Device "cpu" "cpu") [[1; 2]]
                "checkpoints" 10 1000 true (toy_config false "cpu" 1) NaN tt 0 0)
             0 [] ∅ in
  @_is_best_eval_score (toy_framework false) PosInf w = (w, Ok false).
Proof.
  intros w.
  destruct (@nan_score_is_never_best (toy_framework false) w) as [_ Hnan].
  apply Hnan. reflexivity.
Defined.

(** X18: a score that equals the best so far is not an improvement: a
    second call of [_is_best_eval_score] with the score of the call before
    returns [False] and changes nothing (no second "best" checkpoint for a
    tie). *)
Theorem same_score_twice_is_not_best `{Framework} (w : world) x :
  let w1 := (_is_best_eval_score x w).1 in
  _is_best_eval_score x w1 = (w1, Ok false).
Proof.
  cbv zeta. rewrite (is_best_run x (_is_best_eval_score x w).1). cbv zeta.
  destruct (is_best_after x w) as [-> ->].
  rewrite py_best_better.
  destruct (better _ x (self_best_eval_score (w_self w))) eqn:Hb.
  - by rewrite better_irrefl.
  - by rewrite Hb.
Qed.

(** X19: over a sequence of calls of [_is_best_eval_score] with scores
    that are not [nan], from a best score that is not [nan], the best score
    that is left is the best of all: it is the start value or one of the
    scores, it is at least as good as each of them, and it is the fold of
    [max] (or [min]) over the scores. *)
Theorem best_score_is_best_of_all `{Framework} (w : world) xs :
  let hib := self_eval_score_higher_is_better (w_self w) in
  let prev := self_best_eval_score (w_self w) in
  let best := self_best_eval_score (w_self (is_best_eval_scores xs w).1) in
  is_nan prev = false →
  forallb (λ x, negb (is_nan x)) xs = true →
  best = fold_left (py_best hib) xs prev
  ∧ In best (prev :: xs)
  ∧ ∀ x, In x (prev :: xs) → as_good hib best x = true.
Proof.
  intros hib prev best Hprev Hxs. subst best.
  destruct (is_best_scores_fold xs w) as [_ ->]. fold hib prev.
  destruct (fold_best_is_best hib xs prev Hprev Hxs) as (_ & Hin & Hall).
  by split_and!.
Qed.

Lemma best_score_is_best_of_all_witness :
  let w := toy_world false (toy_config false "cpu" 1) in
  let xs := [Finite 1; Finite 3; Finite 2] in
  self_best_eval_score (w_self (is_best_eval_scores xs w).1) = Finite 3.
Proof.
  intros w xs.
  destruct (@best_score_is_best_of_all (toy_framework false) w xs) as (Hbest & _).
  - reflexivity.
  - reflexivity.
  - rewrite Hbest. vm_compute. reflexivity.
Defined.
